(** * Alert evaluation and lifecycle engine of scripts/performance-monitor.py

    A shallow embedding of the monitoring script: the statistics of
    [AnomalyDetector], the alert lifecycle of [PerformanceMonitor]
    (threshold, anomaly and predictive paths), the persistence of the alert
    log and the report aggregator, the configuration file, the application
    probes and the one-shot modes of [main], followed by the properties of
    the engine.

    Conventions of the embedding.
    - A Python [float] is an exact rational ([Q]); rounding, infinities and
      NaN are outside the model.  Python [int]s are [Z].
    - Exceptions are values of [exn]; a computation that may raise returns a
      [result].  Methods of the monitor run in the monad [M], which threads
      the monitor together with its environment (clock, alert file, sent
      notifications, log lines) and keeps the state reached when an
      exception is raised, as [try]/[except] observes it.
    - The parts of the Python runtime the script calls but does not define
      ([math.sqrt] under [statistics.stdev], the [".2f"] format and [str]
      of a number) are the fields of the class [Runtime]. *)

From Stdlib Require Import ZArith QArith Qabs Qround Lqa String Ascii List Lia DecimalString.
From stdpp Require Import base gmap strings list.

Open Scope Q_scope.

(** ** Exceptions and results *)

Inductive exn : Type :=
| ZeroDivisionError
| StatisticsError
| KeyError
| TypeError
| ValueError
| OSError.

Inductive result (A : Type) : Type :=
| Ok (a : A)
| Raise (e : exn).
Arguments Ok {A} a.
Arguments Raise {A} e.

Definition result_bind {A B} (m : result A) (k : A -> result B) : result B :=
  match m with
  | Ok a => k a
  | Raise e => Raise e
  end.

Declare Scope result_scope.
Delimit Scope result_scope with result.
Notation "'let?' x := m 'in' k" := (result_bind m (fun x => k))
  (at level 10, x name, m at level 100, k at level 200) : result_scope.

(** ** The Python runtime used by the script *)

Class Runtime : Type := {
  sqrt : Q -> Q;            (* math.sqrt, reached through statistics.stdev *)
  format_2f : Q -> string;  (* format(x, ".2f") *)
  str : Q -> string         (* str(x), as an f-string renders {x} *)
}.

(** ** Numbers *)

(** [x > y] on numbers. *)
Definition Qgtb (x y : Q) : bool := negb (Qle_bool x y).
(** [x < y] on numbers. *)
Definition Qltb (x y : Q) : bool := negb (Qle_bool y x).

(** [a / b]; Python raises on a zero divisor. *)
Definition py_div (a b : Q) : result Q :=
  if Qeq_bool b 0 then Raise ZeroDivisionError else Ok (a / b).

(** The built-in [sum]: a left fold from 0. *)
Definition sum (l : list Q) : Q := fold_left Qplus l 0.
Definition sumZ (l : list Z) : Z := fold_left Z.add l 0%Z.

(** [range(n)]. *)
Definition range (n : nat) : list Z := seqZ 0 (Z.of_nat n).

(** [l[start:]], with Python's treatment of a negative or too large
    [start]; note that [l[-0:]] is the whole list. *)
Definition slice_from {A} (start : Z) (l : list A) : list A :=
  let len := Z.of_nat (length l) in
  let i := if (start <? 0)%Z then Z.max (len + start) 0 else Z.min start len in
  drop (Z.to_nat i) l.

(** ** The statistics module *)

Definition mean (data : list Q) : result Q :=
  match data with
  | [] => Raise StatisticsError
  | _ => Ok (sum data / inject_Z (Z.of_nat (length data)))
  end.

(** Sum of the squared deviations from [c]. *)
Definition sum_sq_dev (c : Q) (data : list Q) : Q :=
  sum (map (fun x => (x - c) * (x - c)) data).

Definition variance (data : list Q) : result Q :=
  if (length data <? 2)%nat then Raise StatisticsError
  else
    let n := inject_Z (Z.of_nat (length data)) in
    let c := sum data / n in
    Ok (sum_sq_dev c data / (n - 1)).

Definition stdev `{Runtime} (data : list Q) : result Q :=
  (let? v := variance data in Ok (sqrt v))%result.

(** ** AnomalyDetector *)

Module AnomalyDetector.

Record t : Type := {
  window_size : Z;
  threshold : Q;
  data_history : gmap string (list Q)
}.

(** [AnomalyDetector()] with the defaults of [__init__]. *)
Definition new : t :=
  {| window_size := 50; threshold := 25 # 10; data_history := ∅ |}.

Definition add_data_point (metric_name : string) (value : Q)
    (d : t) : t :=
  let h0 := default [] (data_history d !! metric_name) in
  let h1 := h0 ++ [value] in
  let h2 :=
    if (window_size d <? Z.of_nat (length h1))%Z
    then slice_from (- window_size d) h1 else h1 in
  {| window_size := window_size d;
     threshold := threshold d;
     data_history := <[metric_name := h2]> (data_history d) |}.

Definition is_anomaly `{Runtime} (d : t) (metric_name : string)
    (value : Q) : result (bool * Q) :=
  match data_history d !! metric_name with
  | None => Ok (false, 0)
  | Some history =>
    if (length history <? 10)%nat then Ok (false, 0)
    else
      (let? mean_ := mean history in
       let? std_dev :=
         (if (1 <? length history)%nat then stdev history else Ok 0) in
       if Qeq_bool std_dev 0 then Ok (false, 0)
       else
         let? q := py_div (value - mean_) std_dev in
         let z_score := Qabs q in
         Ok (Qgtb z_score (threshold d), z_score))%result
  end.

(** The sums of the regression in [detect_trend], over [x = range(n)];
    [x[i] * recent_data[i] for i in range(n)] pairs the two lists, which
    have the same length. *)
Definition sum_x (n : nat) : Z := sumZ (range n).
Definition sum_x2 (n : nat) : Z := sumZ (map (fun xi => xi * xi)%Z (range n)).
Definition sum_xy (recent_data : list Q) : Q :=
  sum (zip_with (fun xi yi => inject_Z xi * yi)
         (range (length recent_data)) recent_data).

(** [n * sum_x2 - sum_x * sum_x], an [int]. *)
Definition slope_denominator (n : nat) : Z :=
  (Z.of_nat n * sum_x2 n - sum_x n * sum_x n)%Z.

Definition slope_numerator (recent_data : list Q) : Q :=
  let n := length recent_data in
  inject_Z (Z.of_nat n) * sum_xy recent_data
  - inject_Z (sum_x n) * sum recent_data.

Definition slope (recent_data : list Q) : result Q :=
  py_div (slope_numerator recent_data)
         (inject_Z (slope_denominator (length recent_data))).

Definition classify_slope (s : Q) : string :=
  if Qgtb s (1 # 10) then "increasing"
  else if Qltb s (- (1 # 10)) then "decreasing"
  else "stable".

Definition detect_trend (d : t) (metric_name : string)
    (points : Z) : result string :=
  match data_history d !! metric_name with
  | None => Ok "insufficient_data"%string
  | Some history =>
    if (Z.of_nat (length history) <? points)%Z then Ok "insufficient_data"%string
    else
      let recent_data := slice_from (- points) history in
      (let? s := slope recent_data in Ok (classify_slope s))%result
  end.

End AnomalyDetector.

(** ** Strings *)

(** [sub in s] on strings. *)
Fixpoint str_in (sub s : string) : bool :=
  String.prefix sub s ||
  match s with
  | EmptyString => false
  | String _ s' => str_in sub s'
  end.

(** ** datetime *)

(** A naive [datetime]; Python only builds the ones [valid_datetime]
    accepts. *)
Record datetime : Type := {
  year : Z; month : Z; day : Z;
  hour : Z; minute : Z; second : Z; microsecond : Z
}.

Definition is_leap (y : Z) : bool :=
  ((y mod 4 =? 0) && (negb (y mod 100 =? 0) || (y mod 400 =? 0)))%Z.

Definition days_in_month (y m : Z) : Z :=
  if (m =? 2)%Z then (if is_leap y then 29 else 28)%Z
  else if ((m =? 4) || (m =? 6) || (m =? 9) || (m =? 11))%Z then 30%Z
  else 31%Z.

Definition between (lo x hi : Z) : bool := ((lo <=? x) && (x <=? hi))%Z.

Definition valid_datetime (d : datetime) : bool :=
  between 1 (year d) 9999 && between 1 (month d) 12 &&
  between 1 (day d) (days_in_month (year d) (month d)) &&
  between 0 (hour d) 23 && between 0 (minute d) 59 &&
  between 0 (second d) 59 && between 0 (microsecond d) 999999.

(** Days before the first of January of year [y], and before the first of
    month [m] in year [y]. *)
Definition days_before_year (y : Z) : Z :=
  let p := (y - 1)%Z in (p * 365 + p / 4 - p / 100 + p / 400)%Z.

Definition days_before_month (y m : Z) : Z :=
  sumZ (map (days_in_month y) (seqZ 1 (m - 1))).

(** Microseconds since the start of year 1: the order of [datetime]s, and
    what subtracting a [timedelta] acts on. *)
Definition to_micros (d : datetime) : Z :=
  let days := (days_before_year (year d) + days_before_month (year d) (month d)
               + (day d - 1))%Z in
  ((((days * 24 + hour d) * 60 + minute d) * 60 + second d) * 1000000
   + microsecond d)%Z.

(** [timedelta(hours=24)] in microseconds. *)
Definition hours_24 : Z := 86400000000.

(** [a > now - timedelta(hours=24)]. *)
Definition within_24h (now a : datetime) : bool :=
  (to_micros now - hours_24 <? to_micros a)%Z.

(** Decimal digits, fixed width, zero padded. *)
Definition digit_char (d : Z) : ascii :=
  ascii_of_nat (48 + Z.to_nat d).

Definition char_digit (c : ascii) : option Z :=
  let n := nat_of_ascii c in
  if ((48 <=? n) && (n <=? 57))%nat then Some (Z.of_nat (n - 48)) else None.

Fixpoint digits (width : nat) (n : Z) : string :=
  match width with
  | O => EmptyString
  | S w => (digits w (n / 10) ++ String (digit_char (n mod 10)) EmptyString)%string
  end.

(** Reads [width] digits off the front of [s]. *)
Fixpoint take_digits (width : nat) (acc : Z) (s : string) : option (Z * string) :=
  match width with
  | O => Some (acc, s)
  | S w =>
    match s with
    | EmptyString => None
    | String c s' =>
      match char_digit c with
      | Some d => take_digits w (acc * 10 + d)%Z s'
      | None => None
      end
    end
  end.

(** Reads the character [c] off the front of [s]. *)
Definition expect (c : ascii) (s : string) : option string :=
  match s with
  | String c' s' => if Ascii.eqb c c' then Some s' else None
  | EmptyString => None
  end.

(** [d.isoformat()]: YYYY-MM-DDTHH:MM:SS, then .ffffff unless the
    microseconds are 0. *)
Definition isoformat (d : datetime) : string :=
  (digits 4 (year d) ++ "-" ++ digits 2 (month d) ++ "-" ++ digits 2 (day d)
   ++ "T" ++ digits 2 (hour d) ++ ":" ++ digits 2 (minute d) ++ ":"
   ++ digits 2 (second d)
   ++ (if (microsecond d =? 0)%Z then "" else "." ++ digits 6 (microsecond d)))%string.

(** [datetime.fromisoformat(s)] on the two shapes [isoformat] writes; any
    other text raises [ValueError]. *)
Definition fromisoformat (s : string) : result datetime :=
  let parsed :=
    '(y, s) ← take_digits 4 0 s; s ← expect "-" s;
    '(mo, s) ← take_digits 2 0 s; s ← expect "-" s;
    '(d, s) ← take_digits 2 0 s; s ← expect "T" s;
    '(h, s) ← take_digits 2 0 s; s ← expect ":" s;
    '(mi, s) ← take_digits 2 0 s; s ← expect ":" s;
    '(sec, s) ← take_digits 2 0 s;
    '(us, s) ← match s with
               | EmptyString => Some (0%Z, s)
               | _ => s ← expect "." s; take_digits 6 0 s
               end;
    match s with
    | EmptyString =>
      Some {| year := y; month := mo; day := d; hour := h; minute := mi;
              second := sec; microsecond := us |}
    | _ => None
    end in
  match parsed with
  | Some d => if valid_datetime d then Ok d else Raise ValueError
  | None => Raise ValueError
  end.

(** ** The dataclasses *)

Module SystemMetrics.
Record t : Type := {
  timestamp : datetime;
  cpu_percent : Q;
  memory_percent : Q;
  memory_available_mb : Q;
  disk_usage_percent : Q;
  disk_io_read_mb : Q;
  disk_io_write_mb : Q;
  network_sent_mb : Q;
  network_recv_mb : Q;
  load_average : list Q;
  active_connections : Z;
  process_count : Z
}.
End SystemMetrics.

Module ApplicationMetrics.
Record t : Type := {
  timestamp : datetime;
  response_time_ms : Q;
  error_rate : Q;
  throughput_rps : Q;
  active_users : Z;
  database_connections : Z;
  queue_size : Z;
  memory_usage_mb : Q;
  cpu_usage_percent : Q
}.
End ApplicationMetrics.

Module Alert.
Record t : Type := {
  timestamp : datetime;
  severity : string;  (* INFO, WARNING, CRITICAL *)
  category : string;
  message : string;
  value : Q;
  threshold : Q;
  duration_minutes : Z;
  resolved : bool;
  resolution_time : option datetime
}.

(** [alert.resolved = True; alert.resolution_time = now]. *)
Definition resolve (now : datetime) (a : t) : t :=
  {| timestamp := timestamp a; severity := severity a; category := category a;
     message := message a; value := value a; threshold := threshold a;
     duration_minutes := duration_minutes a;
     resolved := true; resolution_time := Some now |}.
End Alert.

(** ** Configuration: the keys of the merged document the engine reads *)

Record Config : Type := {
  interval_seconds : Z;
  cpu_threshold : Q;
  memory_threshold : Q;
  disk_threshold : Q;
  response_time_threshold_ms : Q;
  enable_predictive_alerts : bool;
  historical_data_points : Z;
  anomaly_detection : bool
}.

Definition DEFAULT_CONFIG : Config :=
  {| interval_seconds := 10;
     cpu_threshold := 80; memory_threshold := 85; disk_threshold := 90;
     response_time_threshold_ms := 1000;
     enable_predictive_alerts := true;
     historical_data_points := 100;
     anomaly_detection := true |}.

(** ** Values of Python dictionaries and of JSON documents *)

Inductive pyval : Type :=
| VNone
| VBool (b : bool)
| VInt (z : Z)
| VFloat (q : Q)
| VStr (s : string)
| VDatetime (d : datetime).

(** [json.dump] refuses what JSON cannot hold. *)
Definition serializable (v : pyval) : bool :=
  match v with VDatetime _ => false | _ => true end.

(** Truth value of an object. *)
Definition truthy (v : pyval) : bool :=
  match v with
  | VNone => false
  | VBool b => b
  | VInt z => negb (z =? 0)%Z
  | VFloat q => negb (Qeq_bool q 0)
  | VStr s => negb (String.eqb s "")
  | VDatetime _ => true
  end.

(** What ALERT_HISTORY_FILE holds: a list of objects, or text that
    [json.load] or the reading loop rejects. *)
Inductive file_content : Type :=
| Corrupt
| Records (data : list (gmap string pyval)).

(** What the file system does with the next write of the alert file. *)
Inductive write_outcome : Type :=
| Written      (* the document reaches the file *)
| OpenFails    (* open() raises; the file is untouched *)
| DumpFails.   (* the write raises part-way; the file is left truncated *)

Inductive log_record : Type :=
| LogInfo (text : string)
| LogWarning (text : string)
| LogError (context : string) (e : exn).

(** ** The monitor and its environment *)

Record PerformanceMonitor : Type := {
  config : Config;
  anomaly_detector : AnomalyDetector.t;
  alert_history : list Alert.t;
  running : bool;
  system_metrics_history : list SystemMetrics.t;
  app_metrics_history : list ApplicationMetrics.t
}.

Record World : Type := {
  self : PerformanceMonitor;
  clock : nat -> datetime;           (* successive values of datetime.now() *)
  clock_reads : nat;
  alert_file : option file_content;  (* None: the file does not exist *)
  next_write : write_outcome;
  sent : list Alert.t;               (* alerts handed to send_alert *)
  logged : list log_record
}.

Definition with_self (f : PerformanceMonitor -> PerformanceMonitor) (w : World) : World :=
  {| self := f (self w); clock := clock w; clock_reads := clock_reads w;
     alert_file := alert_file w; next_write := next_write w;
     sent := sent w; logged := logged w |}.

Definition with_next_write (o : write_outcome) (w : World) : World :=
  {| self := self w; clock := clock w; clock_reads := clock_reads w;
     alert_file := alert_file w; next_write := o;
     sent := sent w; logged := logged w |}.

Definition set_alert_history (l : list Alert.t) (p : PerformanceMonitor) : PerformanceMonitor :=
  {| config := config p; anomaly_detector := anomaly_detector p;
     alert_history := l; running := running p;
     system_metrics_history := system_metrics_history p;
     app_metrics_history := app_metrics_history p |}.

Definition set_anomaly_detector (d : AnomalyDetector.t) (p : PerformanceMonitor) : PerformanceMonitor :=
  {| config := config p; anomaly_detector := d;
     alert_history := alert_history p; running := running p;
     system_metrics_history := system_metrics_history p;
     app_metrics_history := app_metrics_history p |}.

Definition set_histories (sys : list SystemMetrics.t) (app : list ApplicationMetrics.t)
    (p : PerformanceMonitor) : PerformanceMonitor :=
  {| config := config p; anomaly_detector := anomaly_detector p;
     alert_history := alert_history p; running := running p;
     system_metrics_history := sys; app_metrics_history := app |}.

Definition set_running (b : bool) (p : PerformanceMonitor) : PerformanceMonitor :=
  {| config := config p; anomaly_detector := anomaly_detector p;
     alert_history := alert_history p; running := b;
     system_metrics_history := system_metrics_history p;
     app_metrics_history := app_metrics_history p |}.

(** ** The monad of the monitor's methods *)

Definition M (A : Type) : Type := World -> result A * World.

Definition ret {A} (a : A) : M A := fun w => (Ok a, w).

Definition bind {A B} (m : M A) (k : A -> M B) : M B :=
  fun w =>
    match m w with
    | (Ok a, w') => k a w'
    | (Raise e, w') => (Raise e, w')
    end.

Declare Scope monitor_scope.
Delimit Scope monitor_scope with M.
Notation "'let*' x := m 'in' k" := (bind m (fun x => k))
  (at level 10, x name, m at level 100, k at level 200) : monitor_scope.
Notation "m ;; k" := (bind m (fun _ => k))
  (at level 100, k at level 200, right associativity) : monitor_scope.

(** A [result] computed outside the monitor, raised inside it. *)
Definition lift {A} (r : result A) : M A := fun w => (r, w).

Definition get : M World := fun w => (Ok w, w).
Definition modify (f : World -> World) : M unit := fun w => (Ok tt, f w).

(** [try: body / except Exception as e: handler(e)]. *)
Definition try_except (body : M unit) (handler : exn -> M unit) : M unit :=
  fun w =>
    match body w with
    | (Ok tt, w') => (Ok tt, w')
    | (Raise e, w') => handler e w'
    end.

(** The state a method leaves behind. *)
Definition exec {A} (m : M A) (w : World) : World := snd (m w).

Definition datetime_now : M datetime :=
  fun w =>
    (Ok (clock w (clock_reads w)),
     {| self := self w; clock := clock w; clock_reads := S (clock_reads w);
        alert_file := alert_file w; next_write := next_write w;
        sent := sent w; logged := logged w |}).

Definition logger (r : log_record) : M unit :=
  modify (fun w =>
    {| self := self w; clock := clock w; clock_reads := clock_reads w;
       alert_file := alert_file w; next_write := next_write w;
       sent := sent w; logged := logged w ++ [r] |}).

Definition append_alert (alert : Alert.t) : M unit :=
  modify (with_self (fun p => set_alert_history (alert_history p ++ [alert]) p)).

(** [for x in l: body(x)]. *)
Fixpoint for_each {A} (l : list A) (body : A -> M unit) : M unit :=
  match l with
  | [] => ret tt
  | x :: l' => (body x ;; for_each l' body)%M
  end.

(** ** PerformanceMonitor: alert evaluation *)

Section Engine.
Context `{Runtime}.
Open Scope string_scope.

(** The notification channels are collaborators of the engine; an alert
    handed to them is recorded in [sent]. *)
Definition send_alert (alert : Alert.t) : M unit :=
  (logger (LogWarning ("ALERT [" ++ Alert.severity alert ++ "] "
                       ++ Alert.category alert ++ ": " ++ Alert.message alert)) ;;
   modify (fun w =>
     {| self := self w; clock := clock w; clock_reads := clock_reads w;
        alert_file := alert_file w; next_write := next_write w;
        sent := sent w ++ [alert]; logged := logged w |}))%M.

(** [not a.resolved and a.category == category and metric_name in a.message] *)
Definition is_active_for (metric_name category : string) (a : Alert.t) : bool :=
  negb (Alert.resolved a) && String.eqb (Alert.category a) category
  && str_in metric_name (Alert.message a).

(** The loop of the [else] branch of [check_threshold_alert]. *)
Fixpoint resolve_active (metric_name category : string) (l : list Alert.t)
    : M (list Alert.t) :=
  match l with
  | [] => ret []
  | alert :: rest =>
    (let* alert' :=
       (if is_active_for metric_name category alert then
          let* now := datetime_now in
          logger (LogInfo ("Alert resolved: " ++ Alert.message alert)) ;;
          ret (Alert.resolve now alert)
        else ret alert) in
     let* rest' := resolve_active metric_name category rest in
     ret (alert' :: rest'))%M
  end.

Definition breach_severity (value threshold : Q) : string :=
  if Qgtb value (threshold * (12 # 10)) then "CRITICAL" else "WARNING".

Definition threshold_message (metric_name : string) (value threshold : Q) : string :=
  metric_name ++ " is " ++ format_2f value ++ "% (threshold: " ++ str threshold ++ "%)".

Definition check_threshold_alert (metric_name : string) (value threshold : Q)
    (category : string) : M unit :=
  (if Qgtb value threshold then
     let severity := breach_severity value threshold in
     let* w := get in
     let active_alerts :=
       List.filter (is_active_for metric_name category) (alert_history (self w)) in
     match active_alerts with
     | [] =>
       let* now := datetime_now in
       let alert :=
         {| Alert.timestamp := now;
            Alert.severity := severity;
            Alert.category := category;
            Alert.message := threshold_message metric_name value threshold;
            Alert.value := value;
            Alert.threshold := threshold;
            Alert.duration_minutes := 0;
            Alert.resolved := false;
            Alert.resolution_time := None |} in
       append_alert alert ;;
       send_alert alert
     | _ :: _ => ret tt
     end
   else
     let* w := get in
     let* l := resolve_active metric_name category (alert_history (self w)) in
     modify (with_self (set_alert_history l)))%M.

Definition anomaly_message (metric_name : string) (value z_score : Q)
    (trend : string) : string :=
  "Anomaly detected in " ++ metric_name ++ ": " ++ format_2f value
  ++ " (z-score: " ++ format_2f z_score ++ ", trend: " ++ trend ++ ")".

(** The body of the loop of [detect_anomalies]. *)
Definition detect_anomaly (check : string * Q * string) : M unit :=
  let '(metric_name, value, category) := check in
  (modify (with_self (fun p =>
     set_anomaly_detector
       (AnomalyDetector.add_data_point metric_name value (anomaly_detector p)) p)) ;;
   let* w := get in
   let detector := anomaly_detector (self w) in
   let* r := lift (AnomalyDetector.is_anomaly detector metric_name value) in
   let '(is_anomaly, z_score) := r in
   if is_anomaly : bool then
     let* trend := lift (AnomalyDetector.detect_trend detector metric_name 10) in
     let* now := datetime_now in
     let alert :=
       {| Alert.timestamp := now;
          Alert.severity := "WARNING";
          Alert.category := category;
          Alert.message := anomaly_message metric_name value z_score trend;
          Alert.value := value;
          Alert.threshold := z_score;
          Alert.duration_minutes := 0;
          Alert.resolved := false;
          Alert.resolution_time := None |} in
     append_alert alert ;;
     send_alert alert
   else ret tt)%M.

Definition metrics_to_check (system_metrics : SystemMetrics.t)
    (app_metrics : ApplicationMetrics.t) : list (string * Q * string) :=
  [ ("cpu_percent", SystemMetrics.cpu_percent system_metrics, "system");
    ("memory_percent", SystemMetrics.memory_percent system_metrics, "system");
    ("response_time_ms", ApplicationMetrics.response_time_ms app_metrics, "application");
    ("error_rate", ApplicationMetrics.error_rate app_metrics, "application") ].

Definition detect_anomalies (system_metrics : SystemMetrics.t)
    (app_metrics : ApplicationMetrics.t) : M unit :=
  for_each (metrics_to_check system_metrics app_metrics) detect_anomaly.

Definition predictive_message (avg_cpu : Q) (cpu_trend : string) : string :=
  "CPU usage trending upward: " ++ format_2f avg_cpu ++ "% (trend: " ++ cpu_trend ++ ")".

Definition generate_predictive_alerts : M unit :=
  (let* w := get in
   let history := system_metrics_history (self w) in
   if (length history <? 10)%nat then ret tt
   else
     let recent_cpu := map SystemMetrics.cpu_percent (slice_from (-10) history) in
     let* cpu_trend :=
       lift (AnomalyDetector.detect_trend (anomaly_detector (self w)) "cpu_recent" 5) in
     if String.eqb cpu_trend "increasing" then
       let* avg_cpu := lift (mean recent_cpu) in
       if Qgtb avg_cpu 60 then
         let* now := datetime_now in
         let alert :=
           {| Alert.timestamp := now;
              Alert.severity := "INFO";
              Alert.category := "predictive";
              Alert.message := predictive_message avg_cpu cpu_trend;
              Alert.value := avg_cpu;
              Alert.threshold := 60;
              Alert.duration_minutes := 0;
              Alert.resolved := false;
              Alert.resolution_time := None |} in
         append_alert alert ;;
         send_alert alert
       else ret tt
     else ret tt)%M.

Definition analyze_metrics (system_metrics : SystemMetrics.t)
    (app_metrics : ApplicationMetrics.t) : M unit :=
  (let* w := get in
   let monitoring_config := config (self w) in
   check_threshold_alert "CPU Usage" (SystemMetrics.cpu_percent system_metrics)
     (cpu_threshold monitoring_config) "system" ;;
   check_threshold_alert "Memory Usage" (SystemMetrics.memory_percent system_metrics)
     (memory_threshold monitoring_config) "system" ;;
   check_threshold_alert "Disk Usage" (SystemMetrics.disk_usage_percent system_metrics)
     (disk_threshold monitoring_config) "system" ;;
   check_threshold_alert "Response Time" (ApplicationMetrics.response_time_ms app_metrics)
     (response_time_threshold_ms monitoring_config) "application" ;;
   check_threshold_alert "Error Rate" (ApplicationMetrics.error_rate app_metrics)
     20 "application" ;;
   (if anomaly_detection monitoring_config
    then detect_anomalies system_metrics app_metrics else ret tt) ;;
   (if enable_predictive_alerts monitoring_config
    then generate_predictive_alerts else ret tt))%M.

End Engine.

(** ** PerformanceMonitor: persistence of the alert log *)

Section Persistence.
Open Scope string_scope.

(** [dataclasses.asdict(alert)]. *)
Definition asdict (a : Alert.t) : gmap string pyval :=
  <["timestamp" := VDatetime (Alert.timestamp a)]>
  (<["severity" := VStr (Alert.severity a)]>
  (<["category" := VStr (Alert.category a)]>
  (<["message" := VStr (Alert.message a)]>
  (<["value" := VFloat (Alert.value a)]>
  (<["threshold" := VFloat (Alert.threshold a)]>
  (<["duration_minutes" := VInt (Alert.duration_minutes a)]>
  (<["resolved" := VBool (Alert.resolved a)]>
  (<["resolution_time" :=
       match Alert.resolution_time a with
       | Some d => VDatetime d
       | None => VNone
       end]> ∅)))))))).

(** The body of the loop of [save_alert_history]. *)
Definition alert_to_dict (alert : Alert.t) : gmap string pyval :=
  let alert_dict := asdict alert in
  let alert_dict :=
    <["timestamp" := VStr (isoformat (Alert.timestamp alert))]> alert_dict in
  match Alert.resolution_time alert with
  | Some resolution_time =>
    <["resolution_time" := VStr (isoformat resolution_time)]> alert_dict
  | None => alert_dict
  end.

(** [with open(ALERT_HISTORY_FILE, 'w') as f: json.dump(data, f, indent=2)];
    the JSON text is abstracted to the document it denotes. *)
Definition write_alert_file (data : list (gmap string pyval)) : M unit :=
  fun w =>
    let put (r : result unit) (f : option file_content) :=
      (r, {| self := self w; clock := clock w; clock_reads := clock_reads w;
             alert_file := f; next_write := next_write w;
             sent := sent w; logged := logged w |}) in
    match next_write w with
    | OpenFails => put (Raise OSError) (alert_file w)
    | DumpFails => put (Raise OSError) (Some Corrupt)
    | Written =>
      if forallb (fun d => bool_decide (map_Forall (fun _ v => serializable v = true) d)) data
      then put (Ok tt) (Some (Records data))
      else put (Raise TypeError) (Some Corrupt)
    end.

Definition save_alert_history : M unit :=
  try_except
    (let* w := get in
     let data := map alert_to_dict (alert_history (self w)) in
     write_alert_file data)%M
    (fun e => logger (LogError "Error saving alert history" e)).

(** [d[key]]. *)
Definition getitem (d : gmap string pyval) (key : string) : result pyval :=
  match d !! key with
  | Some v => Ok v
  | None => Raise KeyError
  end.

(** The fields of the model's [Alert] are typed: a document value of
    another type than the dataclass declares is refused with [TypeError]. *)
Definition as_str (v : pyval) : result string :=
  match v with VStr s => Ok s | _ => Raise TypeError end.
Definition as_float (v : pyval) : result Q :=
  match v with VFloat q => Ok q | VInt z => Ok (inject_Z z) | _ => Raise TypeError end.
Definition as_int (v : pyval) : result Z :=
  match v with VInt z => Ok z | _ => Raise TypeError end.
Definition as_bool (v : pyval) : result bool :=
  match v with VBool b => Ok b | _ => Raise TypeError end.

(** The [Alert(...)] expression of [load_alert_history]. *)
Definition alert_of_dict (alert : gmap string pyval) : result Alert.t :=
  (let? v := getitem alert "timestamp" in
   let? s := as_str v in
   let? timestamp := fromisoformat s in
   let? v := getitem alert "severity" in
   let? severity := as_str v in
   let? v := getitem alert "category" in
   let? category := as_str v in
   let? v := getitem alert "message" in
   let? message := as_str v in
   let? v := getitem alert "value" in
   let? value := as_float v in
   let? v := getitem alert "threshold" in
   let? threshold := as_float v in
   let? v := getitem alert "duration_minutes" in
   let? duration_minutes := as_int v in
   let? resolved := as_bool (default (VBool false) (alert !! "resolved")) in
   let? resolution_time :=
     (if truthy (default VNone (alert !! "resolution_time")) then
        let? v := getitem alert "resolution_time" in
        let? s := as_str v in
        let? d := fromisoformat s in
        Ok (Some d)
      else Ok None) in
   Ok {| Alert.timestamp := timestamp;
         Alert.severity := severity;
         Alert.category := category;
         Alert.message := message;
         Alert.value := value;
         Alert.threshold := threshold;
         Alert.duration_minutes := duration_minutes;
         Alert.resolved := resolved;
         Alert.resolution_time := resolution_time |})%result.

(** The list comprehension of [load_alert_history]. *)
Fixpoint alerts_of_data (data : list (gmap string pyval)) : result (list Alert.t) :=
  match data with
  | [] => Ok []
  | alert :: data' =>
    (let? a := alert_of_dict alert in
     let? l := alerts_of_data data' in
     Ok (a :: l))%result
  end.

(** [json.load(f)]. *)
Definition json_load (c : file_content) : result (list (gmap string pyval)) :=
  match c with
  | Records data => Ok data
  | Corrupt => Raise ValueError
  end.

Definition load_alert_history : M unit :=
  (let* w := get in
   match alert_file w with
   | Some content =>
     try_except
       (let* data := lift (json_load content) in
        let* l := lift (alerts_of_data data) in
        modify (with_self (set_alert_history l)))
       (fun e => logger (LogError "Error loading alert history" e))
   | None => ret tt
   end)%M.

End Persistence.

(** ** PerformanceMonitor: the report aggregator *)

Module Report.
Record t : Type := {
  generated_at : string;
  monitoring_period_hours : Z;
  cpu_average_percent : Q;
  cpu_peak_percent : Q;
  cpu_status : string;
  memory_average_percent : Q;
  memory_peak_percent : Q;
  memory_status : string;
  response_time_average_ms : Q;
  response_time_status : string;
  error_rate_average_percent : Q;
  error_rate_status : string;
  alerts_total_24h : nat;
  alerts_critical : nat;
  alerts_warnings : nat;
  alerts_resolved : nat;
  recommendations : list string
}.
End Report.

(** [max(l)]: the first greatest element. *)
Definition py_max (l : list Q) : result Q :=
  match l with
  | [] => Raise ValueError
  | x :: l' => Ok (fold_left (fun m y => if Qgtb y m then y else m) l' x)
  end.

(** Nearest integer, ties to even. *)
Definition round_half_even (q : Q) : Z :=
  let f := Qfloor q in
  match Qcompare (q - inject_Z f) (1 # 2) with
  | Lt => f
  | Gt => (f + 1)%Z
  | Eq => if Z.even f then f else (f + 1)%Z
  end.

(** [round(x, 2)]. *)
Definition round2 (x : Q) : Q := inject_Z (round_half_even (x * 100)) / 100.

Section Reporting.
Open Scope string_scope.

(** ["good" if x < lo else "warning" if x < hi else "critical"] *)
Definition status_of (x lo hi : Q) : string :=
  if Qltb x lo then "good" else if Qltb x hi then "warning" else "critical".

Definition generate_recommendations : M (list string) :=
  (let* w := get in
   let p := self w in
   let* from_system :=
     match system_metrics_history p with
     | [] => ret []
     | _ :: _ =>
       let recent_cpu :=
         map SystemMetrics.cpu_percent (slice_from (-30) (system_metrics_history p)) in
       let recent_memory :=
         map SystemMetrics.memory_percent (slice_from (-30) (system_metrics_history p)) in
       let* avg_cpu := lift (mean recent_cpu) in
       let* avg_memory := lift (mean recent_memory) in
       ret ((if Qgtb avg_cpu 80
             then ["Consider scaling up CPU resources or optimizing CPU-intensive processes"]
             else [])
            ++ (if Qgtb avg_memory 85
                then ["Memory usage is high - consider increasing memory or optimizing memory usage"]
                else [])
            ++ (if (5 <? length (List.filter (fun c => Qgtb c 90) recent_cpu))%nat
                then ["Frequent CPU spikes detected - investigate background processes"]
                else []))%list
     end in
   let* from_app :=
     match app_metrics_history p with
     | [] => ret []
     | _ :: _ =>
       let recent_response_times :=
         map ApplicationMetrics.response_time_ms (slice_from (-30) (app_metrics_history p)) in
       let recent_error_rates :=
         map ApplicationMetrics.error_rate (slice_from (-30) (app_metrics_history p)) in
       let* avg_response := lift (mean recent_response_times) in
       let first :=
         if Qgtb avg_response 1000
         then ["High response times detected - optimize database queries and API endpoints"]
         else [] in
       let* avg_error := lift (mean recent_error_rates) in
       ret (first ++
            (if Qgtb avg_error 10
             then ["High error rate detected - review application logs and fix critical issues"]
             else []))%list
     end in
   let* now := datetime_now in
   let recent_alerts :=
     List.filter (fun a => within_24h now (Alert.timestamp a)) (alert_history p) in
   let from_alerts :=
     if (20 <? length recent_alerts)%nat
     then ["High alert frequency - review monitoring thresholds and system stability"]
     else [] in
   let recommendations := (from_system ++ from_app ++ from_alerts)%list in
   match recommendations with
   | [] => ret ["System performance is within normal parameters"]
   | _ :: _ => ret recommendations
   end)%M.

Definition generate_performance_report : M Report.t :=
  (let* now := datetime_now in
   let* w := get in
   let p := self w in
   let* sys_stats :=
     match system_metrics_history p with
     | [] => ret (0, 0, 0, 0)
     | _ :: _ =>
       let last := slice_from (-60) (system_metrics_history p) in
       let* avg_cpu := lift (mean (map SystemMetrics.cpu_percent last)) in
       let* avg_memory := lift (mean (map SystemMetrics.memory_percent last)) in
       let* max_cpu := lift (py_max (map SystemMetrics.cpu_percent last)) in
       let* max_memory := lift (py_max (map SystemMetrics.memory_percent last)) in
       ret (avg_cpu, avg_memory, max_cpu, max_memory)
     end in
   let '(avg_cpu, avg_memory, max_cpu, max_memory) := sys_stats in
   let* app_stats :=
     match app_metrics_history p with
     | [] => ret (0, 0)
     | _ :: _ =>
       let last := slice_from (-60) (app_metrics_history p) in
       let* avg_response_time := lift (mean (map ApplicationMetrics.response_time_ms last)) in
       let* avg_error_rate := lift (mean (map ApplicationMetrics.error_rate last)) in
       ret (avg_response_time, avg_error_rate)
     end in
   let '(avg_response_time, avg_error_rate) := app_stats in
   let recent_alerts :=
     List.filter (fun a => within_24h now (Alert.timestamp a)) (alert_history p) in
   let critical_alerts :=
     List.filter (fun a => String.eqb (Alert.severity a) "CRITICAL") recent_alerts in
   let warning_alerts :=
     List.filter (fun a => String.eqb (Alert.severity a) "WARNING") recent_alerts in
   let* recommendations := generate_recommendations in
   ret {| Report.generated_at := isoformat now;
          Report.monitoring_period_hours := 24;
          Report.cpu_average_percent := round2 avg_cpu;
          Report.cpu_peak_percent := round2 max_cpu;
          Report.cpu_status := status_of avg_cpu 70 85;
          Report.memory_average_percent := round2 avg_memory;
          Report.memory_peak_percent := round2 max_memory;
          Report.memory_status := status_of avg_memory 80 90;
          Report.response_time_average_ms := round2 avg_response_time;
          Report.response_time_status := status_of avg_response_time 500 1000;
          Report.error_rate_average_percent := round2 avg_error_rate;
          Report.error_rate_status := status_of avg_error_rate 5 15;
          Report.alerts_total_24h := length recent_alerts;
          Report.alerts_critical := length critical_alerts;
          Report.alerts_warnings := length warning_alerts;
          Report.alerts_resolved := length (List.filter Alert.resolved recent_alerts);
          Report.recommendations := recommendations |})%M.

End Reporting.

(** ** PerformanceMonitor: construction and the monitoring loop *)

Section Loop.
Context `{Runtime}.
Open Scope string_scope.

(** [PerformanceMonitor(config_path)], for a configuration already merged
    with the defaults: a fresh monitor that then loads the alert file. *)
Definition new_monitor (cfg : Config) : PerformanceMonitor :=
  {| config := cfg;
     anomaly_detector := AnomalyDetector.new;
     alert_history := [];
     running := false;
     system_metrics_history := [];
     app_metrics_history := [] |}.

Definition start (cfg : Config) (clk : nat -> datetime)
    (file : option file_content) : World :=
  exec load_alert_history
    {| self := new_monitor cfg; clock := clk; clock_reads := 0;
       alert_file := file; next_write := Written; sent := []; logged := [] |}.

(** One iteration of the [while] loop of [monitoring_loop], for the samples
    the collectors returned; the exporters are disabled collaborators and
    the sleep is not modelled. *)
Definition monitoring_cycle (system_metrics : SystemMetrics.t)
    (app_metrics : ApplicationMetrics.t) : M unit :=
  try_except
    (let* w := get in
     let historical_limit := historical_data_points (config (self w)) in
     modify (with_self (fun p =>
       set_histories (system_metrics_history p ++ [system_metrics])
                     (app_metrics_history p ++ [app_metrics]) p)) ;;
     modify (with_self (fun p =>
       set_histories
         (if (historical_limit <? Z.of_nat (length (system_metrics_history p)))%Z
          then slice_from (- historical_limit) (system_metrics_history p)
          else system_metrics_history p)
         (if (historical_limit <? Z.of_nat (length (app_metrics_history p)))%Z
          then slice_from (- historical_limit) (app_metrics_history p)
          else app_metrics_history p) p)) ;;
     analyze_metrics system_metrics app_metrics ;;
     let* w := get in
     (if (Z.of_nat (length (alert_history (self w))) mod 10 =? 0)%Z
      then save_alert_history else ret tt) ;;
     logger (LogInfo "Metrics collected"))%M
    (fun e => logger (LogError "Error in monitoring loop" e)).

(** [stop_monitoring]: the final save and report; the file the report is
    written to is not modelled. *)
Definition stop_monitoring : M unit :=
  (modify (with_self (set_running false)) ;;
   save_alert_history ;;
   let* report := generate_performance_report in
   logger (LogInfo "Final performance report saved") ;;
   logger (LogInfo "Performance monitoring stopped"))%M.

(** The states of the engine: a first start without an alert file; any
    number of cycles, each on arbitrary samples and with the file system
    free to accept or refuse the next write; the shutdown; and a restart on
    the alert file the previous process left. *)
Inductive reachable : World -> Prop :=
| reachable_start cfg clk : reachable (start cfg clk None)
| reachable_cycle w o system_metrics app_metrics :
    reachable w ->
    reachable (exec (monitoring_cycle system_metrics app_metrics)
                    (with_next_write o w))
| reachable_stop w o :
    reachable w ->
    reachable (exec stop_monitoring (with_next_write o w))
| reachable_restart w cfg clk :
    reachable w ->
    reachable (start cfg clk (alert_file w)).

End Loop.

(** ** PerformanceMonitor: the configuration file *)

Module ConfigFile.
Open Scope string_scope.

(** JSON documents; a [dict] keeps its keys in insertion order. *)
#[warnings="-register-all"] Inductive json : Type :=
| JNull
| JBool (b : bool)
| JInt (z : Z)
| JFloat (q : Q)
| JStr (s : string)
| JList (l : list json)
| JDict (items : list (string * json)).

Definition dict : Type := list (string * json).

Inductive error : Type :=
| JSONDecodeError   (* json.load on text that is no JSON *)
| AttributeError    (* user.items() on a value that is no dict *)
| OSError.          (* open() or write() failing *)

(** [d.get(key)]. *)
Fixpoint dict_get (key : string) (d : dict) : option json :=
  match d with
  | [] => None
  | (k, v) :: rest => if String.eqb k key then Some v else dict_get key rest
  end.

(** [d[key] = v]: a key already present keeps its place, a new one goes
    last. *)
Fixpoint dict_set (key : string) (v : json) (d : dict) : dict :=
  match d with
  | [] => [(key, v)]
  | (k, x) :: rest =>
    if String.eqb k key then (k, v) :: rest else (k, x) :: dict_set key v rest
  end.

(** [merge_configs(default, user)]; the loop runs over [user.items()] with
    [result] starting as [default.copy()]. *)
Fixpoint merge_configs (default : dict) (user : json) {struct user} : error + dict :=
  match user with
  | JDict items =>
    (fix loop (result : dict) (items : list (string * json)) {struct items}
       : error + dict :=
       match items with
       | [] => inr result
       | (key, value) :: rest =>
         match dict_get key result, value with
         | Some (JDict d), JDict _ =>
           match merge_configs d value with
           | inr merged => loop (dict_set key (JDict merged) result) rest
           | inl e => inl e
           end
         | _, _ => loop (dict_set key value result) rest
         end
       end) default items
  | _ => inl AttributeError
  end.

Definition DEFAULT_CONFIG : dict :=
  [ ("monitoring", JDict
       [ ("interval_seconds", JInt 10);
         ("cpu_threshold", JFloat 80);
         ("memory_threshold", JFloat 85);
         ("disk_threshold", JFloat 90);
         ("network_threshold_mbps", JFloat 100);
         ("response_time_threshold_ms", JInt 1000);
         ("enable_predictive_alerts", JBool true);
         ("historical_data_points", JInt 100) ]);
    ("targets", JDict
       [ ("grpc_server", JDict
            [ ("host", JStr "localhost");
              ("port", JInt 50051);
              ("health_endpoint", JStr "/health") ]);
         ("android_app", JDict
            [ ("package_name", JStr "com.example.notebook");
              ("test_endpoints", JList [JStr "http://localhost:8080/api/health"]) ]) ]);
    ("notifications", JDict
       [ ("slack_webhook", JStr EmptyString);
         ("email", JDict
            [ ("enabled", JBool false);
              ("smtp_server", JStr "smtp.gmail.com");
              ("smtp_port", JInt 587);
              ("username", JStr EmptyString);
              ("password", JStr EmptyString);
              ("recipients", JList []) ]);
         ("prometheus", JDict
            [ ("enabled", JBool false);
              ("gateway_url", JStr "http://localhost:9091");
              ("job_name", JStr "performance_monitor") ]);
         ("influxdb", JDict
            [ ("enabled", JBool false);
              ("url", JStr "http://localhost:8086");
              ("token", JStr EmptyString);
              ("org", JStr "my-org");
              ("bucket", JStr "monitoring") ]) ]);
    ("advanced", JDict
       [ ("anomaly_detection", JBool true);
         ("machine_learning", JBool false);
         ("auto_scaling", JBool false);
         ("log_analysis", JBool true);
         ("network_monitoring", JBool true) ]) ].

(** What the configuration file holds: text that is no JSON, or a
    document. *)
Inductive text : Type :=
| Unparsable
| Document (j : json).

Definition json_load (t : text) : error + json :=
  match t with
  | Document j => inr j
  | Unparsable => inl JSONDecodeError
  end.

(** [load_config(config_path)] for the content of the file at
    [config_path] ([None]: no such file) and the outcome of the write, if
    one is made: the configuration returned or the exception raised, the
    content of the file afterwards, and whether the loading error was
    printed. *)
Definition load_config (config_path : option text) (next_write : write_outcome)
    : (error + dict) * option text * bool :=
  let create_default (printed : bool) :=
    match next_write with
    | Written => (inr DEFAULT_CONFIG, Some (Document (JDict DEFAULT_CONFIG)), printed)
    | OpenFails => (inl OSError, config_path, printed)
    | DumpFails => (inl OSError, Some Unparsable, printed)
    end in
  match config_path with
  | Some content =>
    match json_load content with
    | inr config =>
      match merge_configs DEFAULT_CONFIG config with
      | inr merged => (inr merged, config_path, false)
      | inl _ => create_default true
      end
    | inl _ => create_default true
    end
  | None => create_default false
  end.

End ConfigFile.

(** ** PerformanceMonitor: the application probes

    [measure_response_time] answers [float('inf')] when the service cannot
    be reached, so the values derived from it are extended numbers. *)

Inductive efloat : Type :=
| Fin (q : Q)
| PInf     (* float('inf') *)
| NInf.    (* -float('inf') *)

(** [x / d] for a positive [d], [a - x] and [x > y]. *)
Definition efloat_div (x : efloat) (d : Q) : efloat :=
  match x with
  | Fin q => Fin (q / d)
  | PInf => PInf
  | NInf => NInf
  end.

Definition efloat_rsub (a : Q) (x : efloat) : efloat :=
  match x with
  | Fin q => Fin (a - q)
  | PInf => NInf
  | NInf => PInf
  end.

Definition efloat_gtb (x y : efloat) : bool :=
  match x, y with
  | Fin a, Fin b => Qgtb a b
  | Fin _, PInf => false
  | Fin _, NInf => true
  | PInf, PInf => false
  | PInf, _ => true
  | NInf, _ => false
  end.

(** [max(a, x)]: the first of the greatest. *)
Definition efloat_max (a x : efloat) : efloat :=
  if efloat_gtb x a then x else a.

(** What the connection attempt of [measure_response_time] meets. *)
Inductive probe : Type :=
| Connected (elapsed_ms : Q)   (* connect_ex returned 0 *)
| Refused                      (* connect_ex returned an error code *)
| ProbeRaised (e : exn).       (* the socket calls raised *)

Definition measure_response_time (p : probe) : M efloat :=
  match p with
  | Connected elapsed_ms => ret (Fin elapsed_ms)
  | Refused => ret PInf
  | ProbeRaised e =>
    (logger (LogError "Error measuring response time" e) ;; ret PInf)%M
  end.

(** The configuration of the model always holds the threshold, so the
    handler of [calculate_error_rate], which answers 50.0, is not
    reached. *)
Definition calculate_error_rate (p : probe) : M Q :=
  (let* response_time := measure_response_time p in
   let* w := get in
   match response_time with
   | PInf => ret 100
   | _ =>
     if efloat_gtb response_time (Fin (response_time_threshold_ms (config (self w))))
     then ret 25
     else ret 1
   end)%M.

Definition calculate_throughput (p : probe) : M efloat :=
  (let* response_time := measure_response_time p in
   ret (efloat_max (Fin 0) (efloat_rsub 100 (efloat_div response_time 10))))%M.

(** [x % m] on floats for a positive [m], and [int(x)]. *)
Definition py_fmod (x m : Q) : Q := x - m * inject_Z (Qfloor (x / m)).

Definition py_int (x : Q) : Z := if Qltb x 0 then Qceiling x else Qfloor x.

(** The simulated gauges, for the reading [now] of [time.time()]. *)
Definition get_active_users (now : Q) : Z :=
  Z.min 100 (Z.max 1 (py_int (py_fmod now 100))).

Definition get_database_connections (now : Q) : Z :=
  Z.min 50 (Z.max 1 (py_int (py_fmod now 50))).

Definition get_queue_size (now : Q) : Z :=
  Z.max 0 (py_int (py_fmod now 20)).

(** ** main: the two one-shot modes *)

Section Main.
Context `{Runtime}.
Open Scope string_scope.

Definition test_alert (now : datetime) : Alert.t :=
  {| Alert.timestamp := now;
     Alert.severity := "INFO";
     Alert.category := "test";
     Alert.message := "This is a test alert from the monitoring system";
     Alert.value := 42;
     Alert.threshold := 40;
     Alert.duration_minutes := 0;
     Alert.resolved := false;
     Alert.resolution_time := None |}.


(** [main] with [--test-alert] and without [--report]. *)
Definition main_test_alert (cfg : Config) (clk : nat -> datetime)
    (file : option file_content) : result unit * World :=
  (let* now := datetime_now in send_alert (test_alert now))%M (start cfg clk file).

End Main.

(** ** A reference runtime

    An executable instance of [Runtime], used to run the engine on concrete
    samples: square roots to twelve decimals, two-decimal formatting with
    ties to even, and [str] of a whole number as Python prints a float. *)

Module Reference.
Open Scope string_scope.

Definition decimal (n : Z) : string :=
  NilZero.string_of_uint (N.to_uint (Z.to_N n)).

Definition sign (q : Q) : string := if Qltb q 0 then "-" else "".

Definition fixed_sqrt (q : Q) : Q :=
  Z.sqrt (Qnum q * 10 ^ 24 / Zpos (Qden q)) # (10 ^ 12).

Definition fixed_2f (q : Q) : string :=
  let n := round_half_even (Qabs q * 100) in
  sign q ++ decimal (n / 100) ++ "." ++ digits 2 (n mod 100).

Definition number_str (q : Q) : string :=
  let r := Qred q in
  if (Zpos (Qden r) =? 1)%Z then sign q ++ decimal (Z.abs (Qnum r)) ++ ".0"
  else fixed_2f q.

Definition runtime : Runtime :=
  {| sqrt := fixed_sqrt; format_2f := fixed_2f; str := number_str |}.

End Reference.

(** * Vocabulary of the properties and sample inputs *)

Definition two_point_detector : AnomalyDetector.t :=
  {| AnomalyDetector.window_size := 50;
     AnomalyDetector.threshold := 25 # 10;
     AnomalyDetector.data_history := <["cpu_percent"%string := [3; 5]]> ∅ |}.


Definition constant_detector : AnomalyDetector.t :=
  {| AnomalyDetector.window_size := 50;
     AnomalyDetector.threshold := 25 # 10;
     AnomalyDetector.data_history := <["cpu_percent"%string := replicate 10 10]> ∅ |}.

(** How a world differs after a method that only touches the alert log, the
    clock, the notifications and the log lines. *)
Definition set_log (l : list Alert.t) (reads : nat) (out : list Alert.t)
    (lines : list log_record) (w : World) : World :=
  {| self := set_alert_history l (self w); clock := clock w; clock_reads := reads;
     alert_file := alert_file w; next_write := next_write w;
     sent := out; logged := lines |}.

(** What the resolving loop does to one alert. *)
Definition resolution (metric_name category : string) (a a' : Alert.t) : Prop :=
  if is_active_for metric_name category a
  then exists now, a' = Alert.resolve now a
  else a' = a.

(** Sample inputs for the engine. *)
Definition sample_time : datetime :=
  {| year := 2024; month := 1; day := 15;
     hour := 10; minute := 30; second := 0; microsecond := 250000 |}.

Definition sample_world : World :=
  start DEFAULT_CONFIG (fun _ => sample_time) None.

(** The alerts Python can build: their [datetime]s are valid. *)
Definition valid_alert (a : Alert.t) : Prop :=
  valid_datetime (Alert.timestamp a) = true /\
  match Alert.resolution_time a with
  | Some d => valid_datetime d = true
  | None => True
  end.

Definition sample_resolved_alert : Alert.t :=
  {| Alert.timestamp := sample_time;
     Alert.severity := "WARNING";
     Alert.category := "system";
     Alert.message := "CPU Usage is 96.00% (threshold: 80.0%)";
     Alert.value := 96;
     Alert.threshold := 80;
     Alert.duration_minutes := 0;
     Alert.resolved := true;
     Alert.resolution_time :=
       Some {| year := 2024; month := 2; day := 29;
               hour := 23; minute := 59; second := 59; microsecond := 0 |} |}.

Definition sample_open_alert : Alert.t :=
  {| Alert.timestamp := sample_time;
     Alert.severity := "CRITICAL";
     Alert.category := "system";
     Alert.message := "Memory Usage is 104.50% (threshold: 85.0%)";
     Alert.value := 209 # 2;
     Alert.threshold := 85;
     Alert.duration_minutes := 0;
     Alert.resolved := false;
     Alert.resolution_time := None |}.

Definition sample_logged_world : World :=
  with_self (set_alert_history [sample_resolved_alert; sample_open_alert])
    sample_world.

(** The alerts of the log raised in the 24 hours before [now]. *)
Definition recent_alerts (now : datetime) (w : World) : list Alert.t :=
  List.filter (fun a => within_24h now (Alert.timestamp a)) (alert_history (self w)).



Definition is_upper (c : ascii) : bool :=
  let n := nat_of_ascii c in ((65 <=? n) && (n <=? 90))%nat.

(** No upper-case letter occurs in [s]. *)
Fixpoint no_upper (s : string) : bool :=
  match s with
  | EmptyString => true
  | String c s' => negb (is_upper c) && no_upper s'
  end.

Definition starts_upper (s : string) : bool :=
  match s with
  | EmptyString => false
  | String c _ => is_upper c
  end.

(** No suffix of [p] agrees with [d] up to the end of either: an occurrence
    of [d] in [p ++ t] cannot start inside [p]. *)
Fixpoint no_overlap (d p : string) : bool :=
  match p with
  | EmptyString => true
  | String _ p' =>
    negb (String.prefix d p) && negb (String.prefix p d) && no_overlap d p'
  end.

(** The number formatting of Python writes digits, signs, points and the
    lower-case words inf, nan and e. *)
Definition lowercase_formatting `{Runtime} : Prop :=
  forall q, no_upper (format_2f q) = true /\ no_upper (str q) = true.

(** The (display name, category) pairs [analyze_metrics] checks against a
    threshold, the (metric, category) pairs [detect_anomalies] checks, and
    the answers of [detect_trend]. *)
Definition threshold_checks : list (string * string) :=
  [ ("CPU Usage", "system"); ("Memory Usage", "system"); ("Disk Usage", "system");
    ("Response Time", "application"); ("Error Rate", "application") ]%string.

Definition anomaly_checks : list (string * string) :=
  [ ("cpu_percent", "system"); ("memory_percent", "system");
    ("response_time_ms", "application"); ("error_rate", "application") ]%string.

Definition trend_labels : list string :=
  [ "insufficient_data"; "increasing"; "decreasing"; "stable" ]%string.

(** [a'] is [a] up to its timestamps: what a save and a reload do to an
    alert. *)
Definition retimed (a a' : Alert.t) : Prop :=
  Alert.severity a' = Alert.severity a /\
  Alert.category a' = Alert.category a /\
  Alert.message a' = Alert.message a /\
  Alert.value a' = Alert.value a /\
  Alert.threshold a' = Alert.threshold a /\
  Alert.duration_minutes a' = Alert.duration_minutes a /\
  Alert.resolved a' = Alert.resolved a.

Section LogSteps.
Context `{Runtime}.

(** The alert [check_threshold_alert] opens at time [now]. *)
Definition threshold_alert (metric_name : string) (value threshold : Q)
    (category : string) (now : datetime) : Alert.t :=
  {| Alert.timestamp := now;
     Alert.severity := breach_severity value threshold;
     Alert.category := category;
     Alert.message := threshold_message metric_name value threshold;
     Alert.value := value;
     Alert.threshold := threshold;
     Alert.duration_minutes := 0;
     Alert.resolved := false;
     Alert.resolution_time := None |}.

(** The alert [detect_anomalies] appends. *)
Definition anomaly_alert (metric_name : string) (value z_score : Q)
    (category trend : string) (now : datetime) : Alert.t :=
  {| Alert.timestamp := now;
     Alert.severity := "WARNING";
     Alert.category := category;
     Alert.message := anomaly_message metric_name value z_score trend;
     Alert.value := value;
     Alert.threshold := z_score;
     Alert.duration_minutes := 0;
     Alert.resolved := false;
     Alert.resolution_time := None |}.

(** The alert [generate_predictive_alerts] appends. *)
Definition predictive_alert (avg_cpu : Q) (cpu_trend : string)
    (now : datetime) : Alert.t :=
  {| Alert.timestamp := now;
     Alert.severity := "INFO";
     Alert.category := "predictive";
     Alert.message := predictive_message avg_cpu cpu_trend;
     Alert.value := avg_cpu;
     Alert.threshold := 60;
     Alert.duration_minutes := 0;
     Alert.resolved := false;
     Alert.resolution_time := None |}.

(** What one evaluation does to the alert log. *)
Inductive log_step : list Alert.t -> list Alert.t -> Prop :=
| step_open metric_name category value threshold now l :
    In (metric_name, category) threshold_checks ->
    List.filter (is_active_for metric_name category) l = [] ->
    log_step l (l ++ [threshold_alert metric_name value threshold category now])
| step_resolve metric_name category l l' :
    In (metric_name, category) threshold_checks ->
    Forall2 (resolution metric_name category) l l' ->
    log_step l l'
| step_anomaly metric_name category value z_score trend now l :
    In (metric_name, category) anomaly_checks ->
    In trend trend_labels ->
    log_step l (l ++ [anomaly_alert metric_name value z_score category trend now])
| step_predictive avg_cpu cpu_trend now l :
    log_step l (l ++ [predictive_alert avg_cpu cpu_trend now])
| step_reload l l' :
    Forall2 retimed l l' ->
    log_step l l'.

(** A method whose effect on the alert log is a sequence of such steps, and
    which leaves the alert file alone. *)
Definition evolves {A} (m : M A) : Prop :=
  forall w,
    rtc log_step (alert_history (self w)) (alert_history (self (snd (m w)))) /\
    alert_file (snd (m w)) = alert_file w.

(** Whatever can be loaded from the alert file is a log the engine can
    have built. *)
Definition file_ok (f : option file_content) : Prop :=
  match f with
  | Some (Records data) =>
    forall l, alerts_of_data data = Ok l -> rtc log_step [] l
  | _ => True
  end.

(** The log and the alert file of a world are ones the engine can have
    built. *)
Definition consistent (w : World) : Prop :=
  rtc log_step [] (alert_history (self w)) /\ file_ok (alert_file w).

Definition keeps {A} (m : M A) : Prop :=
  forall w, consistent w -> consistent (snd (m w)).

End LogSteps.

(** At most one unresolved alert matches each threshold check. *)
Definition deduplicated (l : list Alert.t) : Prop :=
  forall metric_name category,
    In (metric_name, category) threshold_checks ->
    (length (List.filter (is_active_for metric_name category) l) <= 1)%nat.

(** Sample runs of the monitoring loop. *)
Definition system_sample (cpu : Q) : SystemMetrics.t :=
  {| SystemMetrics.timestamp := sample_time;
     SystemMetrics.cpu_percent := cpu;
     SystemMetrics.memory_percent := 10;
     SystemMetrics.memory_available_mb := 2048;
     SystemMetrics.disk_usage_percent := 10;
     SystemMetrics.disk_io_read_mb := 0;
     SystemMetrics.disk_io_write_mb := 0;
     SystemMetrics.network_sent_mb := 0;
     SystemMetrics.network_recv_mb := 0;
     SystemMetrics.load_average := [0; 0; 0];
     SystemMetrics.active_connections := 0;
     SystemMetrics.process_count := 1 |}.

Definition app_sample : ApplicationMetrics.t :=
  {| ApplicationMetrics.timestamp := sample_time;
     ApplicationMetrics.response_time_ms := 10;
     ApplicationMetrics.error_rate := 1;
     ApplicationMetrics.throughput_rps := 99;
     ApplicationMetrics.active_users := 1;
     ApplicationMetrics.database_connections := 1;
     ApplicationMetrics.queue_size := 0;
     ApplicationMetrics.memory_usage_mb := 0;
     ApplicationMetrics.cpu_usage_percent := 0 |}.

Definition run_cycles `{Runtime}
    (samples : list (SystemMetrics.t * ApplicationMetrics.t)) (w : World) : World :=
  fold_left
    (fun w s => exec (monitoring_cycle (fst s) (snd s)) (with_next_write Written w))
    samples w.

(** The run that samples the given CPU loads, all else steady. *)
Definition cpu_run (cpus : list Q) : World :=
  run_cycles (H := Reference.runtime)
    (map (fun cpu => (system_sample cpu, app_sample)) cpus) sample_world.

Definition breach_world : World := cpu_run [90; 95; 100].

Definition first_anomaly_world : World :=
  cpu_run [10; 10; 10; 10; 10; 10; 10; 10; 10; 11].

Definition second_anomaly_world : World :=
  cpu_run [10; 10; 10; 10; 10; 10; 10; 10; 10; 11; 20].

(** An alert as [detect_anomalies] writes it, and as
    [generate_predictive_alerts] writes it. *)
Definition anomaly_made `{Runtime} (a : Alert.t) : Prop :=
  exists metric_name category value z_score trend,
    In (metric_name, category) anomaly_checks /\
    In trend trend_labels /\
    Alert.category a = category /\
    Alert.message a = anomaly_message metric_name value z_score trend.

Definition predictive_made (a : Alert.t) : Prop :=
  Alert.category a = "predictive"%string.

(** Every anomaly or predictive alert of the log is unresolved. *)
Definition statistical_open `{Runtime} (l : list Alert.t) : Prop :=
  forall a, In a l -> anomaly_made a \/ predictive_made a ->
            Alert.resolved a = false.

(** [m] leaves the log alone or appends one alert, which satisfies [P]. *)
Definition appends {A} (m : M A) (w : World) (P : Alert.t -> Prop) : Prop :=
  alert_history (self (exec m w)) = alert_history (self w) \/
  exists a, alert_history (self (exec m w)) = alert_history (self w) ++ [a] /\ P a.

Definition recovery_world : World :=
  cpu_run [10; 10; 10; 10; 10; 10; 10; 10; 10; 11; 90; 10].

(** Vocabulary of the further properties. *)

Definition small_window_detector (window : Z) : AnomalyDetector.t :=
  {| AnomalyDetector.window_size := window;
     AnomalyDetector.threshold := 25 # 10;
     AnomalyDetector.data_history := <["cpu_percent"%string := [1; 2; 3]]> ∅ |}.

Definition opposite_trend (label : string) : string :=
  if String.eqb label "increasing" then "decreasing"
  else if String.eqb label "decreasing" then "increasing"
  else label.

(** [m] returns from [w], without raising, a value and a state that
    satisfy [Q]. *)
Definition returns {A} (m : M A) (w : World) (Q : A -> World -> Prop) : Prop :=
  exists a w', m w = (Ok a, w') /\ Q a w'.

(** What the evaluations after its creation do to an alert of the log:
    nothing, or one resolution of an alert that was not resolved. *)
Definition settled (a a' : Alert.t) : Prop :=
  a' = a \/ (Alert.resolved a = false /\ exists now, a' = Alert.resolve now a).

(** The metrics [detect_anomalies] records in the detector. *)
Definition metric_names : list string := map fst anomaly_checks.

(** What recording values does to a detector: the settings stay, and a
    history either stays or belongs to a recorded metric and, when the
    window is at least 1, holds between 1 and [window_size] values. *)
Definition detector_step (d d' : AnomalyDetector.t) : Prop :=
  AnomalyDetector.window_size d' = AnomalyDetector.window_size d /\
  AnomalyDetector.threshold d' = AnomalyDetector.threshold d /\
  forall name,
    AnomalyDetector.data_history d' !! name = AnomalyDetector.data_history d !! name \/
    (In name metric_names /\
     exists history,
       AnomalyDetector.data_history d' !! name = Some history /\
       ((1 <= AnomalyDetector.window_size d)%Z ->
        (1 <= Z.of_nat (length history) <= AnomalyDetector.window_size d)%Z)).

(** A log line that reports no error. *)
Definition quiet (r : log_record) : Prop :=
  match r with LogError _ _ => False | _ => True end.

(** A method that only reads the clock and writes log lines that report no
    error. *)
Definition quiet_step (w w' : World) : Prop :=
  self w' = self w /\ clock w' = clock w /\ alert_file w' = alert_file w /\
  next_write w' = next_write w /\ sent w' = sent w /\
  exists lines, logged w' = logged w ++ lines /\ Forall quiet lines.

(** A new alert of the analysis: unresolved and without resolution time,
    and of category system or application, or predictive when the detector
    holds a history named cpu_recent. *)
Definition alert_origin (d : AnomalyDetector.t) (a : Alert.t) : Prop :=
  Alert.resolved a = false /\
  Alert.resolution_time a = None /\
  (In (Alert.category a) ["system"; "application"]%string \/
   Alert.category a = "predictive"%string /\
   is_Some (AnomalyDetector.data_history d !! "cpu_recent"%string)).

(** What [analyze_metrics] and its parts do to the engine. *)
Definition analysis_step (w w' : World) : Prop :=
  config (self w') = config (self w) /\
  running (self w') = running (self w) /\
  system_metrics_history (self w') = system_metrics_history (self w) /\
  app_metrics_history (self w') = app_metrics_history (self w) /\
  clock w' = clock w /\ alert_file w' = alert_file w /\
  next_write w' = next_write w /\
  detector_step (anomaly_detector (self w)) (anomaly_detector (self w')) /\
  (exists lines, logged w' = logged w ++ lines /\ Forall quiet lines) /\
  exists new,
    Forall2 settled (alert_history (self w) ++ new) (alert_history (self w')) /\
    sent w' = sent w ++ new /\
    Forall (alert_origin (anomaly_detector (self w))) new.

(** The entry [generate_recommendations] falls back to. *)
Definition default_recommendation : string :=
  "System performance is within normal parameters".

(** A method that reads the clock [reads] times and does nothing else. *)
Definition only_reads_clock (reads : nat) (w w' : World) : Prop :=
  self w' = self w /\ clock w' = clock w /\
  clock_reads w' = (clock_reads w + reads)%nat /\
  alert_file w' = alert_file w /\ next_write w' = next_write w /\
  sent w' = sent w /\ logged w' = logged w.

(** [l] after [if len(l) > limit: l = l[-limit:]]. *)
Definition kept {A} (limit : Z) (l : list A) : list A :=
  if (limit <? Z.of_nat (length l))%Z then slice_from (- limit) l else l.

(** What a save of the log [l] does to the alert file. *)
Definition file_step (l : list Alert.t) (f f' : option file_content) : Prop :=
  f' = f \/ f' = Some Corrupt \/ f' = Some (Records (map alert_to_dict l)).

Definition save_line (r : log_record) : Prop :=
  exists e, r = LogError "Error saving alert history" e.

(** The detector of a running monitor: the settings of [AnomalyDetector()],
    and histories of the recorded metrics only, of 1 to 50 values each. *)
Definition detector_ok (d : AnomalyDetector.t) : Prop :=
  AnomalyDetector.window_size d = 50%Z /\
  AnomalyDetector.threshold d = 25 # 10 /\
  forall name history,
    AnomalyDetector.data_history d !! name = Some history ->
    In name metric_names /\ (1 <= length history <= 50)%nat.

Definition known_category (a : Alert.t) : Prop :=
  In (Alert.category a) ["system"; "application"]%string.

(** An alert is resolved exactly when it has a resolution time. *)
Definition stamped (a : Alert.t) : Prop :=
  Alert.resolved a = true <-> is_Some (Alert.resolution_time a).

Definition sound_alert (a : Alert.t) : Prop := known_category a /\ stamped a.

(** Whatever loads from the alert file is a list of such alerts. *)
Definition file_sound (f : option file_content) : Prop :=
  match f with
  | Some (Records data) =>
    forall l, alerts_of_data data = Ok l -> Forall sound_alert l
  | _ => True
  end.

(** The two metric histories grow together and stay within
    [historical_data_points] when that is at least 1. *)
Definition histories_ok (p : PerformanceMonitor) : Prop :=
  length (system_metrics_history p) = length (app_metrics_history p) /\
  ((1 <= historical_data_points (config p))%Z ->
   (Z.of_nat (length (system_metrics_history p))
    <= historical_data_points (config p))%Z).

Definition steady (w : World) : Prop :=
  detector_ok (anomaly_detector (self w)) /\
  Forall sound_alert (alert_history (self w)) /\
  file_sound (alert_file w) /\
  histories_ok (self w).


(** The state of the monitor once a cycle has stored its two samples. *)
Definition record_samples (system_metrics : SystemMetrics.t)
    (app_metrics : ApplicationMetrics.t) (w : World) : World :=
  let limit := historical_data_points (config (self w)) in
  with_self
    (fun p =>
       set_histories (kept limit (system_metrics_history p ++ [system_metrics]))
                     (kept limit (app_metrics_history p ++ [app_metrics])) p) w.

(** Ten cycles of a CPU load that rises by two points per sample and
    averages 70. *)
Definition rising_world : World :=
  cpu_run [61; 63; 65; 67; 69; 71; 73; 75; 77; 79].


(** The loop of [merge_configs], from a given [result]. *)
Fixpoint merge_loop (result : ConfigFile.dict) (items : list (string * ConfigFile.json))
    : ConfigFile.error + ConfigFile.dict :=
  match items with
  | [] => inr result
  | (key, value) :: rest =>
    match ConfigFile.dict_get key result, value with
    | Some (ConfigFile.JDict d), ConfigFile.JDict _ =>
      match ConfigFile.merge_configs d value with
      | inr merged =>
        merge_loop (ConfigFile.dict_set key (ConfigFile.JDict merged) result) rest
      | inl e => inl e
      end
    | _, _ => merge_loop (ConfigFile.dict_set key value result) rest
    end
  end.

(** The number of constructors of a document. *)
Fixpoint json_size (j : ConfigFile.json) : nat :=
  match j with
  | ConfigFile.JList l =>
    S ((fix sizes (l : list ConfigFile.json) : nat :=
          match l with
          | [] => 0
          | x :: rest => json_size x + sizes rest
          end%nat) l)
  | ConfigFile.JDict items =>
    S ((fix sizes (items : list (string * ConfigFile.json)) : nat :=
          match items with
          | [] => 0
          | (_, v) :: rest => json_size v + sizes rest
          end%nat) items)
  | _ => 1%nat
  end.

Definition items_size (items : list (string * ConfigFile.json)) : nat :=
  fold_right (fun kv n => json_size (snd kv) + n)%nat 0%nat items.

(** What [merge_configs] leaves under [key], given what the defaults and
    the user's document hold there. *)
Definition merged_entry (in_default in_user : option ConfigFile.json)
    : option ConfigFile.json :=
  match in_user with
  | None => in_default
  | Some value =>
    match in_default, value with
    | Some (ConfigFile.JDict d), ConfigFile.JDict _ =>
      match ConfigFile.merge_configs d value with
      | inr merged => Some (ConfigFile.JDict merged)
      | inl _ => None
      end
    | _, _ => Some value
    end
  end.

Definition sample_user_config : ConfigFile.dict :=
  [ ("monitoring", ConfigFile.JDict [ ("cpu_threshold", ConfigFile.JInt 95) ]);
    ("notifications", ConfigFile.JNull);
    ("region", ConfigFile.JStr "eu") ]%string.

(** Nine readings of 10 and one of 20. *)
Definition spike_detector : AnomalyDetector.t :=
  {| AnomalyDetector.window_size := 50;
     AnomalyDetector.threshold := 25 # 10;
     AnomalyDetector.data_history :=
       <["cpu_percent"%string := replicate 9 10 ++ [20]]> ∅ |}.

(** * Properties *)

(** ** Numbers and sums *)

Lemma Qgtb_true x y : Qgtb x y = true <-> y < x.
Proof.
  unfold Qgtb. rewrite negb_true_iff, <- not_true_iff_false, Qle_bool_iff.
  split; [apply Qnot_le_lt | apply Qlt_not_le].
Qed.

Lemma Qgtb_false x y : Qgtb x y = false <-> x <= y.
Proof. unfold Qgtb. rewrite negb_false_iff. apply Qle_bool_iff. Qed.

Lemma Qltb_true x y : Qltb x y = true <-> x < y.
Proof. apply Qgtb_true. Qed.

Lemma Qltb_false x y : Qltb x y = false <-> y <= x.
Proof. apply Qgtb_false. Qed.

Lemma fold_left_Zadd l a : fold_left Z.add l a = (a + sumZ l)%Z.
Proof.
  unfold sumZ. revert a. induction l as [|x l IH]; intros a; simpl.
  - lia.
  - rewrite (IH (a + x)%Z), (IH (0 + x)%Z). lia.
Qed.

Lemma sumZ_cons x l : sumZ (x :: l) = (x + sumZ l)%Z.
Proof. unfold sumZ at 1. simpl. apply fold_left_Zadd. Qed.

Lemma sumZ_snoc l x : sumZ (l ++ [x]) = (sumZ l + x)%Z.
Proof. unfold sumZ. rewrite fold_left_app. reflexivity. Qed.

Lemma fold_left_Qplus l a : fold_left Qplus l a == a + sum l.
Proof.
  unfold sum. revert a. induction l as [|x l IH]; intros a; simpl.
  - ring.
  - rewrite (IH (a + x)), (IH (0 + x)). ring.
Qed.

Lemma sum_cons x l : sum (x :: l) == x + sum l.
Proof. unfold sum at 1. simpl. rewrite fold_left_Qplus. ring. Qed.

Lemma range_S n : range (S n) = range n ++ [Z.of_nat n].
Proof. unfold range. rewrite seqZ_S. reflexivity. Qed.

(** Closed forms of the index sums of the regression. *)
Lemma sum_x_closed n :
  (2 * AnomalyDetector.sum_x n = Z.of_nat n * (Z.of_nat n - 1))%Z.
Proof.
  unfold AnomalyDetector.sum_x. induction n as [|n IH].
  - reflexivity.
  - rewrite range_S, sumZ_snoc. lia.
Qed.

Lemma sum_x2_closed n :
  (6 * AnomalyDetector.sum_x2 n
   = (Z.of_nat n - 1) * Z.of_nat n * (2 * Z.of_nat n - 1))%Z.
Proof.
  unfold AnomalyDetector.sum_x2. induction n as [|n IH].
  - reflexivity.
  - rewrite range_S, map_app. cbn [map]. rewrite sumZ_snoc. nia.
Qed.

Lemma slope_denominator_closed n :
  (12 * AnomalyDetector.slope_denominator n
   = Z.of_nat n * Z.of_nat n * (Z.of_nat n - 1) * (Z.of_nat n + 1))%Z.
Proof.
  unfold AnomalyDetector.slope_denominator.
  pose proof (sum_x_closed n) as Hx. pose proof (sum_x2_closed n) as Hx2.
  nia.
Qed.

Lemma slope_denominator_pos n :
  (2 <= n)%nat -> (0 < AnomalyDetector.slope_denominator n)%Z.
Proof.
  intros Hn. pose proof (slope_denominator_closed n) as Hc.
  assert (0 < Z.of_nat n * Z.of_nat n * (Z.of_nat n - 1) * (Z.of_nat n + 1))%Z
    by (apply Z.mul_pos_pos; [apply Z.mul_pos_pos; [apply Z.mul_pos_pos|]|]; lia).
  lia.
Qed.

(** ** Slices *)

Lemma slice_from_last {A} (k : Z) (l : list A) :
  (0 < k <= Z.of_nat (length l))%Z ->
  slice_from (- k) l = drop (length l - Z.to_nat k) l.
Proof.
  intros Hk. unfold slice_from.
  destruct (Z.ltb_spec (- k) 0) as [_|]; [|lia].
  f_equal. lia.
Qed.

Lemma slice_from_last_length {A} (k : Z) (l : list A) :
  (0 < k <= Z.of_nat (length l))%Z ->
  length (slice_from (- k) l) = Z.to_nat k.
Proof. intros Hk. rewrite slice_from_last, length_drop by done. lia. Qed.


(** ** Trend classification *)

Lemma slope_defined (recent_data : list Q) :
  (2 <= length recent_data)%nat ->
  AnomalyDetector.slope recent_data
  = Ok (AnomalyDetector.slope_numerator recent_data
        / inject_Z (AnomalyDetector.slope_denominator (length recent_data))).
Proof.
  intros Hn. unfold AnomalyDetector.slope, py_div.
  pose proof (slope_denominator_pos _ Hn) as Hpos.
  destruct (Qeq_bool _ 0) eqn:E; [|reflexivity].
  apply Qeq_bool_iff in E. unfold Qeq in E. simpl in E. lia.
Qed.


Lemma slope_one_point (recent_data : list Q) :
  length recent_data = 1%nat ->
  AnomalyDetector.slope recent_data = Raise ZeroDivisionError.
Proof. intros Hn. unfold AnomalyDetector.slope. rewrite Hn. reflexivity. Qed.

Lemma classify_slope_label (s : Q) :
  In (AnomalyDetector.classify_slope s) ["increasing"; "decreasing"; "stable"]%string.
Proof.
  unfold AnomalyDetector.classify_slope.
  destruct (Qgtb s (1 # 10)); [|destruct (Qltb s (- (1 # 10)))]; simpl; tauto.
Qed.

Lemma detect_trend_enough (d : AnomalyDetector.t) (metric_name : string)
    (points : Z) (history : list Q) :
  AnomalyDetector.data_history d !! metric_name = Some history ->
  (points <= Z.of_nat (length history))%Z ->
  AnomalyDetector.detect_trend d metric_name points
  = result_bind (AnomalyDetector.slope (slice_from (- points) history))
      (fun s => Ok (AnomalyDetector.classify_slope s)).
Proof.
  intros Hh Hp. unfold AnomalyDetector.detect_trend. rewrite Hh.
  destruct (Z.ltb_spec (Z.of_nat (length history)) points); [lia | reflexivity].
Qed.

(** C10: with at least [points] recorded values and [points >= 2], the
    denominator [n * sum_x2 - sum_x * sum_x] of the slope over the indices
    [0..n-1] is strictly positive, the division is defined and
    [detect_trend] returns one of the three trend labels; with [points = 1]
    the denominator is zero and [detect_trend] raises [ZeroDivisionError]. *)
Theorem detect_trend_needs_two_points (d : AnomalyDetector.t)
    (metric_name : string) (points : Z) (history : list Q) :
  AnomalyDetector.data_history d !! metric_name = Some history ->
  (points <= Z.of_nat (length history))%Z ->
  ((2 <= points)%Z ->
   (0 < AnomalyDetector.slope_denominator (Z.to_nat points))%Z /\
   exists s label,
     AnomalyDetector.slope (slice_from (- points) history) = Ok s /\
     AnomalyDetector.detect_trend d metric_name points = Ok label /\
     label = AnomalyDetector.classify_slope s /\
     In label ["increasing"; "decreasing"; "stable"]%string) /\
  (points = 1%Z ->
   AnomalyDetector.slope_denominator (Z.to_nat points) = 0%Z /\
   AnomalyDetector.detect_trend d metric_name points = Raise ZeroDivisionError).
Proof.
  intros Hh Hp. rewrite (detect_trend_enough _ _ _ _ Hh Hp). split.
  - intros H2.
    assert (Hlen : length (slice_from (- points) history) = Z.to_nat points)
      by (apply slice_from_last_length; lia).
    split; [apply slope_denominator_pos; lia|].
    eexists _, _. rewrite slope_defined by lia. simpl.
    repeat split. apply classify_slope_label.
  - intros ->. split; [reflexivity|].
    rewrite slope_one_point; [reflexivity|].
    apply slice_from_last_length. lia.
Qed.

Lemma detect_trend_needs_two_points_witness :
  (0 < AnomalyDetector.slope_denominator 2)%Z /\
  AnomalyDetector.detect_trend two_point_detector "cpu_percent" 2 = Ok "increasing"%string.
Proof.
  destruct (detect_trend_needs_two_points two_point_detector "cpu_percent" 2 [3; 5])
    as [H2 _]; [reflexivity | simpl; lia |].
  destruct (H2 ltac:(lia)) as [Hpos _].
  split; [exact Hpos | reflexivity].
Defined.

Lemma sum_replicate (n : nat) (c : Q) :
  sum (replicate n c) == inject_Z (Z.of_nat n) * c.
Proof.
  induction n as [|n IH].
  - reflexivity.
  - cbn [replicate]. rewrite sum_cons, IH, Nat2Z.inj_succ.
    unfold Z.succ. rewrite inject_Z_plus. ring.
Qed.







(** ** Anomaly detection *)

Lemma sum_map_replicate (f : Q -> Q) (n : nat) (c : Q) :
  sum (map f (replicate n c)) == inject_Z (Z.of_nat n) * f c.
Proof.
  induction n as [|n IH].
  - reflexivity.
  - cbn [replicate map]. rewrite sum_cons, IH, Nat2Z.inj_succ.
    unfold Z.succ. rewrite inject_Z_plus. ring.
Qed.

Lemma variance_replicate (n : nat) (c : Q) :
  (2 <= n)%nat -> exists v, variance (replicate n c) = Ok v /\ v == 0.
Proof.
  intros Hn. unfold variance. rewrite length_replicate.
  destruct (Nat.ltb_spec n 2) as [|_]; [lia|].
  eexists. split; [reflexivity|].
  unfold sum_sq_dev. rewrite sum_map_replicate, sum_replicate.
  assert (Hn0 : ~ inject_Z (Z.of_nat n) == 0).
  { unfold Qeq. simpl. lia. }
  assert (Hc : inject_Z (Z.of_nat n) * c / inject_Z (Z.of_nat n) == c)
    by (field; exact Hn0).
  rewrite Hc. unfold Qdiv. ring.
Qed.

Lemma mean_defined (data : list Q) :
  data <> [] -> exists m, mean data = Ok m.
Proof. destruct data; [congruence | eexists; reflexivity]. Qed.

Lemma variance_defined (data : list Q) :
  (2 <= length data)%nat -> exists v, variance data = Ok v.
Proof.
  intros Hn. unfold variance.
  destruct (Nat.ltb_spec (length data) 2); [lia | eexists; reflexivity].
Qed.

Section AnomalyProperties.
Context `{Runtime}.

Lemma is_anomaly_short (d : AnomalyDetector.t) (metric_name : string) (value : Q) :
  (length (default [] (AnomalyDetector.data_history d !! metric_name)) < 10)%nat ->
  AnomalyDetector.is_anomaly d metric_name value = Ok (false, 0).
Proof.
  unfold AnomalyDetector.is_anomaly.
  destruct (AnomalyDetector.data_history d !! metric_name) as [history|];
    cbn [from_option id]; [|reflexivity].
  intros Hlt. destruct (Nat.ltb_spec (length history) 10); [reflexivity | lia].
Qed.

Lemma is_anomaly_zero_stdev (d : AnomalyDetector.t) (metric_name : string)
    (value : Q) (history : list Q) (sd : Q) :
  AnomalyDetector.data_history d !! metric_name = Some history ->
  stdev history = Ok sd -> sd == 0 ->
  AnomalyDetector.is_anomaly d metric_name value = Ok (false, 0).
Proof.
  intros Hh Hsd Hz. unfold AnomalyDetector.is_anomaly. rewrite Hh.
  destruct (Nat.ltb_spec (length history) 10) as [|Hlen]; [reflexivity|].
  destruct (mean_defined history) as [m Hm]; [destruct history; simpl in *; [lia|done]|].
  rewrite Hm. cbn [result_bind].
  destruct (Nat.ltb_spec 1 (length history)); [|lia].
  rewrite Hsd. cbn [result_bind].
  apply Qeq_bool_iff in Hz. rewrite Hz. reflexivity.
Qed.

Lemma is_anomaly_returns (d : AnomalyDetector.t) (metric_name : string) (value : Q) :
  exists r, AnomalyDetector.is_anomaly d metric_name value = Ok r.
Proof.
  unfold AnomalyDetector.is_anomaly.
  destruct (AnomalyDetector.data_history d !! metric_name) as [history|];
    [|eexists; reflexivity].
  destruct (Nat.ltb_spec (length history) 10) as [|Hlen]; [eexists; reflexivity|].
  destruct (mean_defined history) as [m Hm]; [destruct history; simpl in *; [lia|done]|].
  rewrite Hm. cbn [result_bind].
  destruct (Nat.ltb_spec 1 (length history)); [|lia].
  unfold stdev. destruct (variance_defined history) as [v Hv]; [lia|].
  rewrite Hv. cbn [result_bind].
  destruct (Qeq_bool (sqrt v) 0) eqn:E; [eexists; reflexivity|].
  unfold py_div. rewrite E. cbn [result_bind]. eexists; reflexivity.
Qed.

(** C4: [is_anomaly] answers [(False, 0.0)] whenever fewer than 10 values
    are recorded for the metric and whenever the standard deviation of the
    window is 0, as it is for a constant history; it never raises, so the
    z-score is never divided by a zero standard deviation. *)
Theorem is_anomaly_degenerate (d : AnomalyDetector.t) (metric_name : string)
    (value : Q) :
  let history := default [] (AnomalyDetector.data_history d !! metric_name) in
  ((length history < 10)%nat ->
   AnomalyDetector.is_anomaly d metric_name value = Ok (false, 0)) /\
  (forall sd, stdev history = Ok sd -> sd == 0 ->
   AnomalyDetector.is_anomaly d metric_name value = Ok (false, 0)) /\
  ((forall q, q == 0 -> sqrt q == 0) ->
   forall c, history = replicate (length history) c ->
   AnomalyDetector.is_anomaly d metric_name value = Ok (false, 0)) /\
  (exists r, AnomalyDetector.is_anomaly d metric_name value = Ok r).
Proof.
  intros history. split; [apply is_anomaly_short|].
  split; [|split; [|apply is_anomaly_returns]].
  - intros sd Hsd Hz. subst history.
    destruct (AnomalyDetector.data_history d !! metric_name) as [history|] eqn:Hh.
    + exact (is_anomaly_zero_stdev _ _ _ _ _ Hh Hsd Hz).
    + apply is_anomaly_short. rewrite Hh. simpl. lia.
  - intros Hsqrt c Hc.
    destruct (Nat.lt_ge_cases (length history) 10) as [Hlt|Hge];
      [apply is_anomaly_short; exact Hlt|].
    subst history.
    destruct (AnomalyDetector.data_history d !! metric_name) as [history|] eqn:Hh;
      cbn [from_option id] in *; [|simpl in Hge; lia].
    destruct (variance_replicate (length history) c) as (v & Hv & Hv0); [lia|].
    apply (is_anomaly_zero_stdev _ _ _ history (sqrt v) Hh).
    + unfold stdev. rewrite Hc, Hv. reflexivity.
    + apply Hsqrt, Hv0.
Qed.

End AnomalyProperties.

Lemma fixed_sqrt_zero (q : Q) : q == 0 -> Reference.fixed_sqrt q == 0.
Proof.
  intros Hq. unfold Reference.fixed_sqrt.
  assert (Hn : Qnum q = 0%Z) by (unfold Qeq in Hq; simpl in Hq; lia).
  rewrite Hn. reflexivity.
Qed.

Lemma is_anomaly_degenerate_witness :
  AnomalyDetector.is_anomaly (H := Reference.runtime) constant_detector "cpu_percent" 10
  = Ok (false, 0).
Proof.
  destruct (is_anomaly_degenerate (H := Reference.runtime) constant_detector
              "cpu_percent" 10) as (_ & _ & Hconst & _).
  apply (Hconst fixed_sqrt_zero 10). reflexivity.
Defined.

(** ** Running the monad *)

Lemma bind_assoc {A B C} (m : M A) (k : A -> M B) (k' : B -> M C) w :
  bind (bind m k) k' w = bind m (fun a => bind (k a) k') w.
Proof. unfold bind. destruct (m w) as [[a|e] w']; reflexivity. Qed.

Lemma bind_ok {A B} (m : M A) (k : A -> M B) w a w' :
  m w = (Ok a, w') -> bind m k w = k a w'.
Proof. intros Hm. unfold bind. rewrite Hm. reflexivity. Qed.

Lemma bind_ret {A B} (a : A) (k : A -> M B) w : bind (ret a) k w = k a w.
Proof. reflexivity. Qed.

Lemma bind_get {B} (k : World -> M B) w : bind get k w = k w w.
Proof. reflexivity. Qed.

Lemma bind_modify {B} f (k : unit -> M B) w : bind (modify f) k w = k tt (f w).
Proof. reflexivity. Qed.

Lemma bind_lift_ok {A B} (a : A) (k : A -> M B) w : bind (lift (Ok a)) k w = k a w.
Proof. reflexivity. Qed.

Lemma bind_lift_raise {A B} e (k : A -> M B) w :
  bind (lift (Raise e)) k w = (Raise e, w).
Proof. reflexivity. Qed.

Lemma bind_datetime_now {B} (k : datetime -> M B) w :
  bind datetime_now k w = k (clock w (clock_reads w)) (snd (datetime_now w)).
Proof. reflexivity. Qed.

Lemma bind_logger {B} r (k : unit -> M B) w :
  bind (logger r) k w = k tt (snd (logger r w)).
Proof. reflexivity. Qed.

Ltac mstep :=
  repeat first
    [ rewrite bind_assoc | rewrite bind_ret | rewrite bind_get
    | rewrite bind_modify | rewrite bind_lift_ok | rewrite bind_lift_raise
    | rewrite bind_datetime_now | rewrite bind_logger ].

(** ** Threshold alerts *)

Section ThresholdProperties.
Context `{Runtime}.

Lemma check_threshold_alert_opens metric_name value threshold category w :
  threshold < value ->
  List.filter (is_active_for metric_name category) (alert_history (self w)) = [] ->
  let alert := threshold_alert metric_name value threshold category
                 (clock w (clock_reads w)) in
  check_threshold_alert metric_name value threshold category w
  = (Ok tt,
     set_log (alert_history (self w) ++ [alert]) (S (clock_reads w))
       (sent w ++ [alert])
       (logged w ++ [LogWarning ("ALERT [" ++ Alert.severity alert ++ "] "
                                 ++ category ++ ": " ++ Alert.message alert)])
       w).
Proof.
  intros Hgt Hnone. apply Qgtb_true in Hgt.
  unfold check_threshold_alert. rewrite Hgt.
  unfold bind at 1. unfold get at 1. cbv beta iota. rewrite Hnone.
  reflexivity.
Qed.

Lemma check_threshold_alert_dedup metric_name value threshold category w :
  threshold < value ->
  List.filter (is_active_for metric_name category) (alert_history (self w)) <> [] ->
  check_threshold_alert metric_name value threshold category w = (Ok tt, w).
Proof.
  intros Hgt Hsome. apply Qgtb_true in Hgt.
  unfold check_threshold_alert. rewrite Hgt.
  unfold bind at 1. unfold get at 1. cbv beta iota.
  destruct (List.filter _ _); [congruence | reflexivity].
Qed.

Lemma set_log_id w :
  set_log (alert_history (self w)) (clock_reads w) (sent w) (logged w) w = w.
Proof. destruct w as [[] ? ? ? ? ? ?]. reflexivity. Qed.

Lemma resolve_active_spec metric_name category l w :
  exists l' reads lines,
    resolve_active metric_name category l w
    = (Ok l', set_log (alert_history (self w)) reads (sent w) lines w) /\
    Forall2 (resolution metric_name category) l l'.
Proof.
  revert w. induction l as [|a l IH]; intros w.
  - exists [], (clock_reads w), (logged w). rewrite set_log_id. split; [reflexivity | constructor].
  - cbn [resolve_active].
    destruct (is_active_for metric_name category a) eqn:Ea.
    + set (w1 := snd (logger (LogInfo ("Alert resolved: " ++ Alert.message a))
                        (snd (datetime_now w)))).
      destruct (IH w1) as (l' & reads & lines & Hrun & Hall).
      exists (Alert.resolve (clock w (clock_reads w)) a :: l'), reads, lines.
      split.
      * mstep. erewrite bind_ok by exact Hrun. reflexivity.
      * constructor; [|exact Hall]. unfold resolution. rewrite Ea. eauto.
    + destruct (IH w) as (l' & reads & lines & Hrun & Hall).
      exists (a :: l'), reads, lines. split.
      * mstep. erewrite bind_ok by exact Hrun. reflexivity.
      * constructor; [|exact Hall]. unfold resolution. rewrite Ea. reflexivity.
Qed.

Lemma check_threshold_alert_resolves metric_name value threshold category w :
  value <= threshold ->
  exists l' reads lines,
    check_threshold_alert metric_name value threshold category w
    = (Ok tt, set_log l' reads (sent w) lines w) /\
    Forall2 (resolution metric_name category) (alert_history (self w)) l'.
Proof.
  intros Hle. apply Qgtb_false in Hle.
  destruct (resolve_active_spec metric_name category (alert_history (self w)) w)
    as (l' & reads & lines & Hrun & Hall).
  exists l', reads, lines. split; [|exact Hall].
  unfold check_threshold_alert. rewrite Hle.
  mstep. erewrite bind_ok by exact Hrun. reflexivity.
Qed.

Lemma prefix_app (s rest : string) : String.prefix s (s ++ rest) = true.
Proof.
  induction s as [|a s IH]; [destruct rest; reflexivity|].
  simpl. destruct (ascii_dec a a); [exact IH | congruence].
Qed.

Lemma str_in_unfold (sub s : string) :
  str_in sub s
  = String.prefix sub s ||
    match s with
    | EmptyString => false
    | String _ s' => str_in sub s'
    end.
Proof. destruct s; reflexivity. Qed.

Lemma str_in_app (s rest : string) : str_in s (s ++ rest) = true.
Proof. rewrite str_in_unfold, prefix_app. reflexivity. Qed.

Lemma threshold_alert_active metric_name value threshold category now :
  is_active_for metric_name category
    (threshold_alert metric_name value threshold category now) = true.
Proof.
  unfold is_active_for, threshold_alert, threshold_message. cbn.
  rewrite String.eqb_refl. apply str_in_app.
Qed.

Lemma filter_nil_inv {A} (f : A -> bool) (l : list A) :
  List.filter f l = [] -> Forall (fun a => f a = false) l.
Proof.
  induction l as [|a l IH]; [constructor|]. simpl.
  destruct (f a) eqn:E; [discriminate|]. intros Hl. constructor; auto.
Qed.

Lemma resolution_inactive metric_name category (l l' : list Alert.t) :
  Forall (fun a => is_active_for metric_name category a = false) l ->
  Forall2 (resolution metric_name category) l l' -> l' = l.
Proof.
  intros Hl Hall. induction Hall as [|a a' l l' Ha _ IH]; [reflexivity|].
  inversion Hl as [|? ? Hina Hl']; subst.
  unfold resolution in Ha. rewrite Hina in Ha. rewrite Ha, IH by assumption.
  reflexivity.
Qed.


(** C2: from a log without an unresolved alert for [(category, metric)],
    three consecutive samples above the threshold append exactly one alert,
    and a following sample within the threshold resolves exactly that
    alert, with a resolution time. *)
Theorem breach_sequence_opens_once (metric_name : string) (threshold : Q)
    (category : string) (w : World) :
  List.filter (is_active_for metric_name category) (alert_history (self w)) = [] ->
  let breach := check_threshold_alert metric_name (threshold + 1) threshold category in
  let w3 := exec (breach ;; breach ;; breach)%M w in
  let alert := threshold_alert metric_name (threshold + 1) threshold category
                 (clock w (clock_reads w)) in
  alert_history (self w3) = alert_history (self w) ++ [alert] /\
  sent w3 = sent w ++ [alert] /\
  forall value, value <= threshold ->
    let w4 := exec (check_threshold_alert metric_name value threshold category) w3 in
    exists now,
      alert_history (self w4)
      = alert_history (self w) ++ [Alert.resolve now alert] /\
      Alert.resolved (Alert.resolve now alert) = true /\
      Alert.resolution_time (Alert.resolve now alert) = Some now.
Proof.
  intros Hnone breach w3 alert.
  assert (Hgt : threshold < threshold + 1) by lra.
  pose proof (check_threshold_alert_opens metric_name (threshold + 1) threshold
                category w Hgt Hnone) as H1.
  cbv zeta in H1. fold alert in H1.
  set (w1 := set_log _ _ _ _ _) in H1.
  assert (Hact : List.filter (is_active_for metric_name category)
                   (alert_history (self w1)) <> []).
  { subst w1. cbn [self set_log alert_history set_alert_history].
    rewrite List.filter_app. cbn [List.filter].
    unfold alert at 1. rewrite threshold_alert_active.
    intros E. apply app_eq_nil in E as [_ E]. discriminate. }
  pose proof (check_threshold_alert_dedup metric_name (threshold + 1) threshold
                category w1 Hgt Hact) as H2.
  assert (Hw3 : w3 = w1).
  { subst w3 breach. unfold exec.
    rewrite (bind_ok _ _ _ _ _ H1), (bind_ok _ _ _ _ _ H2), H2. reflexivity. }
  rewrite Hw3. split; [reflexivity|]. split; [reflexivity|].
  intros value Hle w4. subst w4. unfold exec.
  destruct (check_threshold_alert_resolves metric_name value threshold category w1 Hle)
    as (l' & reads & lines & Hrun & Hall).
  rewrite Hrun. cbn in Hall |- *.
  apply Forall2_app_inv_l in Hall as (k1 & k2 & Hold & Hnew & ->).
  apply resolution_inactive in Hold; [|apply filter_nil_inv, Hnone]. subst k1.
  inversion Hnew as [|? a' ? k3 Ha Hnil]; subst. inversion Hnil; subst.
  unfold resolution in Ha. unfold alert in Ha at 1.
  rewrite threshold_alert_active in Ha. destruct Ha as [now ->].
  exists now. repeat split.
Qed.

End ThresholdProperties.


Lemma breach_sequence_opens_once_witness :
  let breach := check_threshold_alert (H := Reference.runtime) "CPU Usage" (80 + 1) 80 "system" in
  alert_history (self (exec (breach ;; breach ;; breach)%M sample_world))
  = [threshold_alert (H := Reference.runtime) "CPU Usage" (80 + 1) 80 "system" sample_time].
Proof.
  exact (proj1 (breach_sequence_opens_once (H := Reference.runtime)
                  "CPU Usage" 80 "system" sample_world eq_refl)).
Defined.

(** ** Persistence of the alert log *)

(** Saving returns normally and leaves the monitor as it was, whatever the
    file system does. *)
Lemma write_alert_file_self data w : self (snd (write_alert_file data w)) = self w.
Proof.
  unfold write_alert_file. destruct (next_write w); [|reflexivity..].
  destruct (forallb _ data); reflexivity.
Qed.

Lemma save_alert_history_runs (w : World) :
  exists w', save_alert_history w = (Ok tt, w') /\
             self w' = self w /\
             (next_write w <> Written ->
              logged w' = logged w ++ [LogError "Error saving alert history" OSError]).
Proof.
  unfold save_alert_history, try_except. mstep.
  pose proof (write_alert_file_self (map alert_to_dict (alert_history (self w))) w) as Hs.
  unfold write_alert_file in *.
  destruct (next_write w); [destruct (forallb _ _)|..]; cbn in Hs |- *;
    eexists; (split; [reflexivity|]); cbn; auto; repeat split; congruence.
Qed.

(** C9: [save_alert_history] never raises to its caller and never changes
    the monitor (in particular its alert log), whether the write succeeds,
    cannot start, or fails part-way; a failed write is logged. *)
Theorem save_alert_history_best_effort (w : World) :
  exists w', save_alert_history w = (Ok tt, w') /\
             self w' = self w /\
             alert_history (self w') = alert_history (self w) /\
             (next_write w <> Written ->
              logged w' = logged w ++ [LogError "Error saving alert history" OSError]).
Proof.
  destruct (save_alert_history_runs w) as (w' & Hrun & Hself & Hlog).
  exists w'. rewrite Hself. auto.
Qed.

Lemma append_cons (a : ascii) (s t : string) :
  (String a s ++ t = String a (s ++ t))%string.
Proof. reflexivity. Qed.

Lemma append_nil (t : string) : (EmptyString ++ t = t)%string.
Proof. reflexivity. Qed.

Lemma string_app_assoc (a b c : string) :
  ((a ++ b) ++ c = a ++ (b ++ c))%string.
Proof.
  induction a as [|x a IH]; [reflexivity|].
  rewrite !append_cons, IH. reflexivity.
Qed.

Lemma char_digit_digit_char (d : Z) :
  (0 <= d < 10)%Z -> char_digit (digit_char d) = Some d.
Proof.
  intros Hd.
  assert (d = 0 \/ d = 1 \/ d = 2 \/ d = 3 \/ d = 4 \/ d = 5 \/ d = 6
          \/ d = 7 \/ d = 8 \/ d = 9)%Z as Hcases by lia.
  repeat (destruct Hcases as [-> | Hcases]; [reflexivity|]).
  subst. reflexivity.
Qed.

(** Reading back the digits that [digits] wrote. *)
Lemma take_digits_digits_more (width more : nat) (n acc : Z) (rest : string) :
  (0 <= n < 10 ^ Z.of_nat width)%Z ->
  take_digits (width + more) acc (digits width n ++ rest)
  = take_digits more (acc * 10 ^ Z.of_nat width + n)%Z rest.
Proof.
  revert more n rest. induction width as [|width IH]; intros more n rest Hn.
  - simpl. f_equal. simpl in Hn. lia.
  - cbn [digits]. rewrite string_app_assoc.
    replace (S width + more)%nat with (width + S more)%nat by lia.
    assert (Hpow : (10 ^ Z.of_nat (S width) = 10 * 10 ^ Z.of_nat width)%Z).
    { rewrite Nat2Z.inj_succ, Z.pow_succ_r by lia. reflexivity. }
    rewrite IH.
    + rewrite append_cons, append_nil. cbn [take_digits]. rewrite char_digit_digit_char
        by (apply Z.mod_pos_bound; lia).
      f_equal. rewrite Hpow. pose proof (Z.div_mod n 10). lia.
    + rewrite Hpow in Hn. split; [apply Z.div_pos; lia|].
      apply Z.div_lt_upper_bound; lia.
Qed.

Lemma take_digits_digits (width : nat) (n : Z) (rest : string) :
  (0 <= n < 10 ^ Z.of_nat width)%Z ->
  take_digits width 0 (digits width n ++ rest) = Some (n, rest).
Proof.
  intros Hn. pose proof (take_digits_digits_more width 0 n 0 rest Hn) as Hd.
  rewrite Nat.add_0_r in Hd. rewrite Hd. reflexivity.
Qed.

Lemma append_empty_r (s : string) : (s ++ "" = s)%string.
Proof. induction s as [|x s IH]; [reflexivity|]. rewrite append_cons, IH. reflexivity. Qed.

Lemma take_digits_digits_end (width : nat) (n : Z) :
  (0 <= n < 10 ^ Z.of_nat width)%Z ->
  take_digits width 0 (digits width n) = Some (n, EmptyString).
Proof.
  intros Hn. rewrite <- (append_empty_r (digits width n)).
  apply take_digits_digits, Hn.
Qed.

Lemma days_in_month_le (y m : Z) : (days_in_month y m <= 31)%Z.
Proof.
  unfold days_in_month.
  repeat match goal with |- context [if ?b then _ else _] => destruct b end; lia.
Qed.

Lemma between_spec (lo x hi : Z) : between lo x hi = true -> (lo <= x <= hi)%Z.
Proof. unfold between. rewrite andb_true_iff, !Z.leb_le. tauto. Qed.

(** Round trip of the ISO text of a [datetime]. *)
Lemma fromisoformat_isoformat (d : datetime) :
  valid_datetime d = true -> fromisoformat (isoformat d) = Ok d.
Proof.
  intros Hv. pose proof Hv as Hvalid. unfold valid_datetime in Hv.
  repeat (apply andb_true_iff in Hv as [Hv ?]).
  repeat match goal with H : between _ _ _ = true |- _ => apply between_spec in H end.
  pose proof (days_in_month_le (year d) (month d)).
  unfold fromisoformat, isoformat.
  repeat rewrite string_app_assoc.
  rewrite take_digits_digits by (simpl; lia). rewrite ?append_cons, ?append_nil; cbn [mbind option_bind expect Ascii.eqb Bool.eqb].
  rewrite take_digits_digits by (simpl; lia). rewrite ?append_cons, ?append_nil; cbn [mbind option_bind expect Ascii.eqb Bool.eqb].
  rewrite take_digits_digits by (simpl; lia). rewrite ?append_cons, ?append_nil; cbn [mbind option_bind expect Ascii.eqb Bool.eqb].
  rewrite take_digits_digits by (simpl; lia). rewrite ?append_cons, ?append_nil; cbn [mbind option_bind expect Ascii.eqb Bool.eqb].
  rewrite take_digits_digits by (simpl; lia). rewrite ?append_cons, ?append_nil; cbn [mbind option_bind expect Ascii.eqb Bool.eqb].
  destruct (Z.eqb_spec (microsecond d) 0) as [Hus|Hus].
  - pose proof (take_digits_digits 2 (second d) "" ltac:(simpl; lia)) as Hs.
    rewrite Hs. cbn [mbind option_bind].
    destruct d as [y mo dd h mi sec us]. cbn [year month day hour minute second microsecond] in *.
    subst us. rewrite Hvalid. reflexivity.
  - rewrite take_digits_digits by (simpl; lia). rewrite ?append_cons, ?append_nil; cbn [mbind option_bind expect Ascii.eqb Bool.eqb].
    rewrite take_digits_digits_end by (simpl; lia). cbn [mbind option_bind].
    destruct d as [y mo dd h mi sec us]. cbn [year month day hour minute second microsecond] in *.
    rewrite Hvalid. reflexivity.
Qed.

Lemma isoformat_nonempty (d : datetime) : String.eqb (isoformat d) "" = false.
Proof.
  unfold isoformat. cbn [digits]. repeat rewrite string_app_assoc.
  reflexivity.
Qed.

Ltac dict_lookup :=
  unfold alert_to_dict, asdict;
  destruct (Alert.resolution_time _); by simplify_map_eq.

Lemma alert_to_dict_timestamp a :
  alert_to_dict a !! "timestamp"%string = Some (VStr (isoformat (Alert.timestamp a))).
Proof. dict_lookup. Qed.
Lemma alert_to_dict_severity a :
  alert_to_dict a !! "severity"%string = Some (VStr (Alert.severity a)).
Proof. dict_lookup. Qed.
Lemma alert_to_dict_category a :
  alert_to_dict a !! "category"%string = Some (VStr (Alert.category a)).
Proof. dict_lookup. Qed.
Lemma alert_to_dict_message a :
  alert_to_dict a !! "message"%string = Some (VStr (Alert.message a)).
Proof. dict_lookup. Qed.
Lemma alert_to_dict_value a :
  alert_to_dict a !! "value"%string = Some (VFloat (Alert.value a)).
Proof. dict_lookup. Qed.
Lemma alert_to_dict_threshold a :
  alert_to_dict a !! "threshold"%string = Some (VFloat (Alert.threshold a)).
Proof. dict_lookup. Qed.
Lemma alert_to_dict_duration_minutes a :
  alert_to_dict a !! "duration_minutes"%string = Some (VInt (Alert.duration_minutes a)).
Proof. dict_lookup. Qed.
Lemma alert_to_dict_resolved a :
  alert_to_dict a !! "resolved"%string = Some (VBool (Alert.resolved a)).
Proof. dict_lookup. Qed.
Lemma alert_to_dict_resolution_time a :
  alert_to_dict a !! "resolution_time"%string
  = Some (match Alert.resolution_time a with
          | Some d => VStr (isoformat d)
          | None => VNone
          end).
Proof. dict_lookup. Qed.

Lemma alert_of_dict_to_dict (a : Alert.t) :
  valid_alert a -> alert_of_dict (alert_to_dict a) = Ok a.
Proof.
  intros [Hts Hrt]. unfold alert_of_dict, getitem.
  rewrite alert_to_dict_timestamp, alert_to_dict_severity, alert_to_dict_category,
    alert_to_dict_message, alert_to_dict_value, alert_to_dict_threshold,
    alert_to_dict_duration_minutes, alert_to_dict_resolved,
    alert_to_dict_resolution_time.
  cbn [result_bind as_str as_float as_int as_bool from_option id].
  rewrite (fromisoformat_isoformat _ Hts). cbn [result_bind].
  destruct a as [ts sev cat msg v th dur res [rt|]];
    cbn [Alert.timestamp Alert.resolution_time truthy result_bind as_str] in *.
  - rewrite isoformat_nonempty. cbn [negb].
    rewrite (fromisoformat_isoformat _ Hrt). reflexivity.
  - reflexivity.
Qed.

Lemma alerts_of_data_to_dict (l : list Alert.t) :
  Forall valid_alert l -> alerts_of_data (map alert_to_dict l) = Ok l.
Proof.
  induction 1 as [|a l Ha _ IH]; [reflexivity|].
  cbn [map alerts_of_data]. rewrite (alert_of_dict_to_dict _ Ha), IH. reflexivity.
Qed.

Lemma alert_to_dict_serializable (a : Alert.t) :
  map_Forall (fun _ v => serializable v = true) (alert_to_dict a).
Proof.
  unfold alert_to_dict, asdict. intros k v.
  destruct (Alert.resolution_time a);
    rewrite ?lookup_insert; repeat case_decide; intros ?; simplify_map_eq; done.
Qed.

Lemma to_dict_all_serializable (l : list Alert.t) :
  forallb (fun d => bool_decide (map_Forall (fun _ v => serializable v = true) d))
    (map alert_to_dict l) = true.
Proof.
  induction l as [|a l IH]; [reflexivity|].
  cbn [map forallb]. rewrite IH, andb_true_r.
  apply bool_decide_eq_true_2, alert_to_dict_serializable.
Qed.

Lemma save_alert_history_written (w : World) :
  next_write w = Written ->
  alert_file (exec save_alert_history w)
  = Some (Records (map alert_to_dict (alert_history (self w)))).
Proof.
  intros Hw. unfold exec, save_alert_history, try_except. mstep.
  unfold write_alert_file. rewrite Hw, to_dict_all_serializable. reflexivity.
Qed.

(** C7: when the write goes through, a monitor started on the file that
    [save_alert_history] wrote holds the same alerts in the same order, with
    their resolved flags and resolution times. *)
Theorem save_load_roundtrip (w : World) (cfg : Config) (clk : nat -> datetime) :
  Forall valid_alert (alert_history (self w)) ->
  next_write w = Written ->
  let saved := exec save_alert_history w in
  alert_history (self (start cfg clk (alert_file saved))) = alert_history (self w).
Proof.
  intros Hvalid Hw saved. subst saved.
  rewrite (save_alert_history_written _ Hw).
  unfold start, exec, load_alert_history, try_except. mstep.
  cbn [alert_file json_load]. mstep.
  rewrite (alerts_of_data_to_dict _ Hvalid). mstep. reflexivity.
Qed.

Lemma save_load_roundtrip_witness :
  alert_history
    (self (start DEFAULT_CONFIG (fun _ => sample_time)
             (alert_file (exec save_alert_history sample_logged_world))))
  = [sample_resolved_alert; sample_open_alert].
Proof.
  apply (save_load_roundtrip sample_logged_world DEFAULT_CONFIG (fun _ => sample_time)).
  - repeat (apply List.Forall_cons; [split; vm_compute; reflexivity|]).
    apply List.Forall_nil.
  - reflexivity.
Defined.

(** ** The report over empty histories *)





(** ** Substrings of alert messages *)

Lemma no_upper_app (a b : string) :
  no_upper (a ++ b) = no_upper a && no_upper b.
Proof.
  induction a as [|c a IH]; [reflexivity|].
  rewrite append_cons. cbn [no_upper]. rewrite IH, andb_assoc. reflexivity.
Qed.

Lemma prefix_cons_neq (c x : ascii) (d t : string) :
  c <> x -> String.prefix (String c d) (String x t) = false.
Proof. intros Hne. cbn [String.prefix]. destruct (ascii_dec c x); [contradiction | reflexivity]. Qed.

Lemma str_in_no_upper (d t : string) :
  starts_upper d = true -> no_upper t = true -> str_in d t = false.
Proof.
  destruct d as [|c d]; [discriminate|]. cbn [starts_upper]. intros Hc.
  induction t as [|x t IH]; intros Ht.
  - reflexivity.
  - cbn [no_upper] in Ht. apply andb_true_iff in Ht as [Hx Ht].
    rewrite str_in_unfold, IH by exact Ht.
    rewrite prefix_cons_neq; [reflexivity|].
    intros ->. rewrite Hc in Hx. discriminate.
Qed.

Lemma prefix_disagree (d p t : string) :
  String.prefix d p = false -> String.prefix p d = false ->
  String.prefix d (p ++ t) = false.
Proof.
  revert p. induction d as [|c d IH]; intros [|x p]; try discriminate.
  rewrite append_cons. cbn [String.prefix].
  destruct (ascii_dec c x) as [->|Hne].
  - destruct (ascii_dec x x); [|contradiction]. apply IH.
  - reflexivity.
Qed.

Lemma str_in_skip (d p t : string) :
  no_overlap d p = true -> str_in d (p ++ t) = str_in d t.
Proof.
  induction p as [|x p IH]; [reflexivity|].
  cbn [no_overlap]. rewrite !andb_true_iff, !negb_true_iff.
  intros [[Hdp Hpd] Hrest].
  rewrite append_cons, str_in_unfold, <- append_cons.
  rewrite (prefix_disagree _ _ _ Hdp Hpd). apply IH, Hrest.
Qed.

(** Reference formatting is lower-case. *)
Lemma no_upper_string_of_uint (u : Decimal.uint) :
  no_upper (NilEmpty.string_of_uint u) = true.
Proof. induction u; cbn [NilEmpty.string_of_uint no_upper]; try exact IHu; reflexivity. Qed.

Lemma no_upper_decimal (n : Z) : no_upper (Reference.decimal n) = true.
Proof.
  unfold Reference.decimal, NilZero.string_of_uint.
  destruct (N.to_uint (Z.to_N n)) eqn:E; try reflexivity;
    rewrite <- E; apply no_upper_string_of_uint.
Qed.

Lemma no_upper_digit_char (d : Z) :
  (0 <= d < 10)%Z -> is_upper (digit_char d) = false.
Proof.
  intros Hd.
  assert (d = 0 \/ d = 1 \/ d = 2 \/ d = 3 \/ d = 4 \/ d = 5 \/ d = 6
          \/ d = 7 \/ d = 8 \/ d = 9)%Z as Hcases by lia.
  repeat (destruct Hcases as [-> | Hcases]; [reflexivity|]).
  subst. reflexivity.
Qed.

Lemma no_upper_digits (width : nat) (n : Z) : no_upper (digits width n) = true.
Proof.
  revert n. induction width as [|width IH]; intros n; [reflexivity|].
  cbn [digits]. rewrite no_upper_app, IH. cbn [no_upper].
  rewrite no_upper_digit_char by (apply Z.mod_pos_bound; lia). reflexivity.
Qed.

Lemma no_upper_sign (q : Q) : no_upper (Reference.sign q) = true.
Proof. unfold Reference.sign. destruct (Qltb q 0); reflexivity. Qed.

Lemma no_upper_fixed_2f (q : Q) : no_upper (Reference.fixed_2f q) = true.
Proof.
  unfold Reference.fixed_2f.
  rewrite !no_upper_app, no_upper_sign, no_upper_decimal, no_upper_digits.
  reflexivity.
Qed.

Lemma reference_lowercase : lowercase_formatting (H := Reference.runtime).
Proof.
  intros q. split; [apply no_upper_fixed_2f|].
  cbn [str Reference.runtime]. unfold Reference.number_str.
  destruct (_ =? 1)%Z; [|apply no_upper_fixed_2f].
  rewrite !no_upper_app, no_upper_sign, no_upper_decimal. reflexivity.
Qed.

(** ** The life cycle of the alert log *)

Section Lifecycle.
Context `{Runtime}.

Lemma evolves_same {A} (m : M A) :
  (forall w, alert_history (self (snd (m w))) = alert_history (self w)) ->
  (forall w, alert_file (snd (m w)) = alert_file w) ->
  evolves m.
Proof. intros Hsame Hfile w. rewrite Hsame. split; [apply rtc_refl | apply Hfile]. Qed.

Lemma evolves_ret {A} (a : A) : evolves (ret a).
Proof. apply evolves_same; reflexivity. Qed.

Lemma evolves_bind {A B} (m : M A) (k : A -> M B) :
  evolves m -> (forall a, evolves (k a)) -> evolves (bind m k).
Proof.
  intros Hm Hk w. unfold bind. destruct (Hm w) as [Hlog Hfile].
  destruct (m w) as [[a|e] w1]; cbn [snd] in *; [|split; assumption].
  destruct (Hk a w1) as [Hlog' Hfile']. split; [|congruence].
  etrans; eassumption.
Qed.

Lemma evolves_lift_bind {A B} (r : result A) (k : A -> M B) :
  (forall a, r = Ok a -> evolves (k a)) -> evolves (bind (lift r) k).
Proof.
  intros Hk w. destruct r as [a|e]; [|split; [apply rtc_refl | reflexivity]].
  rewrite bind_lift_ok. apply Hk. reflexivity.
Qed.

Lemma evolves_for_each {A} (l : list A) (body : A -> M unit) :
  (forall x, In x l -> evolves (body x)) -> evolves (for_each l body).
Proof.
  induction l as [|x l IH]; intros Hb; [apply evolves_ret|].
  cbn [for_each]. apply evolves_bind; [apply Hb; left; reflexivity|].
  intros _. apply IH. intros y Hy. apply Hb. right. exact Hy.
Qed.

Lemma evolves_get : evolves get.
Proof. apply evolves_same; reflexivity. Qed.

Lemma evolves_logger r : evolves (logger r).
Proof. apply evolves_same; reflexivity. Qed.

Lemma evolves_datetime_now : evolves datetime_now.
Proof. apply evolves_same; reflexivity. Qed.

Lemma evolves_check_threshold_alert metric_name value threshold category :
  In (metric_name, category) threshold_checks ->
  evolves (check_threshold_alert metric_name value threshold category).
Proof.
  intros Hin w.
  destruct (Qlt_le_dec threshold value) as [Hgt|Hle].
  - destruct (List.filter (is_active_for metric_name category)
                (alert_history (self w))) eqn:Hact.
    + rewrite check_threshold_alert_opens by assumption.
      split; [|reflexivity]. apply rtc_once.
      cbn [snd self set_log alert_history set_alert_history].
      apply step_open; assumption.
    + rewrite check_threshold_alert_dedup by (try assumption; rewrite Hact; discriminate).
      split; [apply rtc_refl | reflexivity].
  - destruct (check_threshold_alert_resolves metric_name value threshold category w Hle)
      as (l' & reads & lines & Hrun & Hall).
    rewrite Hrun. split; [|reflexivity]. apply rtc_once.
    cbn [snd self set_log alert_history set_alert_history].
    eapply step_resolve; eassumption.
Qed.

Lemma detect_trend_label d metric_name points trend :
  AnomalyDetector.detect_trend d metric_name points = Ok trend ->
  In trend trend_labels.
Proof.
  unfold AnomalyDetector.detect_trend.
  destruct (AnomalyDetector.data_history d !! metric_name) as [history|];
    [|intros [= <-]; left; reflexivity].
  destruct (_ <? points)%Z; [intros [= <-]; left; reflexivity|].
  destruct (AnomalyDetector.slope _) as [s|e]; [|discriminate].
  intros [= <-]. right. apply classify_slope_label.
Qed.

Lemma evolves_append_send a :
  (forall l, log_step l (l ++ [a])) ->
  evolves (append_alert a ;; send_alert a)%M.
Proof. intros Hstep w. split; [|reflexivity]. apply rtc_once. apply Hstep. Qed.

Lemma evolves_detect_anomaly metric_name value category :
  In (metric_name, category) anomaly_checks ->
  evolves (detect_anomaly (metric_name, value, category)).
Proof.
  intros Hin. unfold detect_anomaly.
  apply evolves_bind; [apply evolves_same; reflexivity|]. intros _.
  apply evolves_bind; [apply evolves_get|]. intros w0.
  apply evolves_lift_bind. intros [[] z_score] _; [|apply evolves_ret].
  apply evolves_lift_bind. intros trend Htrend.
  apply evolves_bind; [apply evolves_datetime_now|]. intros now.
  apply evolves_append_send. intros l.
  apply (step_anomaly metric_name category value z_score trend now l Hin).
  exact (detect_trend_label _ _ _ _ Htrend).
Qed.

Lemma evolves_detect_anomalies system_metrics app_metrics :
  evolves (detect_anomalies system_metrics app_metrics).
Proof.
  apply evolves_for_each. intros [[metric_name value] category] Hin.
  apply evolves_detect_anomaly.
  unfold metrics_to_check in Hin. cbn [In] in Hin. unfold anomaly_checks. cbn [In].
  intuition congruence.
Qed.

Lemma evolves_generate_predictive_alerts : evolves generate_predictive_alerts.
Proof.
  unfold generate_predictive_alerts.
  apply evolves_bind; [apply evolves_get|]. intros w0.
  destruct (_ <? 10)%nat; [apply evolves_ret|].
  apply evolves_lift_bind. intros cpu_trend _.
  destruct (String.eqb cpu_trend "increasing"); [|apply evolves_ret].
  apply evolves_lift_bind. intros avg_cpu _.
  destruct (Qgtb avg_cpu 60); [|apply evolves_ret].
  apply evolves_bind; [apply evolves_datetime_now|]. intros now.
  apply evolves_append_send. intros l. apply step_predictive.
Qed.

Lemma evolves_analyze_metrics system_metrics app_metrics :
  evolves (analyze_metrics system_metrics app_metrics).
Proof.
  unfold analyze_metrics.
  apply evolves_bind; [apply evolves_get|]. intros w0.
  repeat (apply evolves_bind;
          [apply evolves_check_threshold_alert; unfold threshold_checks; cbn [In]; tauto|];
          intros _).
  apply evolves_bind.
  - destruct (anomaly_detection _); [apply evolves_detect_anomalies | apply evolves_ret].
  - intros _.
    destruct (enable_predictive_alerts _);
      [apply evolves_generate_predictive_alerts | apply evolves_ret].
Qed.

Lemma evolves_generate_recommendations : evolves generate_recommendations.
Proof.
  unfold generate_recommendations.
  apply evolves_bind; [apply evolves_get|]. intros w0. cbv zeta.
  apply evolves_bind.
  { destruct (system_metrics_history _); [apply evolves_ret|].
    repeat (apply evolves_lift_bind; intros ? _). apply evolves_ret. }
  intros from_system. apply evolves_bind.
  { destruct (app_metrics_history _); [apply evolves_ret|].
    repeat (apply evolves_lift_bind; intros ? _). apply evolves_ret. }
  intros from_app.
  apply evolves_bind; [apply evolves_datetime_now|]. intros now.
  destruct (_ ++ _)%list; apply evolves_ret.
Qed.

Lemma evolves_generate_performance_report : evolves generate_performance_report.
Proof.
  unfold generate_performance_report.
  apply evolves_bind; [apply evolves_datetime_now|]. intros now.
  apply evolves_bind; [apply evolves_get|]. intros w0. cbv zeta.
  apply evolves_bind.
  { destruct (system_metrics_history _); [apply evolves_ret|].
    repeat (apply evolves_lift_bind; intros ? _). apply evolves_ret. }
  intros [[[avg_cpu avg_memory] max_cpu] max_memory]. apply evolves_bind.
  { destruct (app_metrics_history _); [apply evolves_ret|].
    repeat (apply evolves_lift_bind; intros ? _). apply evolves_ret. }
  intros [avg_response_time avg_error_rate].
  apply evolves_bind; [apply evolves_generate_recommendations|]. intros recommendations.
  apply evolves_ret.
Qed.

(** *** Consistency of the log with the alert file *)

Lemma keeps_evolves {A} (m : M A) : evolves m -> keeps m.
Proof.
  intros Hm w [Hlog Hfile]. destruct (Hm w) as [Hsteps Hsame].
  split; [etrans; eassumption | rewrite Hsame; exact Hfile].
Qed.

Lemma keeps_bind {A B} (m : M A) (k : A -> M B) :
  keeps m -> (forall a, keeps (k a)) -> keeps (bind m k).
Proof.
  intros Hm Hk w Hw. unfold bind. specialize (Hm w Hw).
  destruct (m w) as [[a|e] w1]; cbn [snd] in *; [apply Hk; exact Hm | exact Hm].
Qed.

Lemma keeps_try_except (body : M unit) (handler : exn -> M unit) :
  keeps body -> (forall e, keeps (handler e)) -> keeps (try_except body handler).
Proof.
  intros Hb Hh w Hw. unfold try_except. specialize (Hb w Hw).
  destruct (body w) as [[[]|e] w1]; cbn [snd] in *; [exact Hb | apply Hh; exact Hb].
Qed.

(** The value of each field the reload reads back from a saved alert. *)
Lemma alert_of_dict_retimed (a a' : Alert.t) :
  alert_of_dict (alert_to_dict a) = Ok a' -> retimed a a'.
Proof.
  unfold alert_of_dict, getitem.
  rewrite alert_to_dict_timestamp, alert_to_dict_severity, alert_to_dict_category,
    alert_to_dict_message, alert_to_dict_value, alert_to_dict_threshold,
    alert_to_dict_duration_minutes, alert_to_dict_resolved,
    alert_to_dict_resolution_time.
  cbn [result_bind as_str as_float as_int as_bool from_option id].
  destruct (fromisoformat (isoformat (Alert.timestamp a))) as [ts|e];
    cbn [result_bind]; [|discriminate].
  destruct (Alert.resolution_time a) as [rt|]; cbn [truthy result_bind as_str].
  - destruct (negb _); cbn [result_bind].
    + destruct (fromisoformat (isoformat rt)) as [rt'|e]; cbn [result_bind];
        [|discriminate].
      intros [= <-]. repeat split.
    + intros [= <-]. repeat split.
  - intros [= <-]. repeat split.
Qed.

Lemma alerts_of_data_retimed (l l' : list Alert.t) :
  alerts_of_data (map alert_to_dict l) = Ok l' -> Forall2 retimed l l'.
Proof.
  revert l'. induction l as [|a l IH]; intros l'; cbn [map alerts_of_data].
  - intros [= <-]. constructor.
  - destruct (alert_of_dict (alert_to_dict a)) as [a'|e] eqn:Ea; cbn [result_bind];
      [|discriminate].
    destruct (alerts_of_data (map alert_to_dict l)) as [l0|e]; cbn [result_bind];
      [|discriminate].
    intros [= <-]. constructor; [exact (alert_of_dict_retimed _ _ Ea) | apply IH; reflexivity].
Qed.

Lemma keeps_save_alert_history : keeps save_alert_history.
Proof.
  intros w [Hlog Hfile]. unfold save_alert_history, try_except. mstep.
  unfold write_alert_file.
  destruct (next_write w); [destruct (forallb _ _)|..];
    cbn [snd fst self alert_file logger modify]; split; try exact Hlog; try exact I;
    try exact Hfile.
  intros l Hl. eapply rtc_r; [exact Hlog|].
  apply step_reload, alerts_of_data_retimed, Hl.
Qed.

Lemma keeps_monitoring_cycle system_metrics app_metrics :
  keeps (monitoring_cycle system_metrics app_metrics).
Proof.
  unfold monitoring_cycle.
  apply keeps_try_except; [|intros e; apply keeps_evolves, evolves_logger].
  apply keeps_bind; [apply keeps_evolves, evolves_get|]. intros w0.
  apply keeps_bind; [apply keeps_evolves, evolves_same; reflexivity|]. intros _.
  apply keeps_bind; [apply keeps_evolves, evolves_same; reflexivity|]. intros _.
  apply keeps_bind; [apply keeps_evolves, evolves_analyze_metrics|]. intros _.
  apply keeps_bind; [apply keeps_evolves, evolves_get|]. intros w1.
  apply keeps_bind; [|intros _; apply keeps_evolves, evolves_logger].
  destruct (_ =? 0)%Z;
    [apply keeps_save_alert_history | apply keeps_evolves, evolves_ret].
Qed.

Lemma keeps_stop_monitoring : keeps stop_monitoring.
Proof.
  unfold stop_monitoring.
  apply keeps_bind; [apply keeps_evolves, evolves_same; reflexivity|]. intros _.
  apply keeps_bind; [apply keeps_save_alert_history|]. intros _.
  apply keeps_bind; [apply keeps_evolves, evolves_generate_performance_report|].
  intros report.
  apply keeps_bind; [apply keeps_evolves, evolves_logger|]. intros _.
  apply keeps_evolves, evolves_logger.
Qed.

Lemma consistent_with_next_write o w : consistent w -> consistent (with_next_write o w).
Proof. intros Hw. exact Hw. Qed.

(** A monitor started on a file the engine wrote holds a log the engine
    can have built. *)
Lemma consistent_start cfg clk file : file_ok file -> consistent (start cfg clk file).
Proof.
  intros Hfile. unfold start, exec, load_alert_history. mstep. cbn [alert_file].
  destruct file as [[|data]|]; unfold try_except; cbn [json_load]; mstep;
    try (split; [apply rtc_refl | exact Hfile]).
  destruct (alerts_of_data data) as [l|e] eqn:Hl; mstep;
    [|split; [apply rtc_refl | exact Hfile]].
  split; [exact (Hfile l Hl) | exact Hfile].
Qed.

Lemma reachable_consistent (w : World) : reachable w -> consistent w.
Proof.
  induction 1 as [cfg clk | w o system_metrics app_metrics _ IH
                 | w o _ IH | w cfg clk _ IH].
  - apply consistent_start. exact I.
  - apply keeps_monitoring_cycle, consistent_with_next_write, IH.
  - apply keeps_stop_monitoring, consistent_with_next_write, IH.
  - apply consistent_start, IH.
Qed.

(** The log of a reachable state comes from the empty log by life-cycle
    steps. *)
Lemma reachable_log (w : World) :
  reachable w -> rtc log_step [] (alert_history (self w)).
Proof. intros Hw. apply (reachable_consistent w Hw). Qed.

End Lifecycle.

(** ** Deduplication of threshold alerts *)

Lemma filter_snoc_length {A} (f : A -> bool) (l : list A) (a : A) :
  length (List.filter f (l ++ [a]))
  = (length (List.filter f l) + (if f a then 1 else 0))%nat.
Proof.
  rewrite List.filter_app, length_app. cbn [List.filter].
  destruct (f a); reflexivity.
Qed.

Lemma resolve_inactive now a metric_name category :
  is_active_for metric_name category (Alert.resolve now a) = false.
Proof. reflexivity. Qed.

Lemma retimed_filter_length m c (l l' : list Alert.t) :
  Forall2 retimed l l' ->
  length (List.filter (is_active_for m c) l)
  = length (List.filter (is_active_for m c) l').
Proof.
  induction 1 as [|a a' l l' Ha _ IH]; [reflexivity|].
  cbn [List.filter]. destruct Ha as (_ & Hcat & Hmsg & _ & _ & _ & Hres).
  assert (Heq : is_active_for m c a' = is_active_for m c a)
    by (unfold is_active_for; rewrite Hcat, Hmsg, Hres; reflexivity).
  rewrite Heq. destruct (is_active_for m c a); cbn [length]; rewrite IH; reflexivity.
Qed.

Lemma resolution_filter_length metric_name category m c (l l' : list Alert.t) :
  Forall2 (resolution metric_name category) l l' ->
  (length (List.filter (is_active_for m c) l')
   <= length (List.filter (is_active_for m c) l))%nat.
Proof.
  induction 1 as [|a a' l l' Ha _ IH]; [reflexivity|].
  cbn [List.filter]. unfold resolution in Ha.
  destruct (is_active_for metric_name category a).
  - destruct Ha as [now ->]. rewrite resolve_inactive.
    destruct (is_active_for m c a); cbn [length]; lia.
  - subst a'. destruct (is_active_for m c a); cbn [length]; lia.
Qed.

Section Dedup.
Context `{Runtime}.
Hypothesis Hfmt : lowercase_formatting.

Lemma no_upper_format_2f q : no_upper (format_2f q) = true.
Proof. apply Hfmt. Qed.

Lemma no_upper_str q : no_upper (str q) = true.
Proof. apply Hfmt. Qed.

Lemma threshold_message_tail_lower value threshold :
  no_upper (" is " ++ format_2f value ++ "% (threshold: " ++ str threshold ++ "%)")
  = true.
Proof.
  rewrite !no_upper_app, no_upper_format_2f, no_upper_str. reflexivity.
Qed.

(** The message of a threshold alert names no other checked metric. *)
Lemma threshold_message_other m c m' c' value threshold :
  In (m, c) threshold_checks -> In (m', c') threshold_checks ->
  str_in m' (threshold_message m value threshold) = true -> (m', c') = (m, c).
Proof.
  intros Hin Hin' Hmatch. unfold threshold_checks in *. cbn [In] in *.
  pose proof (threshold_message_tail_lower value threshold) as Htail.
  unfold threshold_message in Hmatch.
  destruct Hin as [[= <- <-]|[[= <- <-]|[[= <- <-]|[[= <- <-]|[[= <- <-]|[]]]]]];
  destruct Hin' as [[= <- <-]|[[= <- <-]|[[= <- <-]|[[= <- <-]|[[= <- <-]|[]]]]]];
    try reflexivity;
    (rewrite str_in_skip in Hmatch by reflexivity;
     rewrite str_in_no_upper in Hmatch by (first [reflexivity | exact Htail]);
     discriminate).
Qed.

Lemma anomaly_check_lower metric_name category :
  In (metric_name, category) anomaly_checks -> no_upper metric_name = true.
Proof.
  unfold anomaly_checks. cbn [In].
  intros [[= <- <-]|[[= <- <-]|[[= <- <-]|[[= <- <-]|[]]]]]; reflexivity.
Qed.

Lemma trend_label_lower trend : In trend trend_labels -> no_upper trend = true.
Proof.
  unfold trend_labels. cbn [In].
  intros [<-|[<-|[<-|[<-|[]]]]]; reflexivity.
Qed.

Lemma threshold_check_upper m c :
  In (m, c) threshold_checks ->
  starts_upper m = true /\ no_overlap m "A" = true.
Proof.
  unfold threshold_checks. cbn [In].
  intros [[= <- <-]|[[= <- <-]|[[= <- <-]|[[= <- <-]|[[= <- <-]|[]]]]]];
    split; reflexivity.
Qed.

Lemma threshold_check_category m c :
  In (m, c) threshold_checks -> String.eqb "predictive" c = false.
Proof.
  unfold threshold_checks. cbn [In].
  intros [[= <- <-]|[[= <- <-]|[[= <- <-]|[[= <- <-]|[[= <- <-]|[]]]]]];
    reflexivity.
Qed.

(** The message of an anomaly alert names no metric checked against a
    threshold. *)
Lemma anomaly_message_other m c metric_name category value z_score trend :
  In (m, c) threshold_checks -> In (metric_name, category) anomaly_checks ->
  In trend trend_labels ->
  str_in m (anomaly_message metric_name value z_score trend) = false.
Proof.
  intros Hin Hn Ht. destruct (threshold_check_upper m c Hin) as [Hup Hov].
  unfold anomaly_message.
  change ("Anomaly detected in " ++ metric_name ++ ": " ++ format_2f value
          ++ " (z-score: " ++ format_2f z_score ++ ", trend: " ++ trend ++ ")")%string
    with ("A" ++ ("nomaly detected in " ++ metric_name ++ ": " ++ format_2f value
          ++ " (z-score: " ++ format_2f z_score ++ ", trend: " ++ trend ++ ")"))%string.
  rewrite str_in_skip by exact Hov.
  apply str_in_no_upper; [exact Hup|].
  rewrite !no_upper_app, !no_upper_format_2f,
    (anomaly_check_lower _ _ Hn), (trend_label_lower _ Ht).
  reflexivity.
Qed.

Lemma anomaly_alert_inactive m c metric_name category value z_score trend now :
  In (m, c) threshold_checks -> In (metric_name, category) anomaly_checks ->
  In trend trend_labels ->
  is_active_for m c (anomaly_alert metric_name value z_score category trend now) = false.
Proof.
  intros Hin Hn Ht. unfold is_active_for. cbn [anomaly_alert Alert.message].
  rewrite (anomaly_message_other _ _ _ _ _ _ _ Hin Hn Ht). apply andb_false_r.
Qed.

Lemma predictive_alert_inactive m c avg_cpu cpu_trend now :
  In (m, c) threshold_checks ->
  is_active_for m c (predictive_alert avg_cpu cpu_trend now) = false.
Proof.
  intros Hin. unfold is_active_for. cbn [predictive_alert Alert.category Alert.resolved].
  rewrite (threshold_check_category _ _ Hin). reflexivity.
Qed.

Lemma threshold_alert_active_inv m c m' c' value threshold now :
  In (m, c) threshold_checks -> In (m', c') threshold_checks ->
  is_active_for m' c' (threshold_alert m value threshold c now) = true ->
  (m', c') = (m, c).
Proof.
  intros Hin Hin'. unfold is_active_for. cbn [threshold_alert Alert.message].
  rewrite !andb_true_iff. intros [_ Hmatch].
  exact (threshold_message_other _ _ _ _ _ _ Hin Hin' Hmatch).
Qed.

(** Every life-cycle step keeps the threshold alerts deduplicated. *)
Lemma log_step_deduplicated (l l' : list Alert.t) :
  log_step l l' -> deduplicated l -> deduplicated l'.
Proof.
  intros Hstep Hd m c Hin. specialize (Hd m c Hin).
  destruct Hstep as [m0 c0 value threshold now l Hin0 Hnone
                    | m0 c0 l l' Hin0 Hall
                    | n0 c0 value z_score trend now l Hn Ht
                    | avg_cpu cpu_trend now l
                    | l l' Hall].
  - rewrite filter_snoc_length.
    destruct (is_active_for m c (threshold_alert m0 value threshold c0 now)) eqn:Hact;
      [|lia].
    apply (threshold_alert_active_inv _ _ _ _ _ _ _ Hin0 Hin) in Hact.
    injection Hact as -> ->. rewrite Hnone. cbn [length]. lia.
  - pose proof (resolution_filter_length m0 c0 m c l l' Hall). lia.
  - rewrite filter_snoc_length, anomaly_alert_inactive by assumption. lia.
  - rewrite filter_snoc_length, predictive_alert_inactive by assumption. lia.
  - rewrite <- (retimed_filter_length m c l l') by assumption. exact Hd.
Qed.

Lemma rtc_log_step_deduplicated (l l' : list Alert.t) :
  rtc log_step l l' -> deduplicated l -> deduplicated l'.
Proof. induction 1; eauto using log_step_deduplicated. Qed.

End Dedup.

(** C1, as amended (threshold alerts): in every reachable state of the
    engine (after any cycles, shutdowns and restarts on the saved file), for
    each (display name, category) pair that [analyze_metrics] checks against
    a threshold, at most one unresolved alert of that category carries the
    display name in its message, whatever breach, recovery, anomaly and
    predictive evaluations the cycles interleaved.  (The number formatting
    of the runtime is assumed to write no upper-case letters.) *)
Theorem threshold_alerts_deduplicated `{Runtime} (w : World)
    (metric_name category : string) :
  lowercase_formatting ->
  reachable w ->
  In (metric_name, category) threshold_checks ->
  (length (List.filter (is_active_for metric_name category)
             (alert_history (self w))) <= 1)%nat.
Proof.
  intros Hfmt Hreach Hin.
  apply (rtc_log_step_deduplicated Hfmt [] _ (reachable_log w Hreach)); [|exact Hin].
  intros m c _. cbn. lia.
Qed.

Lemma reachable_run_cycles `{Runtime} samples w :
  reachable w -> reachable (run_cycles samples w).
Proof.
  revert w. induction samples as [|s samples IH]; intros w Hw; [exact Hw|].
  cbn [run_cycles fold_left]. apply IH. apply reachable_cycle. exact Hw.
Qed.

Lemma reachable_cpu_run cpus : reachable (H := Reference.runtime) (cpu_run cpus).
Proof. apply reachable_run_cycles, reachable_start. Qed.

(** C1 as stated fails: two anomalies of the CPU load in consecutive cycles
    leave two unresolved alerts for (system, cpu_percent). *)
Lemma anomaly_alerts_not_deduplicated :
  reachable (H := Reference.runtime) second_anomaly_world /\
  length (List.filter (is_active_for "cpu_percent" "system")
            (alert_history (self second_anomaly_world))) = 2%nat /\
  map Alert.message (alert_history (self second_anomaly_world))
  = [ "Anomaly detected in cpu_percent: 11.00 (z-score: 2.85, trend: stable)";
      "Anomaly detected in cpu_percent: 20.00 (z-score: 3.00, trend: increasing)" ]%string.
Proof.
  split; [apply reachable_cpu_run|]. split; vm_compute; reflexivity.
Qed.

Lemma threshold_alerts_deduplicated_witness :
  length (List.filter (is_active_for "CPU Usage" "system")
            (alert_history (self breach_world))) = 1%nat.
Proof.
  pose proof (threshold_alerts_deduplicated (H := Reference.runtime) breach_world
                "CPU Usage" "system" reference_lowercase
                (reachable_cpu_run [90; 95; 100])
                ltac:(left; reflexivity)) as Hle.
  assert (Hge : (1 <= length (List.filter (is_active_for "CPU Usage" "system")
                            (alert_history (self breach_world))))%nat)
    by (vm_compute; lia).
  lia.
Defined.

(** ** Anomaly and predictive alerts are never resolved *)

Lemma Forall2_In_right {A B} (R : A -> B -> Prop) (l : list A) (l' : list B) (b : B) :
  Forall2 R l l' -> In b l' -> exists a, In a l /\ R a b.
Proof.
  induction 1 as [|x y l l' Hxy _ IH]; intros Hin; [destruct Hin|].
  destruct Hin as [<-|Hin].
  - exists x. split; [left; reflexivity | exact Hxy].
  - destruct (IH Hin) as (a & Ha & HR). exists a. split; [right; exact Ha | exact HR].
Qed.

Section Statistical.
Context `{Runtime}.
Hypothesis Hfmt : lowercase_formatting.

Lemma anomaly_made_inactive m c a :
  In (m, c) threshold_checks -> anomaly_made a -> is_active_for m c a = false.
Proof.
  intros Hin (n & c0 & v & z & trend & Hn & Ht & _ & Hmsg).
  unfold is_active_for. rewrite Hmsg.
  rewrite (anomaly_message_other Hfmt _ _ _ _ _ _ _ Hin Hn Ht). apply andb_false_r.
Qed.

Lemma predictive_made_inactive m c a :
  In (m, c) threshold_checks -> predictive_made a -> is_active_for m c a = false.
Proof.
  intros Hin Hcat. unfold is_active_for. rewrite Hcat.
  rewrite (threshold_check_category _ _ Hin), andb_false_r. reflexivity.
Qed.

Lemma log_step_statistical_open (l l' : list Alert.t) :
  log_step l l' -> statistical_open l -> statistical_open l'.
Proof.
  intros Hstep Hopen a Hin Hmade.
  destruct Hstep as [m0 c0 value threshold now l Hin0 Hnone
                    | m0 c0 l l' Hin0 Hall
                    | n0 c0 value z_score trend now l Hn Ht
                    | avg_cpu cpu_trend now l
                    | l l' Hall].
  - apply in_app_or in Hin as [Hin|[<-|[]]]; [apply Hopen; assumption | reflexivity].
  - destruct (Forall2_In_right _ _ _ _ Hall Hin) as (a0 & Hin_a0 & Hres).
    unfold resolution in Hres.
    destruct (is_active_for m0 c0 a0) eqn:Hact.
    + destruct Hres as [now ->]. exfalso.
      assert (Hmade0 : anomaly_made a0 \/ predictive_made a0).
      { destruct Hmade as [(n & c & v & z & trend & Hn & Ht & Hcat & Hmsg)|Hcat].
        - left. exists n, c, v, z, trend. auto.
        - right. exact Hcat. }
      destruct Hmade0 as [Ha|Hp].
      * rewrite (anomaly_made_inactive _ _ _ Hin0 Ha) in Hact. discriminate.
      * rewrite (predictive_made_inactive _ _ _ Hin0 Hp) in Hact. discriminate.
    + subst a. apply Hopen; assumption.
  - apply in_app_or in Hin as [Hin|[<-|[]]]; [apply Hopen; assumption | reflexivity].
  - apply in_app_or in Hin as [Hin|[<-|[]]]; [apply Hopen; assumption | reflexivity].
  - destruct (Forall2_In_right _ _ _ _ Hall Hin) as (a0 & Hin_a0 & Hre).
    destruct Hre as (_ & Hcat & Hmsg & _ & _ & _ & Hres).
    rewrite Hres. apply Hopen; [exact Hin_a0|].
    destruct Hmade as [(n & c & v & z & trend & Hn & Ht & Hc & Hm)|Hp].
    + left. exists n, c, v, z, trend. repeat split; congruence.
    + right. unfold predictive_made in *. congruence.
Qed.

Lemma rtc_log_step_statistical_open (l l' : list Alert.t) :
  rtc log_step l l' -> statistical_open l -> statistical_open l'.
Proof. induction 1; eauto using log_step_statistical_open. Qed.

End Statistical.

Section Creation.
Context `{Runtime}.

Lemma detect_anomaly_appends metric_name value category w :
  In (metric_name, category) anomaly_checks ->
  appends (detect_anomaly (metric_name, value, category)) w
    (fun a => anomaly_made a /\ Alert.category a = category /\
              Alert.resolved a = false).
Proof.
  intros Hin. unfold appends, exec, detect_anomaly. mstep.
  set (w1 := with_self _ w).
  destruct (AnomalyDetector.is_anomaly (anomaly_detector (self w1)) metric_name value)
    as [[[] z_score]|e]; mstep; [|left; reflexivity..].
  destruct (AnomalyDetector.detect_trend (anomaly_detector (self w1)) metric_name 10)
    as [trend|e] eqn:Htrend; mstep; [|left; reflexivity].
  right. eexists. split; [reflexivity|].
  split; [|split; reflexivity].
  exists metric_name, category, value, z_score, trend.
  repeat split; [exact Hin | exact (detect_trend_label _ _ _ _ Htrend)].
Qed.

Lemma generate_predictive_alerts_appends w :
  appends generate_predictive_alerts w
    (fun a => predictive_made a /\ Alert.resolved a = false).
Proof.
  unfold appends, exec, generate_predictive_alerts. mstep.
  destruct (_ <? 10)%nat; [left; reflexivity|].
  destruct (AnomalyDetector.detect_trend _ _ _) as [cpu_trend|e]; mstep;
    [|left; reflexivity].
  destruct (String.eqb cpu_trend "increasing"); [|left; reflexivity].
  destruct (mean _) as [avg_cpu|e]; mstep; [|left; reflexivity].
  destruct (Qgtb avg_cpu 60); [|left; reflexivity].
  mstep. right. eexists. split; [reflexivity|]. split; reflexivity.
Qed.

End Creation.

(** C6, as amended: an alert of the anomaly path is created under the
    category of the metric it checks ("system" or "application"), an alert
    of the predictive path under "predictive"; both are created unresolved,
    and in every reachable state of the engine (after any cycles, shutdowns
    and restarts on the saved file) every such alert of the log is still
    unresolved.  (The number formatting of the runtime is assumed to write
    no upper-case letters.) *)
Theorem statistical_alerts_stay_open `{Runtime} :
  lowercase_formatting ->
  (forall metric_name value category w,
     In (metric_name, category) anomaly_checks ->
     appends (detect_anomaly (metric_name, value, category)) w
       (fun a => anomaly_made a /\ Alert.category a = category /\
                 Alert.resolved a = false)) /\
  (forall w,
     appends generate_predictive_alerts w
       (fun a => predictive_made a /\ Alert.resolved a = false)) /\
  (forall w a,
     reachable w -> In a (alert_history (self w)) ->
     anomaly_made a \/ predictive_made a ->
     Alert.resolved a = false).
Proof.
  intros Hfmt. split; [|split].
  - intros. apply detect_anomaly_appends. assumption.
  - apply generate_predictive_alerts_appends.
  - intros w a Hreach.
    apply (rtc_log_step_statistical_open Hfmt [] _ (reachable_log w Hreach)).
    intros ? [].
Qed.

(** C6 as stated fails: the alert the anomaly path raised for the CPU load
    carries the category "system", not "anomaly". *)
Lemma anomaly_alert_category_is_system :
  reachable (H := Reference.runtime) first_anomaly_world /\
  map (fun a => (Alert.category a, Alert.message a))
      (alert_history (self first_anomaly_world))
  = [ ("system",
       "Anomaly detected in cpu_percent: 11.00 (z-score: 2.85, trend: stable)") ]%string.
Proof. split; [apply reachable_cpu_run | vm_compute; reflexivity]. Qed.

Lemma statistical_alerts_stay_open_witness :
  map (fun a => (Alert.message a, Alert.resolved a))
      (alert_history (self recovery_world))
  = [ ("Anomaly detected in cpu_percent: 11.00 (z-score: 2.85, trend: stable)", false);
      ("CPU Usage is 90.00% (threshold: 80.0%)", true);
      ("Anomaly detected in cpu_percent: 90.00 (z-score: 3.01, trend: increasing)", false)
    ]%string /\
  Alert.resolved (nth 0 (alert_history (self recovery_world)) sample_open_alert) = false.
Proof.
  split; [vm_compute; reflexivity|].
  destruct (statistical_alerts_stay_open (H := Reference.runtime) reference_lowercase)
    as (_ & _ & Hopen).
  apply (Hopen recovery_world); [apply reachable_cpu_run | vm_compute; auto |].
  left. exists "cpu_percent"%string, "system"%string, 11, (9000000000000 # 3162277660160),
    "stable"%string.
  repeat split; try (vm_compute; tauto).
Defined.


(** * Further properties of the code *)

(** ** The rolling window of [AnomalyDetector] *)

Lemma slice_from_short {A} (k : Z) (l : list A) :
  (0 < k)%Z -> (Z.of_nat (length l) <= k)%Z -> slice_from (- k) l = l.
Proof.
  intros Hk Hl. unfold slice_from.
  destruct (Z.ltb_spec (- k) 0) as [_|]; [|lia].
  replace (Z.to_nat _) with 0%nat by lia. reflexivity.
Qed.

(** X1: with a window of at least one value, [add_data_point] leaves under
    the metric the last [window_size] values of the old history followed by
    the new value, so never more than [window_size] of them and the new
    value last; the other metrics and the settings are untouched. *)
Theorem add_data_point_window (d : AnomalyDetector.t) (metric_name : string)
    (value : Q) :
  (1 <= AnomalyDetector.window_size d)%Z ->
  let d' := AnomalyDetector.add_data_point metric_name value d in
  let old := default [] (AnomalyDetector.data_history d !! metric_name) in
  exists history,
    AnomalyDetector.data_history d' !! metric_name = Some history /\
    history = slice_from (- AnomalyDetector.window_size d) (old ++ [value]) /\
    (exists dropped, old ++ [value] = dropped ++ history) /\
    (Z.of_nat (length history) <= AnomalyDetector.window_size d)%Z /\
    last history = Some value /\
    (forall other, other <> metric_name ->
       AnomalyDetector.data_history d' !! other
       = AnomalyDetector.data_history d !! other) /\
    AnomalyDetector.window_size d' = AnomalyDetector.window_size d /\
    AnomalyDetector.threshold d' = AnomalyDetector.threshold d.
Proof.
  intros Hw d' old. subst d'. unfold AnomalyDetector.add_data_point. fold old.
  cbn [AnomalyDetector.data_history AnomalyDetector.window_size AnomalyDetector.threshold].
  set (h1 := old ++ [value]).
  assert (Hlen1 : length h1 = S (length old)) by (subst h1; rewrite length_app; simpl; lia).
  eexists. split; [apply lookup_insert_eq|].
  destruct (Z.ltb_spec (AnomalyDetector.window_size d) (Z.of_nat (length h1))) as [Hlt|Hge].
  - split; [reflexivity|].
    rewrite slice_from_last by lia.
    split; [eexists; symmetry; apply take_drop|].
    split; [rewrite length_drop; lia|].
    split.
    + subst h1. rewrite drop_app_le by lia. apply last_snoc.
    + split; [|split; reflexivity]. intros other Hne. apply lookup_insert_ne. congruence.
  - split; [symmetry; apply slice_from_short; lia|].
    split; [exists []; reflexivity|].
    split; [lia|].
    split; [subst h1; apply last_snoc|].
    split; [|split; reflexivity]. intros other Hne. apply lookup_insert_ne. congruence.
Qed.

(** X2: with a window of 0 the slice [history[-0:]] is the whole list, so
    nothing is ever dropped and the history grows by one value per call. *)
Theorem add_data_point_window_zero (d : AnomalyDetector.t) (metric_name : string)
    (value : Q) :
  AnomalyDetector.window_size d = 0%Z ->
  AnomalyDetector.data_history (AnomalyDetector.add_data_point metric_name value d)
    !! metric_name
  = Some (default [] (AnomalyDetector.data_history d !! metric_name) ++ [value]).
Proof.
  intros Hw. unfold AnomalyDetector.add_data_point.
  cbn [AnomalyDetector.data_history]. rewrite lookup_insert_eq, Hw. f_equal.
  destruct (_ <? _)%Z; [|reflexivity].
  unfold slice_from. change (- 0 <? 0)%Z with false. cbv iota.
  replace (Z.to_nat _) with 0%nat by lia. reflexivity.
Qed.

Lemma add_data_point_window_witness :
  AnomalyDetector.data_history
    (AnomalyDetector.add_data_point "cpu_percent" 4 (small_window_detector 3))
    !! "cpu_percent"%string
  = Some [2; 3; 4].
Proof.
  destruct (add_data_point_window (small_window_detector 3) "cpu_percent" 4)
    as (history & Hlookup & -> & _); [simpl; lia|].
  rewrite Hlookup. reflexivity.
Defined.

Lemma add_data_point_window_zero_witness :
  AnomalyDetector.data_history
    (AnomalyDetector.add_data_point "cpu_percent" 4 (small_window_detector 0))
    !! "cpu_percent"%string
  = Some [1; 2; 3; 4].
Proof.
  exact (add_data_point_window_zero (small_window_detector 0) "cpu_percent" 4 eq_refl).
Defined.

(** ** The regression of [detect_trend] *)

Lemma classify_slope_proper (s s' : Q) :
  s == s' -> AnomalyDetector.classify_slope s = AnomalyDetector.classify_slope s'.
Proof.
  intros Hs. unfold AnomalyDetector.classify_slope, Qgtb, Qltb.
  assert (H1 : Qle_bool s (1 # 10) = Qle_bool s' (1 # 10)) by (rewrite Hs; reflexivity).
  assert (H2 : Qle_bool (- (1 # 10)) s = Qle_bool (- (1 # 10)) s') by (rewrite Hs; reflexivity).
  rewrite H1, H2. reflexivity.
Qed.

Lemma sum_snoc (l : list Q) (x : Q) : sum (l ++ [x]) == sum l + x.
Proof. unfold sum. rewrite fold_left_app. reflexivity. Qed.







Lemma slope_denominator_nonzero (n : nat) :
  (2 <= n)%nat -> ~ inject_Z (AnomalyDetector.slope_denominator n) == 0.
Proof.
  intros Hn. pose proof (slope_denominator_pos n Hn).
  unfold Qeq. simpl. lia.
Qed.




Lemma slice_from_map {A B} (f : A -> B) (start : Z) (l : list A) :
  slice_from start (map f l) = map f (slice_from start l).
Proof. unfold slice_from. rewrite length_map. apply skipn_map. Qed.

Section Affine.
Variables (f : Q -> Q) (k c : Q).
Hypothesis f_affine : forall y, f y == k * y + c.

Lemma sum_xy_affine_from (start : Z) (l : list Q) :
  sum (zip_with (fun xi yi => inject_Z xi * yi)
         (seqZ start (Z.of_nat (length l))) (map f l))
  == k * sum (zip_with (fun xi yi => inject_Z xi * yi)
                (seqZ start (Z.of_nat (length l))) l)
     + c * inject_Z (sumZ (seqZ start (Z.of_nat (length l)))).
Proof.
  revert start. induction l as [|y l IH]; intros start.
  - change (0 == k * 0 + c * inject_Z 0). ring.
  - cbn [length]. rewrite seqZ_cons by lia.
    replace (Z.pred (Z.of_nat (S (length l)))) with (Z.of_nat (length l)) by lia.
    cbn [map zip_with].
    rewrite !sum_cons, sumZ_cons, IH, inject_Z_plus, f_affine. ring.
Qed.

Lemma sum_affine (l : list Q) :
  sum (map f l) == k * sum l + inject_Z (Z.of_nat (length l)) * c.
Proof.
  induction l as [|y l IH]; [change (0 == k * 0 + inject_Z 0 * c); ring|].
  cbn [map length]. rewrite !sum_cons, IH, Nat2Z.inj_succ, f_affine.
  unfold Z.succ. rewrite inject_Z_plus. ring.
Qed.

Lemma slope_numerator_affine (l : list Q) :
  AnomalyDetector.slope_numerator (map f l)
  == k * AnomalyDetector.slope_numerator l.
Proof.
  unfold AnomalyDetector.slope_numerator, AnomalyDetector.sum_xy,
    AnomalyDetector.sum_x, range.
  rewrite length_map, sum_xy_affine_from, sum_affine. ring.
Qed.

(** The regression is linear in the data: rescaling every value by [k] and
    moving it by [c] rescales the slope by [k]. *)
Lemma slope_affine (l : list Q) :
  (2 <= length l)%nat ->
  exists s s',
    AnomalyDetector.slope l = Ok s /\
    AnomalyDetector.slope (map f l) = Ok s' /\
    s' == k * s.
Proof.
  intros Hn. rewrite !slope_defined by (rewrite ?length_map; lia).
  do 2 eexists. split; [reflexivity|]. split; [reflexivity|].
  rewrite length_map, slope_numerator_affine.
  pose proof (slope_denominator_nonzero _ Hn). field. assumption.
Qed.

Lemma detect_trend_affine (d d' : AnomalyDetector.t) (metric_name : string)
    (points : Z) (history : list Q) :
  (2 <= points)%Z ->
  AnomalyDetector.data_history d !! metric_name = Some history ->
  AnomalyDetector.data_history d' !! metric_name = Some (map f history) ->
  (Z.of_nat (length history) < points)%Z /\
  AnomalyDetector.detect_trend d metric_name points = Ok "insufficient_data"%string /\
  AnomalyDetector.detect_trend d' metric_name points = Ok "insufficient_data"%string
  \/
  exists s,
    AnomalyDetector.detect_trend d metric_name points
    = Ok (AnomalyDetector.classify_slope s) /\
    AnomalyDetector.detect_trend d' metric_name points
    = Ok (AnomalyDetector.classify_slope (k * s)).
Proof.
  intros Hp Hh Hh'.
  destruct (Z.ltb_spec (Z.of_nat (length history)) points) as [Hlt|Hge].
  - left. split; [exact Hlt|].
    unfold AnomalyDetector.detect_trend. rewrite Hh, Hh', length_map.
    destruct (Z.ltb_spec (Z.of_nat (length history)) points); [|lia]. done.
  - right.
    rewrite (detect_trend_enough _ _ _ _ Hh) by lia.
    rewrite (detect_trend_enough _ _ _ _ Hh') by (rewrite length_map; lia).
    rewrite slice_from_map.
    destruct (slope_affine (slice_from (- points) history))
      as (s & s' & -> & -> & Hs).
    { rewrite slice_from_last_length by lia. lia. }
    exists s. cbn [result_bind]. split; [reflexivity|].
    f_equal. exact (classify_slope_proper _ _ Hs).
Qed.

End Affine.



(** X5: the regression is antisymmetric: on the negated history "increasing"
    and "decreasing" change places and every other answer stays. *)
Theorem detect_trend_mirror (d d' : AnomalyDetector.t)
    (metric_name : string) (points : Z) (history : list Q) :
  (2 <= points)%Z ->
  AnomalyDetector.data_history d !! metric_name = Some history ->
  AnomalyDetector.data_history d' !! metric_name = Some (map Qopp history) ->
  exists label,
    AnomalyDetector.detect_trend d metric_name points = Ok label /\
    AnomalyDetector.detect_trend d' metric_name points = Ok (opposite_trend label).
Proof.
  intros Hp Hh Hh'.
  assert (Hf : forall y, - y == - (1) * y + 0) by (intros; ring).
  destruct (detect_trend_affine Qopp (- (1)) 0 Hf
              d d' metric_name points history Hp Hh Hh')
    as [(_ & -> & ->)|(s & -> & ->)]; [eexists; split; reflexivity|].
  eexists. split; [reflexivity|]. f_equal.
  unfold AnomalyDetector.classify_slope.
  destruct (Qgtb s (1 # 10)) eqn:E1; [apply Qgtb_true in E1 | apply Qgtb_false in E1];
  (destruct (Qltb s (- (1 # 10))) eqn:E2; [apply Qltb_true in E2 | apply Qltb_false in E2]);
  (destruct (Qgtb (- (1) * s) (1 # 10)) eqn:E3; [apply Qgtb_true in E3 | apply Qgtb_false in E3]);
  (destruct (Qltb (- (1) * s) (- (1 # 10))) eqn:E4; [apply Qltb_true in E4 | apply Qltb_false in E4]);
  try reflexivity; exfalso; lra.
Qed.

Lemma detect_trend_mirror_witness :
  AnomalyDetector.detect_trend
    {| AnomalyDetector.window_size := 50;
       AnomalyDetector.threshold := 25 # 10;
       AnomalyDetector.data_history :=
         <["cpu_percent"%string := map Qopp [3; 5]]> ∅ |}
    "cpu_percent" 2
  = Ok "decreasing"%string.
Proof.
  destruct (detect_trend_mirror two_point_detector
              {| AnomalyDetector.window_size := 50;
                 AnomalyDetector.threshold := 25 # 10;
                 AnomalyDetector.data_history :=
                   <["cpu_percent"%string := map Qopp [3; 5]]> ∅ |}
              "cpu_percent" 2 [3; 5])
    as (label & Hd & ->); [lia | reflexivity | reflexivity |].
  vm_compute in Hd. injection Hd as <-. reflexivity.
Defined.

(** ** Methods that return *)

Lemma returns_ret {A} (a : A) w (Q : A -> World -> Prop) :
  Q a w -> returns (ret a) w Q.
Proof. intros HQ. exists a, w. split; [reflexivity | exact HQ]. Qed.

Lemma returns_bind {A B} (m : M A) (k : A -> M B) w
    (Q1 : A -> World -> Prop) (Q : B -> World -> Prop) :
  returns m w Q1 ->
  (forall a w1, Q1 a w1 -> returns (k a) w1 Q) ->
  returns (bind m k) w Q.
Proof.
  intros (a & w1 & Hm & HQ1) Hk.
  destruct (Hk a w1 HQ1) as (b & w2 & Hk' & HQ).
  exists b, w2. split; [|exact HQ]. rewrite (bind_ok _ _ _ _ _ Hm). exact Hk'.
Qed.

Lemma returns_mono {A} (m : M A) w (Q Q' : A -> World -> Prop) :
  returns m w Q -> (forall a w', Q a w' -> Q' a w') -> returns m w Q'.
Proof. intros (a & w' & Hm & HQ) Himp. exists a, w'. split; [exact Hm | apply Himp, HQ]. Qed.

Lemma returns_get {B} (k : World -> M B) w (Q : B -> World -> Prop) :
  returns (k w) w Q -> returns (bind get k) w Q.
Proof. exact id. Qed.

Lemma returns_modify {B} f (k : unit -> M B) w (Q : B -> World -> Prop) :
  returns (k tt) (f w) Q -> returns (bind (modify f) k) w Q.
Proof. exact id. Qed.

Lemma returns_lift {A B} (r : result A) (a : A) (k : A -> M B) w
    (Q : B -> World -> Prop) :
  r = Ok a -> returns (k a) w Q -> returns (bind (lift r) k) w Q.
Proof. intros ->. exact id. Qed.

Lemma returns_datetime_now {B} (k : datetime -> M B) w (Q : B -> World -> Prop) :
  returns (k (clock w (clock_reads w))) (snd (datetime_now w)) Q ->
  returns (bind datetime_now k) w Q.
Proof. exact id. Qed.

Lemma returns_logger {B} r (k : unit -> M B) w (Q : B -> World -> Prop) :
  returns (k tt) (snd (logger r w)) Q -> returns (bind (logger r) k) w Q.
Proof. exact id. Qed.

Lemma returns_try_except (body : M unit) (handler : exn -> M unit) w
    (Q : unit -> World -> Prop) :
  returns body w Q -> returns (try_except body handler) w Q.
Proof.
  intros ([] & w' & Hm & HQ). exists tt, w'. split; [|exact HQ].
  unfold try_except. rewrite Hm. reflexivity.
Qed.

Lemma returns_for_each {A} (R : World -> World -> Prop) (l : list A)
    (body : A -> M unit) :
  (forall w, R w w) ->
  (forall w1 w2 w3, R w1 w2 -> R w2 w3 -> R w1 w3) ->
  (forall x w1, In x l -> returns (body x) w1 (fun _ w2 => R w1 w2)) ->
  forall w, returns (for_each l body) w (fun _ w' => R w w').
Proof.
  intros Hrefl Htrans. induction l as [|x l IH]; intros Hb w.
  - apply returns_ret, Hrefl.
  - cbn [for_each]. eapply returns_bind; [apply Hb; left; reflexivity|].
    intros [] w1 H1. eapply returns_mono.
    + apply IH. intros y w2 Hy. apply Hb. right. exact Hy.
    + intros [] w2 H2. exact (Htrans _ _ _ H1 H2).
Qed.

(** ** What one analysis does to the engine *)

Lemma settled_refl a : settled a a.
Proof. left. reflexivity. Qed.

Lemma settled_trans a b c : settled a b -> settled b c -> settled a c.
Proof.
  intros [->|[Ha [now ->]]] [->|[Hb [now' ->]]].
  - left. reflexivity.
  - right. eauto.
  - right. eauto.
  - discriminate.
Qed.

Lemma Forall2_settled_refl l : Forall2 settled l l.
Proof. apply Forall_Forall2_diag, Forall_forall. intros. apply settled_refl. Qed.

Lemma resolution_settled metric_name category a a' :
  resolution metric_name category a a' -> settled a a'.
Proof.
  unfold resolution, is_active_for.
  destruct (Alert.resolved a) eqn:Hres; cbn [negb andb].
  - intros ->. left. reflexivity.
  - destruct (_ && _); [intros [now ->]; right; eauto | intros ->; left; reflexivity].
Qed.

Lemma cpu_recent_not_recorded : ~ In "cpu_recent"%string metric_names.
Proof. cbv. intuition discriminate. Qed.

Lemma detector_step_refl d : detector_step d d.
Proof. split; [reflexivity|]. split; [reflexivity|]. intros name. left. reflexivity. Qed.

Lemma detector_step_trans d1 d2 d3 :
  detector_step d1 d2 -> detector_step d2 d3 -> detector_step d1 d3.
Proof.
  intros (Hw1 & Ht1 & Hh1) (Hw2 & Ht2 & Hh2).
  split; [congruence|]. split; [congruence|]. intros name.
  destruct (Hh2 name) as [Heq2|(Hin & history & Hl & Hb)].
  - destruct (Hh1 name) as [Heq1|(Hin & history & Hl & Hb)].
    + left. congruence.
    + right. split; [exact Hin|]. exists history. split; [congruence | exact Hb].
  - right. split; [exact Hin|]. exists history. split; [exact Hl|].
    rewrite <- Hw1. exact Hb.
Qed.

Lemma detector_step_cpu_recent d d' :
  detector_step d d' ->
  AnomalyDetector.data_history d' !! "cpu_recent"%string
  = AnomalyDetector.data_history d !! "cpu_recent"%string.
Proof.
  intros (_ & _ & Hh). destruct (Hh "cpu_recent"%string) as [Heq|[Hin _]]; [exact Heq|].
  destruct (cpu_recent_not_recorded Hin).
Qed.

Lemma detector_step_add metric_name value d :
  In metric_name metric_names ->
  detector_step d (AnomalyDetector.add_data_point metric_name value d).
Proof.
  intros Hin. split; [reflexivity|]. split; [reflexivity|]. intros name.
  unfold AnomalyDetector.add_data_point. cbn [AnomalyDetector.data_history].
  destruct (decide (name = metric_name)) as [->|Hne].
  - right. split; [exact Hin|]. eexists. split; [apply lookup_insert_eq|].
    intros Hw. set (h1 := (_ ++ [value])%list).
    assert (Hlen1 : (1 <= length h1)%nat) by (subst h1; rewrite length_app; simpl; lia).
    destruct (Z.ltb_spec (AnomalyDetector.window_size d) (Z.of_nat (length h1))).
    + rewrite slice_from_last_length by lia. lia.
    + lia.
  - left. apply lookup_insert_ne. congruence.
Qed.

Lemma quiet_step_refl w : quiet_step w w.
Proof.
  repeat (split; [reflexivity|]). exists []. split; [symmetry; apply app_nil_r | constructor].
Qed.

Lemma quiet_step_trans w1 w2 w3 :
  quiet_step w1 w2 -> quiet_step w2 w3 -> quiet_step w1 w3.
Proof.
  intros (Hs1 & Hc1 & Hf1 & Hn1 & Ht1 & lines1 & Hl1 & Hq1)
         (Hs2 & Hc2 & Hf2 & Hn2 & Ht2 & lines2 & Hl2 & Hq2).
  repeat (split; [congruence|]).
  exists (lines1 ++ lines2)%list. split.
  - rewrite Hl2, Hl1, app_assoc. reflexivity.
  - apply Forall_app. split; assumption.
Qed.

Lemma analysis_step_refl w : analysis_step w w.
Proof.
  repeat (split; [reflexivity|]). split; [apply detector_step_refl|].
  split; [exists []; split; [symmetry; apply app_nil_r | constructor]|].
  exists []. rewrite !app_nil_r.
  split; [apply Forall2_settled_refl|]. split; [reflexivity | constructor].
Qed.

Lemma analysis_step_trans w1 w2 w3 :
  analysis_step w1 w2 -> analysis_step w2 w3 -> analysis_step w1 w3.
Proof.
  intros (Hc1 & Hr1 & Hs1 & Ha1 & Hk1 & Hf1 & Hn1 & Hd1 & (lines1 & Hl1 & Hq1)
          & new1 & HF1 & Hsent1 & Ho1)
         (Hc2 & Hr2 & Hs2 & Ha2 & Hk2 & Hf2 & Hn2 & Hd2 & (lines2 & Hl2 & Hq2)
          & new2 & HF2 & Hsent2 & Ho2).
  repeat (split; [congruence|]).
  split; [exact (detector_step_trans _ _ _ Hd1 Hd2)|].
  split.
  { exists (lines1 ++ lines2)%list. split.
    - rewrite Hl2, Hl1, app_assoc. reflexivity.
    - apply Forall_app. split; assumption. }
  exists (new1 ++ new2)%list. split; [|split].
  - rewrite app_assoc.
    apply (Forall2_trans settled settled settled _
             (alert_history (self w2) ++ new2)%list _ settled_trans); [|exact HF2].
    apply Forall2_app; [exact HF1 | apply Forall2_settled_refl].
  - rewrite Hsent2, Hsent1, app_assoc. reflexivity.
  - apply Forall_app. split; [exact Ho1|].
    eapply Forall_impl; [exact Ho2|]. intros a (Hres & Hrt & Hcat).
    split; [exact Hres|]. split; [exact Hrt|].
    destruct Hcat as [Hcat|[Hcat Hsome]]; [left; exact Hcat|].
    right. split; [exact Hcat|].
    rewrite <- (detector_step_cpu_recent _ _ Hd1). exact Hsome.
Qed.

Lemma quiet_analysis_step w w' : quiet_step w w' -> analysis_step w w'.
Proof.
  intros (Hs & Hc & Hf & Hn & Ht & Hlines).
  unfold analysis_step. rewrite Hs.
  repeat (split; [done|]). split; [apply detector_step_refl|].
  split; [exact Hlines|].
  exists []. rewrite !app_nil_r.
  split; [apply Forall2_settled_refl|]. split; [exact Ht | constructor].
Qed.

Lemma returns_eq {A} (m m' : M A) w w' (Q : A -> World -> Prop) :
  m w = m' w' -> returns m' w' Q -> returns m w Q.
Proof. unfold returns. intros ->. exact id. Qed.

Ltac rsimpl :=
  match goal with
  | |- returns ?m ?w ?Q =>
    let E := fresh in
    eassert (E : m w = _) by (mstep; reflexivity);
    match type of E with
    | _ = ?m' ?w' => apply (returns_eq m m' w w' Q E); clear E
    end
  end.

Section Analysis.
Context `{Runtime}.

Lemma resolve_active_returns metric_name category l w :
  returns (resolve_active metric_name category l) w
    (fun l' w' => Forall2 (resolution metric_name category) l l' /\ quiet_step w w').
Proof.
  revert w. induction l as [|a l IH]; intros w.
  - apply returns_ret. split; [constructor | apply quiet_step_refl].
  - cbn [resolve_active].
    destruct (is_active_for metric_name category a) eqn:Ea.
    + rsimpl. eapply returns_bind; [apply IH|].
      intros l' w2 [Hall Hq]. apply returns_ret. split.
      * constructor; [|exact Hall]. unfold resolution. rewrite Ea. eauto.
      * eapply quiet_step_trans; [|exact Hq].
        repeat (split; [reflexivity|]). eexists. split; [reflexivity|].
        repeat constructor.
    + rsimpl. eapply returns_bind; [apply IH|].
      intros l' w2 [Hall Hq]. apply returns_ret. split; [|exact Hq].
      constructor; [|exact Hall]. unfold resolution. rewrite Ea. reflexivity.
Qed.

Lemma check_threshold_alert_returns metric_name value threshold category w :
  In category ["system"; "application"]%string ->
  returns (check_threshold_alert metric_name value threshold category) w
    (fun _ w' => analysis_step w w').
Proof.
  intros Hcat. unfold check_threshold_alert.
  destruct (Qgtb value threshold).
  - rsimpl. destruct (List.filter _ _).
    + unfold append_alert, send_alert. rsimpl.
      eexists tt, _. split; [reflexivity|].
      unfold analysis_step. cbn.
      repeat (split; [reflexivity|]). split; [apply detector_step_refl|].
      split; [eexists; split; [reflexivity | repeat constructor]|].
      eexists. split; [apply Forall2_settled_refl|]. split; [reflexivity|].
      apply List.Forall_cons; [|apply List.Forall_nil].
      split; [reflexivity|]. split; [reflexivity|]. left. exact Hcat.
    + apply returns_ret, analysis_step_refl.
  - rsimpl. eapply returns_bind; [apply resolve_active_returns|].
    intros l' w1 [Hall (Hs & Hc & Hf & Hn & Ht & Hlines)].
    eexists tt, _. split; [reflexivity|].
    unfold analysis_step. cbn. rewrite Hs.
    repeat (split; [done|]). split; [apply detector_step_refl|].
    split; [exact Hlines|].
    exists []. rewrite !app_nil_r. split; [|split; [exact Ht | constructor]].
    eapply Forall2_impl; [exact Hall|]. apply resolution_settled.
Qed.


Lemma detect_trend_returns (d : AnomalyDetector.t) (metric_name : string)
    (points : Z) :
  (2 <= points)%Z ->
  exists trend, AnomalyDetector.detect_trend d metric_name points = Ok trend.
Proof.
  intros Hp. unfold AnomalyDetector.detect_trend.
  destruct (AnomalyDetector.data_history d !! metric_name) as [history|];
    [|eexists; reflexivity].
  destruct (Z.ltb_spec (Z.of_nat (length history)) points); [eexists; reflexivity|].
  rewrite slope_defined by (rewrite slice_from_last_length by lia; lia).
  eexists. reflexivity.
Qed.

Lemma anomaly_check_names metric_name category :
  In (metric_name, category) anomaly_checks ->
  In metric_name metric_names /\ In category ["system"; "application"]%string.
Proof.
  intros Hin. split; [exact (in_map fst _ _ Hin)|].
  unfold anomaly_checks in Hin. cbn [In] in Hin |- *.
  intuition (simplify_eq; auto).
Qed.

Lemma detect_anomaly_returns metric_name value category w :
  In (metric_name, category) anomaly_checks ->
  returns (detect_anomaly (metric_name, value, category)) w
    (fun _ w' => analysis_step w w').
Proof.
  intros Hin. destruct (anomaly_check_names _ _ Hin) as [Hname Hcat].
  unfold detect_anomaly. rsimpl.
  set (w1 := with_self _ w).
  assert (H1 : analysis_step w w1).
  { unfold analysis_step. cbn.
    repeat (split; [reflexivity|]). split; [apply detector_step_add, Hname|].
    split; [exists []; split; [symmetry; apply app_nil_r | constructor]|].
    exists []. rewrite !app_nil_r.
    split; [apply Forall2_settled_refl|]. split; [reflexivity | constructor]. }
  destruct (is_anomaly_returns (anomaly_detector (self w1)) metric_name value)
    as [[flag z_score] Hr].
  eapply returns_lift; [exact Hr|]. cbv beta iota.
  destruct flag; [|apply returns_ret, H1].
  destruct (detect_trend_returns (anomaly_detector (self w1)) metric_name 10)
    as [trend Ht]; [lia|].
  eapply returns_lift; [exact Ht|].
  unfold append_alert, send_alert. rsimpl.
  eexists tt, _. split; [reflexivity|].
  apply (analysis_step_trans _ _ _ H1).
  unfold analysis_step. cbn.
  repeat (split; [reflexivity|]). split; [apply detector_step_refl|].
  split; [eexists; split; [reflexivity | repeat constructor]|].
  eexists. split; [apply Forall2_settled_refl|]. split; [reflexivity|].
  apply List.Forall_cons; [|apply List.Forall_nil].
  split; [reflexivity|]. split; [reflexivity|]. left. exact Hcat.
Qed.

Lemma detect_anomalies_returns system_metrics app_metrics w :
  returns (detect_anomalies system_metrics app_metrics) w
    (fun _ w' => analysis_step w w').
Proof.
  unfold detect_anomalies.
  apply (returns_for_each analysis_step);
    [apply analysis_step_refl | apply analysis_step_trans|].
  intros [[metric_name value] category] w1 Hin.
  apply detect_anomaly_returns.
  unfold metrics_to_check in Hin. cbn [In] in Hin. unfold anomaly_checks. cbn [In].
  intuition congruence.
Qed.

Lemma slice_from_last_nonempty {A} (k : Z) (l : list A) :
  (0 < k <= Z.of_nat (length l))%Z -> slice_from (- k) l <> [].
Proof.
  intros Hk Hnil. pose proof (slice_from_last_length k l Hk) as Hlen.
  rewrite Hnil in Hlen. simpl in Hlen. lia.
Qed.

Lemma generate_predictive_alerts_returns w :
  returns generate_predictive_alerts w (fun _ w' => analysis_step w w').
Proof.
  unfold generate_predictive_alerts. rsimpl.
  destruct (Nat.ltb_spec (length (system_metrics_history (self w))) 10) as [|Hlen];
    [apply returns_ret, analysis_step_refl|].
  destruct (detect_trend_returns (anomaly_detector (self w)) "cpu_recent" 5)
    as [cpu_trend Ht]; [lia|].
  eapply returns_lift; [exact Ht|].
  destruct (String.eqb cpu_trend "increasing") eqn:Etrend;
    [|apply returns_ret, analysis_step_refl].
  destruct (mean_defined
              (map SystemMetrics.cpu_percent
                 (slice_from (-10) (system_metrics_history (self w)))))
    as [avg_cpu Hmean].
  { intros Hnil. apply map_eq_nil in Hnil.
    apply (slice_from_last_nonempty 10 (system_metrics_history (self w))); [lia|].
    exact Hnil. }
  eapply returns_lift; [exact Hmean|].
  destruct (Qgtb avg_cpu 60); [|apply returns_ret, analysis_step_refl].
  unfold append_alert, send_alert. rsimpl.
  eexists tt, _. split; [reflexivity|].
  unfold analysis_step. cbn.
  repeat (split; [reflexivity|]). split; [apply detector_step_refl|].
  split; [eexists; split; [reflexivity | repeat constructor]|].
  eexists. split; [apply Forall2_settled_refl|]. split; [reflexivity|].
  apply List.Forall_cons; [|apply List.Forall_nil].
  split; [reflexivity|]. split; [reflexivity|]. right. split; [reflexivity|].
  unfold AnomalyDetector.detect_trend in Ht.
  destruct (AnomalyDetector.data_history _ !! "cpu_recent"%string); [eauto|].
  injection Ht as <-. discriminate.
Qed.

Lemma analysis_bind (m : M unit) (k : unit -> M unit) w :
  returns m w (fun _ w' => analysis_step w w') ->
  (forall w1, returns (k tt) w1 (fun _ w' => analysis_step w1 w')) ->
  returns (bind m k) w (fun _ w' => analysis_step w w').
Proof.
  intros Hm Hk. eapply returns_bind; [exact Hm|].
  intros [] w1 H1. eapply returns_mono; [apply Hk|].
  intros [] w2 H2. exact (analysis_step_trans _ _ _ H1 H2).
Qed.

Lemma analyze_metrics_returns system_metrics app_metrics w :
  returns (analyze_metrics system_metrics app_metrics) w
    (fun _ w' => analysis_step w w').
Proof.
  unfold analyze_metrics. rsimpl.
  repeat (apply analysis_bind;
          [apply check_threshold_alert_returns; cbn [In]; tauto | intros ?]).
  apply analysis_bind.
  - destruct (anomaly_detection _);
      [apply detect_anomalies_returns | apply returns_ret, analysis_step_refl].
  - intros w6. destruct (enable_predictive_alerts _);
      [apply generate_predictive_alerts_returns | apply returns_ret, analysis_step_refl].
Qed.

End Analysis.

(** ** The report *)

Lemma py_max_defined (l : list Q) : l <> [] -> exists m, py_max l = Ok m.
Proof. destruct l; [congruence | eexists; reflexivity]. Qed.

Lemma slice_from_nonempty {A} (k : Z) (l : list A) :
  (0 < k)%Z -> l <> [] -> slice_from (- k) l <> [].
Proof.
  intros Hk Hl. destruct (Z.le_gt_cases k (Z.of_nat (length l))).
  - apply slice_from_last_nonempty. lia.
  - rewrite slice_from_short by lia. exact Hl.
Qed.

Lemma map_slice_nonempty {A B} (f : A -> B) (k : Z) (l : list A) :
  (0 < k)%Z -> l <> [] -> map f (slice_from (- k) l) <> [].
Proof.
  intros Hk Hl Hnil. apply map_eq_nil in Hnil.
  exact (slice_from_nonempty k l Hk Hl Hnil).
Qed.

Lemma generate_recommendations_returns (w : World) :
  returns generate_recommendations w
    (fun recommendations w' =>
       only_reads_clock 1 w w' /\
       recommendations <> [] /\
       (length recommendations <= 6)%nat /\
       (In default_recommendation recommendations ->
        recommendations = [default_recommendation])).
Proof.
  unfold generate_recommendations. rsimpl. cbv zeta.
  eapply returns_bind with
    (Q1 := fun from_system w1 =>
             w1 = w /\ (length from_system <= 3)%nat /\
             ~ In default_recommendation from_system).
  { destruct (system_metrics_history (self w)) as [|m l] eqn:Hsys.
    - apply returns_ret. split; [reflexivity|]. split; [simpl; lia | intros []].
    - rewrite <- Hsys.
      assert (Hne : system_metrics_history (self w) <> []) by (rewrite Hsys; discriminate).
      destruct (mean_defined _ (map_slice_nonempty SystemMetrics.cpu_percent 30 _ eq_refl Hne))
        as [avg_cpu Hcpu].
      destruct (mean_defined _ (map_slice_nonempty SystemMetrics.memory_percent 30 _ eq_refl Hne))
        as [avg_memory Hmem].
      change (-30)%Z with (- 30)%Z.
      eapply returns_lift; [exact Hcpu|]. eapply returns_lift; [exact Hmem|].
      apply returns_ret. split; [reflexivity|].
      destruct (Qgtb avg_cpu 80), (Qgtb avg_memory 85), (5 <? _)%nat;
        (split; [simpl; lia|]); cbn [In app]; unfold default_recommendation;
        intuition discriminate. }
  intros from_system w1 (-> & Hlen1 & Hd1).
  eapply returns_bind with
    (Q1 := fun from_app w1 =>
             w1 = w /\ (length from_app <= 2)%nat /\
             ~ In default_recommendation from_app).
  { destruct (app_metrics_history (self w)) as [|m l] eqn:Happ.
    - apply returns_ret. split; [reflexivity|]. split; [simpl; lia | intros []].
    - rewrite <- Happ.
      assert (Hne : app_metrics_history (self w) <> []) by (rewrite Happ; discriminate).
      destruct (mean_defined _
                  (map_slice_nonempty ApplicationMetrics.response_time_ms 30 _ eq_refl Hne))
        as [avg_response Hresp].
      destruct (mean_defined _
                  (map_slice_nonempty ApplicationMetrics.error_rate 30 _ eq_refl Hne))
        as [avg_error Herr].
      change (-30)%Z with (- 30)%Z.
      eapply returns_lift; [exact Hresp|]. cbv zeta.
      eapply returns_lift; [exact Herr|].
      apply returns_ret. split; [reflexivity|].
      destruct (Qgtb avg_response 1000), (Qgtb avg_error 10);
        (split; [simpl; lia|]); cbn [In app]; unfold default_recommendation;
        intuition discriminate. }
  intros from_app w1 (-> & Hlen2 & Hd2).
  rsimpl. cbv zeta.
  set (from_alerts := if (20 <? _)%nat then _ else _).
  assert (Hlen3 : (length from_alerts <= 1)%nat)
    by (subst from_alerts; destruct (20 <? _)%nat; simpl; lia).
  assert (Hd3 : ~ In default_recommendation from_alerts).
  { subst from_alerts. destruct (20 <? _)%nat; cbn [In]; unfold default_recommendation;
      intuition discriminate. }
  assert (Hclock : only_reads_clock 1 w (snd (datetime_now w))).
  { repeat split; try reflexivity. cbn. lia. }
  destruct (from_system ++ from_app ++ from_alerts)%list as [|r rest] eqn:Hall.
  - apply returns_ret. split; [exact Hclock|]. split; [discriminate|].
    split; [simpl; lia|]. intros _. reflexivity.
  - apply returns_ret. split; [exact Hclock|]. split; [discriminate|].
    rewrite <- Hall. split.
    + rewrite !length_app. lia.
    + intros Hin. apply in_app_or in Hin as [Hin|Hin]; [contradiction|].
      apply in_app_or in Hin as [Hin|Hin]; contradiction.
Qed.

Lemma filter_length_le {A} (f : A -> bool) (l : list A) :
  (length (List.filter f l) <= length l)%nat.
Proof. induction l as [|a l IH]; simpl; [lia|]. destruct (f a); simpl; lia. Qed.

Lemma filter_disjoint_length {A} (f g : A -> bool) (l : list A) :
  (forall a, f a = true -> g a = false) ->
  (length (List.filter f l) + length (List.filter g l) <= length l)%nat.
Proof.
  intros Hfg. induction l as [|a l IH]; simpl; [lia|].
  destruct (f a) eqn:Ef; [rewrite (Hfg a Ef)|destruct (g a)]; simpl; lia.
Qed.

Lemma generate_performance_report_returns (w : World) :
  returns generate_performance_report w
    (fun report w' =>
       only_reads_clock 2 w w' /\
       Report.generated_at report = isoformat (clock w (clock_reads w)) /\
       Report.monitoring_period_hours report = 24%Z /\
       Report.alerts_total_24h report
       = length (recent_alerts (clock w (clock_reads w)) w) /\
       (Report.alerts_critical report + Report.alerts_warnings report
        <= Report.alerts_total_24h report)%nat /\
       (Report.alerts_resolved report <= Report.alerts_total_24h report)%nat /\
       Report.recommendations report <> [] /\
       (In default_recommendation (Report.recommendations report) ->
        Report.recommendations report = [default_recommendation])).
Proof.
  unfold generate_performance_report. rsimpl. cbv zeta.
  set (w0 := snd (datetime_now w)).
  eapply returns_bind with (Q1 := fun _ w1 => w1 = w0).
  { destruct (system_metrics_history (self w0)) as [|m l] eqn:Hsys.
    - apply returns_ret. reflexivity.
    - rewrite <- Hsys.
      assert (Hne : system_metrics_history (self w0) <> []) by (rewrite Hsys; discriminate).
      destruct (mean_defined _ (map_slice_nonempty SystemMetrics.cpu_percent 60 _ eq_refl Hne))
        as [avg_cpu Hcpu].
      destruct (mean_defined _ (map_slice_nonempty SystemMetrics.memory_percent 60 _ eq_refl Hne))
        as [avg_memory Hmem].
      destruct (py_max_defined _ (map_slice_nonempty SystemMetrics.cpu_percent 60 _ eq_refl Hne))
        as [max_cpu Hmcpu].
      destruct (py_max_defined _ (map_slice_nonempty SystemMetrics.memory_percent 60 _ eq_refl Hne))
        as [max_memory Hmmem].
      change (-60)%Z with (- 60)%Z.
      eapply returns_lift; [exact Hcpu|]. eapply returns_lift; [exact Hmem|].
      eapply returns_lift; [exact Hmcpu|]. eapply returns_lift; [exact Hmmem|].
      apply returns_ret. reflexivity. }
  intros [[[avg_cpu avg_memory] max_cpu] max_memory] w1 ->.
  eapply returns_bind with (Q1 := fun _ w1 => w1 = w0).
  { destruct (app_metrics_history (self w0)) as [|m l] eqn:Happ.
    - apply returns_ret. reflexivity.
    - rewrite <- Happ.
      assert (Hne : app_metrics_history (self w0) <> []) by (rewrite Happ; discriminate).
      destruct (mean_defined _
                  (map_slice_nonempty ApplicationMetrics.response_time_ms 60 _ eq_refl Hne))
        as [avg_response Hresp].
      destruct (mean_defined _
                  (map_slice_nonempty ApplicationMetrics.error_rate 60 _ eq_refl Hne))
        as [avg_error Herr].
      change (-60)%Z with (- 60)%Z.
      eapply returns_lift; [exact Hresp|]. eapply returns_lift; [exact Herr|].
      apply returns_ret. reflexivity. }
  intros [avg_response_time avg_error_rate] w1 ->.
  eapply returns_bind; [apply generate_recommendations_returns|].
  intros recommendations w1 ((Hs & Hc & Hr & Hf & Hn & Ht & Hl) & Hne & _ & Hdef).
  apply returns_ret. cbn [Report.generated_at Report.alerts_total_24h
    Report.monitoring_period_hours
    Report.alerts_critical Report.alerts_warnings Report.alerts_resolved
    Report.recommendations].
  split.
  { unfold only_reads_clock. rewrite Hs, Hc, Hr, Hf, Hn, Ht, Hl. subst w0. cbn.
    repeat split. lia. }
  split; [reflexivity|]. split; [reflexivity|]. split; [reflexivity|].
  split; [|split; [apply filter_length_le | split; assumption]].
  apply filter_disjoint_length. intros a Ha.
  apply String.eqb_eq in Ha. rewrite Ha. reflexivity.
Qed.



(** ** One cycle of the monitoring loop *)

Lemma save_alert_history_step (w : World) :
  returns save_alert_history w
    (fun _ w' =>
       self w' = self w /\ clock w' = clock w /\ clock_reads w' = clock_reads w /\
       next_write w' = next_write w /\ sent w' = sent w /\
       file_step (alert_history (self w)) (alert_file w) (alert_file w') /\
       (next_write w = Written ->
        alert_file w' = Some (Records (map alert_to_dict (alert_history (self w))))) /\
       exists lines, logged w' = logged w ++ lines /\ Forall save_line lines).
Proof.
  unfold returns, save_alert_history, try_except. mstep.
  unfold write_alert_file. rewrite to_dict_all_serializable.
  destruct (next_write w) eqn:Hnext; eexists tt, _; (split; [reflexivity|]); cbn;
    repeat (split; [reflexivity|]); unfold file_step.
  - split; [auto|]. split; [reflexivity|].
    exists []. split; [symmetry; apply app_nil_r | constructor].
  - split; [auto|]. split; [discriminate|].
    eexists. split; [reflexivity|]. repeat constructor. eexists. reflexivity.
  - split; [auto|]. split; [discriminate|].
    eexists. split; [reflexivity|]. repeat constructor. eexists. reflexivity.
Qed.

Section Cycle.
Context `{Runtime}.

Lemma monitoring_cycle_returns system_metrics app_metrics w :
  returns (monitoring_cycle system_metrics app_metrics) w
    (fun _ w' =>
       exists w2,
         analysis_step (record_samples system_metrics app_metrics w) w2 /\
         self w' = self w2 /\ clock w' = clock w2 /\
         next_write w' = next_write w2 /\ sent w' = sent w2 /\
         file_step (alert_history (self w2)) (alert_file w2) (alert_file w') /\
         (if (Z.of_nat (length (alert_history (self w2))) mod 10 =? 0)%Z
          then next_write w2 = Written ->
               alert_file w'
               = Some (Records (map alert_to_dict (alert_history (self w2))))
          else alert_file w' = alert_file w2) /\
         exists lines,
           logged w' = logged w2 ++ lines ++ [LogInfo "Metrics collected"] /\
           Forall save_line lines).
Proof.
  unfold monitoring_cycle. apply returns_try_except. rsimpl.
  eapply returns_bind; [apply analyze_metrics_returns|].
  intros [] w2 H2. rsimpl.
  destruct (_ =? 0)%Z eqn:Ecount.
  - eapply returns_bind; [apply save_alert_history_step|].
    intros [] w3 (Hs & Hc & Hr & Hn & Ht & Hf & Hw & lines & Hl & Hq).
    eexists tt, _. split; [reflexivity|].
    exists w2. split; [exact H2|].
    cbn [self clock next_write sent alert_file logged logger modify snd].
    do 5 (split; [assumption|]). rewrite Ecount. split; [exact Hw|].
    exists lines. split; [rewrite Hl, app_assoc; reflexivity | exact Hq].
  - rsimpl. eexists tt, _. split; [reflexivity|].
    exists w2. split; [exact H2|]. cbn.
    repeat (split; [reflexivity|]). split; [left; reflexivity|].
    rewrite Ecount. split; [reflexivity|].
    exists []. split; [reflexivity | constructor].
Qed.

Lemma stop_monitoring_returns w :
  returns stop_monitoring w
    (fun _ w' =>
       self w' = set_running false (self w) /\ sent w' = sent w /\
       file_step (alert_history (self w)) (alert_file w) (alert_file w') /\
       (next_write w = Written ->
        alert_file w' = Some (Records (map alert_to_dict (alert_history (self w))))) /\
       exists lines,
         logged w'
         = logged w ++ lines ++ [LogInfo "Final performance report saved";
                                 LogInfo "Performance monitoring stopped"] /\
         Forall save_line lines).
Proof.
  unfold stop_monitoring. rsimpl.
  eapply returns_bind; [apply save_alert_history_step|].
  intros [] w1 (Hs & Hc & Hr & Hn & Ht & Hf & Hw & lines & Hl & Hq).
  eapply returns_bind; [apply generate_performance_report_returns|].
  intros report w2 ((Hs2 & _ & _ & Hf2 & _ & Ht2 & Hl2) & _).
  rsimpl. eexists tt, _. split; [reflexivity|]. cbn.
  rewrite Hs2, Hs, Ht2, Ht, Hf2, Hl2, Hl. cbn.
  repeat (split; [done|]).
  exists lines. split; [|exact Hq]. rewrite <- !app_assoc. reflexivity.
Qed.

End Cycle.

(** ** What holds in every reachable state *)

Lemma detector_ok_new : detector_ok AnomalyDetector.new.
Proof.
  split; [reflexivity|]. split; [reflexivity|].
  intros name history Hl. cbn in Hl. rewrite lookup_empty in Hl. discriminate.
Qed.

Lemma detector_ok_step d d' : detector_ok d -> detector_step d d' -> detector_ok d'.
Proof.
  intros (Hw & Ht & Hh) (Hw' & Ht' & Hh').
  split; [congruence|]. split; [congruence|]. intros name history Hl.
  destruct (Hh' name) as [Heq|(Hin & history' & Hl' & Hb)].
  - apply Hh. congruence.
  - split; [exact Hin|]. rewrite Hl' in Hl. injection Hl as <-.
    rewrite Hw in Hb. lia.
Qed.

Lemma detector_ok_cpu_recent d :
  detector_ok d -> AnomalyDetector.data_history d !! "cpu_recent"%string = None.
Proof.
  intros (_ & _ & Hh).
  destruct (AnomalyDetector.data_history d !! "cpu_recent"%string) as [history|] eqn:Hl;
    [|reflexivity].
  destruct (cpu_recent_not_recorded (proj1 (Hh _ _ Hl))).
Qed.

Lemma settled_sound a a' : settled a a' -> sound_alert a -> sound_alert a'.
Proof.
  intros [->|[_ [now ->]]]; [exact id|]. intros [Hcat _].
  split; [exact Hcat|]. split; [intros _; eexists; reflexivity | reflexivity].
Qed.

Lemma sound_alert_step d l new l' :
  detector_ok d ->
  Forall sound_alert l ->
  Forall (alert_origin d) new ->
  Forall2 settled (l ++ new) l' ->
  Forall sound_alert l'.
Proof.
  intros Hd Hl Hnew Hall.
  assert (Hboth : Forall sound_alert (l ++ new)).
  { apply Forall_app. split; [exact Hl|].
    eapply Forall_impl; [exact Hnew|]. intros a (Hres & Hrt & Hcat). split.
    - destruct Hcat as [Hcat|[_ Hsome]]; [exact Hcat|].
      rewrite (detector_ok_cpu_recent d Hd) in Hsome. destruct Hsome; discriminate.
    - unfold stamped. rewrite Hres, Hrt.
      split; [discriminate | intros [? ?]; discriminate]. }
  clear Hl Hnew. induction Hall as [|a a' k k' Ha _ IH]; [constructor|].
  apply Forall_cons in Hboth as [Hsound Hrest].
  constructor; [exact (settled_sound _ _ Ha Hsound) | apply IH, Hrest].
Qed.

(** A saved alert reloads with a resolution time exactly when it had
    one. *)
Lemma alert_of_dict_resolution_time (a a' : Alert.t) :
  alert_of_dict (alert_to_dict a) = Ok a' ->
  (is_Some (Alert.resolution_time a') <-> is_Some (Alert.resolution_time a)).
Proof.
  unfold alert_of_dict, getitem.
  rewrite alert_to_dict_timestamp, alert_to_dict_severity, alert_to_dict_category,
    alert_to_dict_message, alert_to_dict_value, alert_to_dict_threshold,
    alert_to_dict_duration_minutes, alert_to_dict_resolved,
    alert_to_dict_resolution_time.
  cbn [result_bind as_str as_float as_int as_bool from_option id].
  destruct (fromisoformat (isoformat (Alert.timestamp a))) as [ts|e];
    cbn [result_bind]; [|discriminate].
  destruct (Alert.resolution_time a) as [rt|]; cbn [truthy result_bind as_str].
  - rewrite isoformat_nonempty. cbn [negb result_bind].
    destruct (fromisoformat (isoformat rt)) as [rt'|e]; cbn [result_bind];
      [|discriminate].
    intros [= <-]. cbn. split; intros _; eexists; reflexivity.
  - intros [= <-]. reflexivity.
Qed.

Lemma alert_of_dict_sound (a a' : Alert.t) :
  alert_of_dict (alert_to_dict a) = Ok a' -> sound_alert a -> sound_alert a'.
Proof.
  intros Hload [Hcat Hstamp].
  pose proof (alert_of_dict_retimed _ _ Hload) as (_ & Hc & _ & _ & _ & _ & Hres).
  pose proof (alert_of_dict_resolution_time _ _ Hload) as Hrt.
  split.
  - unfold known_category. rewrite Hc. exact Hcat.
  - unfold stamped in *. rewrite Hres, Hrt. exact Hstamp.
Qed.

Lemma file_sound_step l f f' :
  Forall sound_alert l -> file_sound f -> file_step l f f' -> file_sound f'.
Proof.
  intros Hl Hf [->|[->| ->]]; [exact Hf | exact I|].
  clear Hf. cbn [file_sound]. induction l as [|a l IH]; intros l'; cbn [map alerts_of_data].
  - intros [= <-]. constructor.
  - apply Forall_cons in Hl as [Hsound Hrest].
    destruct (alert_of_dict (alert_to_dict a)) as [a'|e] eqn:Ea; cbn [result_bind];
      [|discriminate].
    destruct (alerts_of_data (map alert_to_dict l)) as [l0|e] eqn:El; cbn [result_bind];
      [|discriminate].
    intros [= <-].
    constructor; [exact (alert_of_dict_sound _ _ Ea Hsound) | apply (IH Hrest), eq_refl].
Qed.

Lemma kept_length {A} (limit : Z) (l : list A) :
  (1 <= limit)%Z -> (Z.of_nat (length (kept limit l)) <= limit)%Z.
Proof.
  intros Hlimit. unfold kept.
  destruct (Z.ltb_spec limit (Z.of_nat (length l))); [|lia].
  rewrite slice_from_last_length by lia. lia.
Qed.

Lemma kept_length_eq {A B} (limit : Z) (l : list A) (k : list B) :
  length l = length k -> length (kept limit l) = length (kept limit k).
Proof.
  intros Hlen. unfold kept, slice_from. rewrite <- Hlen.
  destruct (_ <? _)%Z; [|exact Hlen].
  rewrite !length_drop, Hlen. reflexivity.
Qed.

Section Steady.
Context `{Runtime}.

Lemma steady_start cfg clk file :
  file_sound file -> steady (start cfg clk file).
Proof.
  intros Hfile. unfold start, exec, load_alert_history. mstep. cbn [alert_file].
  assert (Hempty : steady
            {| self := new_monitor cfg; clock := clk; clock_reads := 0;
               alert_file := file; next_write := Written; sent := []; logged := [] |}).
  { split; [apply detector_ok_new|]. split; [constructor|]. split; [exact Hfile|].
    split; [reflexivity|]. cbn. lia. }
  destruct file as [[|data]|]; unfold try_except; cbn [json_load]; mstep;
    try exact Hempty.
  destruct (alerts_of_data data) as [l|e] eqn:Hl; mstep; [|exact Hempty].
  destruct Hempty as (Hd & _ & Hf & Hh).
  split; [exact Hd|]. split; [exact (Hfile l Hl)|]. split; assumption.
Qed.

Lemma steady_monitoring_cycle system_metrics app_metrics w :
  steady w -> steady (exec (monitoring_cycle system_metrics app_metrics) w).
Proof.
  intros (Hd & Hl & Hf & Hlen & Hbound).
  destruct (monitoring_cycle_returns system_metrics app_metrics w)
    as ([] & w' & Hrun & w2 & Hstep & Hs & _ & _ & _ & Hfile & _ & _).
  unfold exec. rewrite Hrun. cbn [snd].
  destruct Hstep as (Hc2 & _ & Hs2 & Ha2 & _ & Hf2 & _ & Hd2 & _ & new & HF & _ & Ho).
  cbn in Hc2, Hs2, Ha2, Hf2, Hd2, HF, Ho.
  assert (Hl2 : Forall sound_alert (alert_history (self w2)))
    by exact (sound_alert_step _ _ _ _ Hd Hl Ho HF).
  split; [rewrite Hs; exact (detector_ok_step _ _ Hd Hd2)|].
  split; [rewrite Hs; exact Hl2|].
  split.
  { apply (file_sound_step _ (alert_file w2) _ Hl2); [rewrite Hf2; exact Hf | exact Hfile]. }
  unfold histories_ok. rewrite Hs, Hs2, Ha2, Hc2. split.
  - apply kept_length_eq. rewrite !length_app, Hlen. reflexivity.
  - intros Hlimit. apply kept_length, Hlimit.
Qed.

Lemma steady_stop_monitoring w : steady w -> steady (exec stop_monitoring w).
Proof.
  intros (Hd & Hl & Hf & Hh).
  destruct (stop_monitoring_returns w) as ([] & w' & Hrun & Hs & _ & Hfile & _).
  unfold exec. rewrite Hrun. cbn [snd].
  split; [rewrite Hs; exact Hd|]. split; [rewrite Hs; exact Hl|].
  split; [exact (file_sound_step _ _ _ Hl Hf Hfile)|].
  rewrite Hs. exact Hh.
Qed.

Lemma reachable_steady w : reachable w -> steady w.
Proof.
  induction 1 as [cfg clk | w o system_metrics app_metrics _ IH
                 | w o _ IH | w cfg clk _ IH].
  - apply steady_start. exact I.
  - apply steady_monitoring_cycle. exact IH.
  - apply steady_stop_monitoring. exact IH.
  - apply steady_start. apply IH.
Qed.

End Steady.




(** X11: in every reachable state the detector has the settings of
    [AnomalyDetector()], and holds histories for the four metrics of
    [detect_anomalies] only, each of 1 to 50 values. *)
Theorem reachable_detector_bounded `{Runtime} (w : World) :
  reachable w ->
  AnomalyDetector.window_size (anomaly_detector (self w)) = 50%Z /\
  AnomalyDetector.threshold (anomaly_detector (self w)) = 25 # 10 /\
  forall name history,
    AnomalyDetector.data_history (anomaly_detector (self w)) !! name = Some history ->
    In name ["cpu_percent"; "memory_percent"; "response_time_ms"; "error_rate"]%string /\
    (1 <= length history <= 50)%nat.
Proof. intros Hw. exact (proj1 (reachable_steady w Hw)). Qed.

Lemma reachable_detector_bounded_witness :
  AnomalyDetector.window_size (anomaly_detector (self breach_world)) = 50%Z /\
  AnomalyDetector.threshold (anomaly_detector (self breach_world)) = 25 # 10 /\
  forall name history,
    AnomalyDetector.data_history (anomaly_detector (self breach_world)) !! name
    = Some history ->
    In name ["cpu_percent"; "memory_percent"; "response_time_ms"; "error_rate"]%string /\
    (1 <= length history <= 50)%nat.
Proof.
  exact (reachable_detector_bounded (H := Reference.runtime) breach_world
           (reachable_cpu_run _)).
Defined.

(** X12: no reachable state has a predictive alert, and in every reachable
    state [generate_predictive_alerts] does nothing: the trend it asks for
    is that of "cpu_recent", a metric no code records, so the answer is
    always "insufficient_data".  Every alert of a reachable log has the
    category system or application. *)
Theorem predictive_alerts_unreachable `{Runtime} (w : World) :
  reachable w ->
  generate_predictive_alerts w = (Ok tt, w) /\
  AnomalyDetector.detect_trend (anomaly_detector (self w)) "cpu_recent" 5
  = Ok "insufficient_data"%string /\
  Forall (fun a => In (Alert.category a) ["system"; "application"]%string)
    (alert_history (self w)).
Proof.
  intros Hw. destruct (reachable_steady w Hw) as (Hd & Hl & _).
  pose proof (detector_ok_cpu_recent _ Hd) as Hnone.
  assert (Ht : AnomalyDetector.detect_trend (anomaly_detector (self w)) "cpu_recent" 5
               = Ok "insufficient_data"%string)
    by (unfold AnomalyDetector.detect_trend; rewrite Hnone; reflexivity).
  split; [|split; [exact Ht|]].
  2: { eapply Forall_impl; [exact Hl|]. intros a [Hcat _]. exact Hcat. }
  unfold generate_predictive_alerts. mstep.
  destruct (_ <? 10)%nat; [reflexivity|]. rewrite Ht. reflexivity.
Qed.

Lemma predictive_alerts_unreachable_witness :
  generate_predictive_alerts (H := Reference.runtime) rising_world
  = (Ok tt, rising_world) /\
  AnomalyDetector.detect_trend (anomaly_detector (self rising_world)) "cpu_recent" 5
  = Ok "insufficient_data"%string /\
  Forall (fun a => In (Alert.category a) ["system"; "application"]%string)
    (alert_history (self rising_world)).
Proof.
  exact (predictive_alerts_unreachable (H := Reference.runtime) rising_world
           (reachable_cpu_run _)).
Defined.

(** X13: in every reachable state the two metric histories have the same
    length, and when [historical_data_points] is at least 1 they hold at
    most that many samples. *)
Theorem reachable_histories_bounded `{Runtime} (w : World) :
  reachable w ->
  length (system_metrics_history (self w)) = length (app_metrics_history (self w)) /\
  ((1 <= historical_data_points (config (self w)))%Z ->
   (Z.of_nat (length (system_metrics_history (self w)))
    <= historical_data_points (config (self w)))%Z).
Proof. intros Hw. exact (proj2 (proj2 (proj2 (reachable_steady w Hw)))). Qed.

Lemma reachable_histories_bounded_witness :
  length (system_metrics_history (self breach_world))
  = length (app_metrics_history (self breach_world)) /\
  ((1 <= historical_data_points (config (self breach_world)))%Z ->
   (Z.of_nat (length (system_metrics_history (self breach_world)))
    <= historical_data_points (config (self breach_world)))%Z).
Proof.
  exact (reachable_histories_bounded (H := Reference.runtime) breach_world
           (reachable_cpu_run _)).
Defined.

(** X28: in every reachable state each alert of the log is resolved
    exactly when it has a resolution time: alerts are opened without one,
    a resolution sets both fields together, and a reload reads back both
    or neither. *)
Theorem reachable_alerts_stamped `{Runtime} (w : World) :
  reachable w ->
  Forall (fun a => Alert.resolved a = true <-> is_Some (Alert.resolution_time a))
    (alert_history (self w)).
Proof.
  intros Hw. destruct (reachable_steady w Hw) as (_ & Hl & _).
  eapply Forall_impl; [exact Hl|]. intros a [_ Hstamp]. exact Hstamp.
Qed.

Lemma reachable_alerts_stamped_witness :
  Forall (fun a => Alert.resolved a = true <-> is_Some (Alert.resolution_time a))
    (alert_history (self recovery_world)).
Proof.
  exact (reachable_alerts_stamped (H := Reference.runtime) recovery_world
           (reachable_cpu_run _)).
Defined.

Section Notified.
Context `{Runtime}.





End Notified.




(** ** Reading the alert file *)








(** ** Threshold alerts, from any log *)

Lemma resolution_clears metric_name category (l l' : list Alert.t) :
  Forall2 (resolution metric_name category) l l' ->
  List.filter (is_active_for metric_name category) l' = [].
Proof.
  induction 1 as [|a a' l l' Ha _ IH]; [reflexivity|].
  cbn [List.filter]. unfold resolution in Ha.
  destruct (is_active_for metric_name category a) eqn:Ea.
  - destruct Ha as [now ->]. rewrite resolve_inactive. exact IH.
  - subst a'. rewrite Ea. exact IH.
Qed.

(** X16: a sample within the threshold leaves no unresolved alert for the
    metric in the category, whatever the log held: every alert that was
    active for it is resolved and stamped, every other alert is left as it
    was, in place; nothing is sent and the alert file is not written. *)
Theorem check_threshold_alert_recovery_clears `{Runtime} (metric_name : string)
    (value threshold : Q) (category : string) (w : World) :
  value <= threshold ->
  exists w',
    check_threshold_alert metric_name value threshold category w = (Ok tt, w') /\
    List.filter (is_active_for metric_name category) (alert_history (self w')) = [] /\
    Forall2 (fun a a' =>
               if is_active_for metric_name category a
               then exists now, a' = Alert.resolve now a
               else a' = a)
      (alert_history (self w)) (alert_history (self w')) /\
    sent w' = sent w /\ alert_file w' = alert_file w.
Proof.
  intros Hle.
  destruct (check_threshold_alert_resolves metric_name value threshold category w Hle)
    as (l' & reads & lines & Hrun & Hall).
  eexists. split; [exact Hrun|]. cbn.
  split; [exact (resolution_clears _ _ _ _ Hall)|].
  split; [exact Hall|]. split; reflexivity.
Qed.

Lemma check_threshold_alert_recovery_clears_witness :
  List.filter (is_active_for "Memory Usage" "system")
    (alert_history
       (self (exec (check_threshold_alert (H := Reference.runtime)
                      "Memory Usage" 50 85 "system") sample_logged_world)))
  = [].
Proof.
  destruct (check_threshold_alert_recovery_clears (H := Reference.runtime)
              "Memory Usage" 50 85 "system" sample_logged_world)
    as (w' & Hrun & Hnone & _); [unfold Qle; simpl; lia|].
  unfold exec. rewrite Hrun. exact Hnone.
Defined.

(** X17: the severity of an open alert is never raised.  When a breach
    that is only a WARNING (at most 1.2 times the threshold) opens an alert,
    a later breach of the same metric, however far above the threshold,
    changes nothing: no second alert, no notification, and the alert of the
    log keeps the severity WARNING and the value of the first breach. *)
Theorem check_threshold_alert_no_escalation `{Runtime} (metric_name : string)
    (first later threshold : Q) (category : string) (w : World) :
  threshold < first -> first <= threshold * (12 # 10) ->
  threshold < later ->
  List.filter (is_active_for metric_name category) (alert_history (self w)) = [] ->
  exists w1 alert,
    check_threshold_alert metric_name first threshold category w = (Ok tt, w1) /\
    alert_history (self w1) = alert_history (self w) ++ [alert] /\
    sent w1 = sent w ++ [alert] /\
    Alert.severity alert = "WARNING"%string /\
    Alert.value alert = first /\
    Alert.resolved alert = false /\
    check_threshold_alert metric_name later threshold category w1 = (Ok tt, w1).
Proof.
  intros Hfirst Hwarn Hlater Hnone.
  eexists _, _. split; [exact (check_threshold_alert_opens _ _ _ _ w Hfirst Hnone)|].
  cbn [self alert_history set_log set_alert_history sent].
  split; [reflexivity|]. split; [reflexivity|].
  split.
  { cbn. unfold breach_severity. apply Qgtb_false in Hwarn. rewrite Hwarn. reflexivity. }
  split; [reflexivity|]. split; [reflexivity|].
  apply check_threshold_alert_dedup; [exact Hlater|].
  cbn [self alert_history set_log set_alert_history].
  rewrite List.filter_app, Hnone. cbn [List.filter app].
  rewrite threshold_alert_active. discriminate.
Qed.

Lemma check_threshold_alert_no_escalation_witness :
  exists w1 alert,
    check_threshold_alert (H := Reference.runtime) "CPU Usage" 90 80 "system"
      sample_world = (Ok tt, w1) /\
    alert_history (self w1) = alert_history (self sample_world) ++ [alert] /\
    sent w1 = sent sample_world ++ [alert] /\
    Alert.severity alert = "WARNING"%string /\
    Alert.value alert = 90 /\
    Alert.resolved alert = false /\
    check_threshold_alert (H := Reference.runtime) "CPU Usage" 100 80 "system" w1
    = (Ok tt, w1).
Proof.
  apply (check_threshold_alert_no_escalation (H := Reference.runtime)
           "CPU Usage" 90 100 80 "system" sample_world).
  - unfold Qlt. simpl. lia.
  - unfold Qle. simpl. lia.
  - unfold Qlt. simpl. lia.
  - reflexivity.
Defined.

(** ** Merging the configuration *)

Lemma merge_configs_loop default items :
  ConfigFile.merge_configs default (ConfigFile.JDict items) = merge_loop default items.
Proof.
  cbn [ConfigFile.merge_configs]. revert default.
  induction items as [|[key value] rest IH]; intros default; [reflexivity|].
  cbn [merge_loop].
  destruct (ConfigFile.dict_get key default) as [[]|]; try apply IH.
  destruct value; try apply IH.
  destruct (ConfigFile.merge_configs _ _); [reflexivity | apply IH].
Qed.

Lemma json_size_dict items :
  json_size (ConfigFile.JDict items) = S (items_size items).
Proof.
  cbn [json_size]. f_equal. unfold items_size.
  induction items as [|[k v] rest IH]; [reflexivity|].
  cbn [fold_right snd]. rewrite <- IH. reflexivity.
Qed.

Lemma dict_get_set_eq key v d :
  ConfigFile.dict_get key (ConfigFile.dict_set key v d) = Some v.
Proof.
  induction d as [|[k x] rest IH]; cbn [ConfigFile.dict_set ConfigFile.dict_get].
  - rewrite String.eqb_refl. reflexivity.
  - destruct (String.eqb k key) eqn:E; cbn [ConfigFile.dict_get]; rewrite E;
      [reflexivity | exact IH].
Qed.

Lemma dict_get_set_ne key other v d :
  other <> key ->
  ConfigFile.dict_get other (ConfigFile.dict_set key v d) = ConfigFile.dict_get other d.
Proof.
  intros Hne.
  induction d as [|[k x] rest IH]; cbn [ConfigFile.dict_set ConfigFile.dict_get].
  - destruct (String.eqb_spec key other); [congruence | reflexivity].
  - destruct (String.eqb_spec k key) as [->|Hk]; cbn [ConfigFile.dict_get].
    + destruct (String.eqb_spec key other); [congruence | reflexivity].
    + destruct (String.eqb k other); [reflexivity | exact IH].
Qed.

Lemma dict_set_keys key v d :
  map fst (ConfigFile.dict_set key v d)
  = match ConfigFile.dict_get key d with
    | Some _ => map fst d
    | None => (map fst d ++ [key])%list
    end.
Proof.
  induction d as [|[k x] rest IH]; cbn [ConfigFile.dict_set ConfigFile.dict_get map fst];
    [reflexivity|].
  destruct (String.eqb k key); cbn [map fst]; [reflexivity|].
  rewrite IH. destruct (ConfigFile.dict_get key rest); reflexivity.
Qed.

Lemma dict_get_none key d :
  ~ In key (map fst d) -> ConfigFile.dict_get key d = None.
Proof.
  induction d as [|[k x] rest IH]; cbn [ConfigFile.dict_get map fst In]; [reflexivity|].
  intros Hnot. destruct (String.eqb_spec k key); [tauto|]. apply IH. tauto.
Qed.

(** [merge_configs] returns a [dict] whenever the user's value is one. *)
Lemma merge_configs_total n :
  forall default items,
    (items_size items < n)%nat ->
    exists result, merge_loop default items = inr result.
Proof.
  induction n as [|n IH]; intros default items Hsize; [lia|].
  revert default. induction items as [|[key value] rest IHrest]; intros default.
  - eexists. reflexivity.
  - cbn [items_size fold_right snd] in Hsize. fold (items_size rest) in Hsize.
    assert (Hrest : (items_size rest < S n)%nat) by lia.
    cbn [merge_loop].
    destruct (ConfigFile.dict_get key default) as [[]|]; try (apply IHrest; exact Hrest).
    destruct value as [| | | | | |inner]; try (apply IHrest; exact Hrest).
    rewrite merge_configs_loop.
    destruct (IH items inner) as [merged ->];
      [rewrite json_size_dict in Hsize; lia|].
    apply IHrest. exact Hrest.
Qed.

Lemma merge_loop_lookup items :
  forall result merged,
    List.NoDup (map fst items) ->
    merge_loop result items = inr merged ->
    forall key,
      ConfigFile.dict_get key merged
      = merged_entry (ConfigFile.dict_get key result) (ConfigFile.dict_get key items).
Proof.
  induction items as [|[k v] rest IH]; intros result merged Hnodup Hrun key.
  - cbn in Hrun. injection Hrun as <-. reflexivity.
  - cbn [map fst] in Hnodup. apply List.NoDup_cons_iff in Hnodup as [Hk Hnodup].
    assert (Hstep : forall x,
              merge_loop (ConfigFile.dict_set k x result) rest = inr merged ->
              merged_entry (ConfigFile.dict_get k result) (Some v) = Some x ->
              ConfigFile.dict_get key merged
              = merged_entry (ConfigFile.dict_get key result)
                  (ConfigFile.dict_get key ((k, v) :: rest))).
    { intros x Hx Hentry. rewrite (IH _ _ Hnodup Hx key).
      cbn [ConfigFile.dict_get]. destruct (String.eqb_spec k key) as [->|Hne].
      - rewrite dict_get_set_eq, dict_get_none by exact Hk.
        cbn [merged_entry]. symmetry. exact Hentry.
      - rewrite dict_get_set_ne by congruence. reflexivity. }
    cbn [merge_loop] in Hrun. cbn [merged_entry] in Hstep.
    destruct (ConfigFile.dict_get k result) as [[]|];
      try (apply (Hstep v Hrun); destruct v; reflexivity).
    destruct v; try (apply (Hstep _ Hrun); reflexivity).
    destruct (ConfigFile.merge_configs _ _) as [e|inner] eqn:Hinner; [discriminate|].
    apply (Hstep _ Hrun). reflexivity.
Qed.

Lemma merge_loop_keys items :
  forall result merged,
    merge_loop result items = inr merged ->
    exists added, map fst merged = (map fst result ++ added)%list.
Proof.
  induction items as [|[k v] rest IH]; intros result merged Hrun.
  - cbn in Hrun. injection Hrun as <-. exists []. symmetry. apply app_nil_r.
  - assert (Hstep : forall x,
              merge_loop (ConfigFile.dict_set k x result) rest = inr merged ->
              exists added, map fst merged = (map fst result ++ added)%list).
    { intros x Hx. destruct (IH _ _ Hx) as [added Hadded].
      rewrite dict_set_keys in Hadded.
      destruct (ConfigFile.dict_get k result); [eauto|].
      rewrite <- app_assoc in Hadded. eauto. }
    cbn [merge_loop] in Hrun.
    destruct (ConfigFile.dict_get k result) as [[]|]; try exact (Hstep _ Hrun).
    destruct v; try exact (Hstep _ Hrun).
    destruct (ConfigFile.merge_configs _ _); [discriminate | exact (Hstep _ Hrun)].
Qed.

(** X18: [merge_configs] on two dicts returns a dict, key by key: a key the
    user's document lacks keeps the default; a key it holds takes the
    user's value, except that where both sides hold a dict the two are
    merged in turn.  So a user value that is no dict replaces a whole
    default section.  The keys of the defaults keep their places and the
    user's new keys follow. *)
Theorem merge_configs_by_key (default user : ConfigFile.dict) :
  List.NoDup (map fst user) ->
  exists merged,
    ConfigFile.merge_configs default (ConfigFile.JDict user) = inr merged /\
    (forall key,
       ConfigFile.dict_get key merged
       = match ConfigFile.dict_get key user with
         | None => ConfigFile.dict_get key default
         | Some value =>
           match ConfigFile.dict_get key default, value with
           | Some (ConfigFile.JDict d), ConfigFile.JDict _ =>
             match ConfigFile.merge_configs d value with
             | inr inner => Some (ConfigFile.JDict inner)
             | inl _ => None
             end
           | _, _ => Some value
           end
         end) /\
    (forall key d u,
       ConfigFile.dict_get key default = Some (ConfigFile.JDict d) ->
       ConfigFile.dict_get key user = Some (ConfigFile.JDict u) ->
       exists inner,
         ConfigFile.merge_configs d (ConfigFile.JDict u) = inr inner /\
         ConfigFile.dict_get key merged = Some (ConfigFile.JDict inner)) /\
    exists added, map fst merged = (map fst default ++ added)%list.
Proof.
  intros Hnodup. rewrite merge_configs_loop.
  destruct (merge_configs_total (S (items_size user)) default user) as [merged Hrun];
    [lia|].
  exists merged. split; [exact Hrun|].
  pose proof (merge_loop_lookup user default merged Hnodup Hrun) as Hlookup.
  split; [|split; [|exact (merge_loop_keys _ _ _ Hrun)]].
  - intros key. rewrite Hlookup. unfold merged_entry.
    destruct (ConfigFile.dict_get key user); reflexivity.
  - intros key d u Hd Hu. rewrite merge_configs_loop.
    destruct (merge_configs_total (S (items_size u)) d u) as [inner Hinner]; [lia|].
    exists inner. split; [exact Hinner|].
    rewrite Hlookup, Hd, Hu. cbn [merged_entry].
    rewrite merge_configs_loop, Hinner. reflexivity.
Qed.

Lemma merge_configs_by_key_witness :
  exists merged,
    ConfigFile.merge_configs ConfigFile.DEFAULT_CONFIG
      (ConfigFile.JDict sample_user_config) = inr merged /\
    ConfigFile.dict_get "notifications" merged = Some ConfigFile.JNull /\
    ConfigFile.dict_get "region" merged = Some (ConfigFile.JStr "eu") /\
    ConfigFile.dict_get "advanced" merged
    = ConfigFile.dict_get "advanced" ConfigFile.DEFAULT_CONFIG /\
    map fst merged = ["monitoring"; "targets"; "notifications"; "advanced"; "region"]%string.
Proof.
  destruct (merge_configs_by_key ConfigFile.DEFAULT_CONFIG sample_user_config)
    as (merged & Hrun & Hlookup & _ & _).
  { repeat (apply List.NoDup_cons; [cbn; intuition discriminate|]). apply List.NoDup_nil. }
  exists merged. split; [exact Hrun|].
  rewrite !Hlookup. vm_compute in Hrun. injection Hrun as <-.
  repeat split.
Defined.

(** X19: what [load_config] does with the configuration file.  A file
    that holds a JSON object is merged over the defaults and left as it
    is, and nothing is written.  In every other case (no file, text that is
    no JSON, or a document that is not an object) the defaults are written
    to the path: when the write goes through the file now holds the
    defaults, so a file that could not be read is replaced, and the
    defaults are returned; when the write fails, [load_config] raises and
    no monitor is built.  The loading error is printed exactly when a file
    was there. *)
Theorem load_config_outcome (config_path : option ConfigFile.text)
    (next_write : write_outcome) :
  (forall user,
     config_path = Some (ConfigFile.Document (ConfigFile.JDict user)) ->
     exists merged,
       ConfigFile.merge_configs ConfigFile.DEFAULT_CONFIG (ConfigFile.JDict user)
       = inr merged /\
       ConfigFile.load_config config_path next_write
       = (inr merged, config_path, false)) /\
  ((forall user,
      config_path <> Some (ConfigFile.Document (ConfigFile.JDict user))) ->
   let printed := match config_path with Some _ => true | None => false end in
   ConfigFile.load_config config_path next_write
   = match next_write with
     | Written =>
       (inr ConfigFile.DEFAULT_CONFIG,
        Some (ConfigFile.Document (ConfigFile.JDict ConfigFile.DEFAULT_CONFIG)),
        printed)
     | OpenFails => (inl ConfigFile.OSError, config_path, printed)
     | DumpFails => (inl ConfigFile.OSError, Some ConfigFile.Unparsable, printed)
     end).
Proof.
  split.
  - intros user ->.
    destruct (merge_configs_total (S (items_size user)) ConfigFile.DEFAULT_CONFIG user)
      as [merged Hrun]; [lia|].
    rewrite <- merge_configs_loop in Hrun.
    exists merged. split; [exact Hrun|].
    unfold ConfigFile.load_config. cbn [ConfigFile.json_load]. rewrite Hrun. reflexivity.
  - intros Hother printed. subst printed. unfold ConfigFile.load_config.
    destruct config_path as [[|[]]|]; cbn [ConfigFile.json_load ConfigFile.merge_configs];
      try reflexivity.
    destruct (Hother items). reflexivity.
Qed.

(** ** The application probes *)

(** X20: the error rate follows the probe: 100 when the service is not
    reached (refused, or the attempt raised), 25 when it answers slower
    than [response_time_threshold_ms], 1 otherwise.  So, where the
    threshold is not negative, the error rate exceeds the fixed limit of 20
    that [analyze_metrics] checks it against exactly when the probe failed
    or was slow; the call changes nothing but the log lines. *)
Theorem calculate_error_rate_follows_probe (p : probe) (w : World) :
  exists rate w',
    calculate_error_rate p w = (Ok rate, w') /\
    self w' = self w /\ sent w' = sent w /\ alert_file w' = alert_file w /\
    rate = match p with
           | Connected elapsed_ms =>
             if Qgtb elapsed_ms (response_time_threshold_ms (config (self w)))
             then 25 else 1
           | _ => 100
           end /\
    (Qgtb rate 20 = true <->
     match p with
     | Connected elapsed_ms =>
       response_time_threshold_ms (config (self w)) < elapsed_ms
     | _ => True
     end).
Proof.
  destruct p as [elapsed_ms| |e]; unfold calculate_error_rate, measure_response_time;
    mstep; cbn [efloat_gtb].
  - destruct (Qgtb elapsed_ms _) eqn:E;
      (eexists _, _; split; [reflexivity|]); do 4 (split; [reflexivity|]).
    + apply Qgtb_true in E. split; [intros _; exact E | intros _; reflexivity].
    + apply Qgtb_false in E. split; [discriminate | intros Hlt; lra].
  - eexists _, _. split; [reflexivity|]. do 4 (split; [reflexivity|]).
    split; [intros _; exact I | intros _; reflexivity].
  - eexists _, _. split; [reflexivity|]. do 4 (split; [reflexivity|]).
    split; [intros _; exact I | intros _; reflexivity].
Qed.

(** X21: the throughput is always a finite number, never negative; it is 0
    exactly when the service is not reached or takes 1000 ms or more, and
    it is 100 minus a tenth of the response time otherwise. *)
Theorem calculate_throughput_range (p : probe) (w : World) :
  exists rps w',
    calculate_throughput p w = (Ok (Fin rps), w') /\
    0 <= rps /\
    match p with
    | Connected elapsed_ms =>
      if Qgtb 1000 elapsed_ms then rps == 100 - elapsed_ms / 10 else rps == 0
    | _ => rps == 0
    end.
Proof.
  destruct p as [elapsed_ms| |e]; unfold calculate_throughput, measure_response_time;
    mstep; unfold efloat_max; cbn [efloat_div efloat_rsub efloat_gtb];
    unfold Qdiv; change (/ 10) with (1 # 10).
  - destruct (Qgtb _ 0) eqn:E.
    + eexists _, _. split; [reflexivity|]. apply Qgtb_true in E.
      split; [lra|].
      destruct (Qgtb 1000 elapsed_ms) eqn:E2; [reflexivity|].
      apply Qgtb_false in E2. exfalso. lra.
    + eexists _, _. split; [reflexivity|]. apply Qgtb_false in E.
      split; [lra|].
      destruct (Qgtb 1000 elapsed_ms) eqn:E2; [|reflexivity].
      apply Qgtb_true in E2. lra.
  - eexists _, _. split; [reflexivity|]. split; [lra | reflexivity].
  - eexists _, _. split; [reflexivity|]. split; [lra | reflexivity].
Qed.

Lemma py_fmod_range (x m : Q) : 0 < m -> 0 <= py_fmod x m /\ py_fmod x m < m.
Proof.
  intros Hm. unfold py_fmod.
  pose proof (Qfloor_le (x / m)) as Hlo. pose proof (Qlt_floor (x / m)) as Hhi.
  rewrite inject_Z_plus in Hhi.
  set (f := inject_Z (Qfloor (x / m))) in *.
  assert (Hx : x - m * f == m * (x / m - f)) by (field; lra).
  rewrite Hx. split.
  - apply Qmult_le_0_compat; lra.
  - change (inject_Z 1) with 1 in Hhi.
    apply Qlt_le_trans with (m * 1); [|rewrite Qmult_1_r; apply Qle_refl].
    apply Qmult_lt_l; [exact Hm | lra].
Qed.

Lemma py_int_range (x : Q) (m : Z) :
  0 <= x -> x < inject_Z m -> (0 <= py_int x < m)%Z.
Proof.
  intros Hlo Hhi. unfold py_int.
  destruct (Qltb x 0) eqn:E; [apply Qltb_true in E; lra|].
  split.
  - change 0%Z with (Qfloor 0). apply Qfloor_resp_le, Hlo.
  - apply Z.lt_nge. intros Hge.
    pose proof (Qfloor_le x) as Hf.
    assert (inject_Z m <= inject_Z (Qfloor x)) by (rewrite <- Zle_Qle; exact Hge).
    lra.
Qed.

(** X22: the simulated gauges stay in fixed ranges at every time: 1 to 99
    active users, 1 to 49 database connections, 0 to 19 queued messages.
    The upper clamps [min(100, ...)] and [min(50, ...)] and the lower clamp
    [max(0, ...)] never apply. *)
Theorem simulated_gauges_range (now : Q) :
  (1 <= get_active_users now <= 99)%Z /\
  (1 <= get_database_connections now <= 49)%Z /\
  (0 <= get_queue_size now <= 19)%Z /\
  get_active_users now = Z.max 1 (py_int (py_fmod now 100)) /\
  get_database_connections now = Z.max 1 (py_int (py_fmod now 50)) /\
  get_queue_size now = py_int (py_fmod now 20).
Proof.
  unfold get_active_users, get_database_connections, get_queue_size.
  destruct (py_fmod_range now 100) as [H1 H2]; [reflexivity|].
  destruct (py_fmod_range now 50) as [H3 H4]; [reflexivity|].
  destruct (py_fmod_range now 20) as [H5 H6]; [reflexivity|].
  pose proof (py_int_range _ 100 H1 H2).
  pose proof (py_int_range _ 50 H3 H4).
  pose proof (py_int_range _ 20 H5 H6).
  lia.
Qed.

(** ** The one-shot modes of main *)

Section MainProperties.
Context `{Runtime}.

(** A monitor just built has recorded no sample and sent nothing, and has
    not touched the alert file. *)
Lemma start_fresh cfg clk file :
  system_metrics_history (self (start cfg clk file)) = [] /\
  app_metrics_history (self (start cfg clk file)) = [] /\
  sent (start cfg clk file) = [] /\
  alert_file (start cfg clk file) = file /\
  clock (start cfg clk file) = clk /\
  clock_reads (start cfg clk file) = 0%nat /\
  config (self (start cfg clk file)) = cfg.
Proof.
  unfold start, exec, load_alert_history. mstep. cbn [alert_file].
  destruct file as [[|data]|]; unfold try_except; cbn [json_load]; mstep;
    try (repeat split; reflexivity).
  destruct (alerts_of_data data) as [l|e]; mstep; repeat split; reflexivity.
Qed.


(** X24: [--test-alert] hands one INFO alert of category "test" to the
    notification channels and does nothing else: the alert is not added to
    the log, so it is never saved, and the alert file is left as found. *)
Theorem main_test_alert_not_logged (cfg : Config) (clk : nat -> datetime)
    (file : option file_content) :
  exists w',
    main_test_alert cfg clk file = (Ok tt, w') /\
    sent w' = [test_alert (clk 0%nat)] /\
    alert_history (self w') = alert_history (self (start cfg clk file)) /\
    alert_file w' = file /\
    (file = None -> alert_history (self w') = []).
Proof.
  destruct (start_fresh cfg clk file) as (_ & _ & Hsent & Hfile & Hclk & Hreads & _).
  unfold main_test_alert, send_alert. mstep.
  eexists. split; [reflexivity|]. cbn. rewrite Hsent, Hfile, Hclk, Hreads.
  repeat (split; [reflexivity|]). intros ->. reflexivity.
Qed.

End MainProperties.

(** ** The z-score test *)

Section Verdict.
Context `{Runtime}.

(** X25: with at least 10 recorded values and a standard deviation that is
    not 0, [is_anomaly] returns the distance of the value from the mean of
    the history in standard deviations, and flags the value exactly when
    that distance exceeds [threshold] standard deviations. *)
Theorem is_anomaly_verdict (d : AnomalyDetector.t) (metric_name : string)
    (value : Q) (history : list Q) (mu sd : Q) :
  AnomalyDetector.data_history d !! metric_name = Some history ->
  (10 <= length history)%nat ->
  mean history = Ok mu ->
  stdev history = Ok sd ->
  ~ sd == 0 ->
  exists z_score,
    AnomalyDetector.is_anomaly d metric_name value
    = Ok (Qgtb z_score (AnomalyDetector.threshold d), z_score) /\
    z_score == Qabs (value - mu) / Qabs sd /\
    (Qgtb z_score (AnomalyDetector.threshold d) = true
     <-> AnomalyDetector.threshold d * Qabs sd < Qabs (value - mu)).
Proof.
  intros Hh Hlen Hmu Hsd Hnz.
  unfold AnomalyDetector.is_anomaly. rewrite Hh.
  destruct (Nat.ltb_spec (length history) 10); [lia|].
  rewrite Hmu. cbn [result_bind].
  destruct (Nat.ltb_spec 1 (length history)); [|lia].
  rewrite Hsd. cbn [result_bind].
  destruct (Qeq_bool sd 0) eqn:E; [apply Qeq_bool_iff in E; contradiction|].
  unfold py_div. rewrite E. cbn [result_bind].
  eexists. split; [reflexivity|].
  assert (Hz : Qabs ((value - mu) / sd) == Qabs (value - mu) / Qabs sd).
  { unfold Qdiv. rewrite Qabs_Qmult, Qabs_Qinv. reflexivity. }
  split; [exact Hz|].
  assert (Hpos : 0 < Qabs sd).
  { destruct (Qlt_le_dec sd 0) as [Hneg|Hge].
    - rewrite Qabs_neg by lra. lra.
    - rewrite Qabs_pos by exact Hge.
      destruct (Qlt_le_dec 0 sd) as [|Hle]; [assumption|].
      exfalso. apply Hnz. lra. }
  rewrite Qgtb_true, Hz. split.
  - intros Hlt. apply (Qmult_lt_r _ _ (Qabs sd) Hpos) in Hlt.
    assert (Heq : Qabs (value - mu) / Qabs sd * Qabs sd == Qabs (value - mu))
      by (field; lra).
    rewrite Heq in Hlt. exact Hlt.
  - intros Hlt. apply Qlt_shift_div_l; assumption.
Qed.

End Verdict.

Lemma is_anomaly_verdict_witness :
  exists z_score,
    AnomalyDetector.is_anomaly (H := Reference.runtime) spike_detector "cpu_percent" 20
    = Ok (true, z_score).
Proof.
  destruct (is_anomaly_verdict (H := Reference.runtime) spike_detector "cpu_percent" 20
              (replicate 9 10 ++ [20]) _ _ eq_refl ltac:(simpl; lia) eq_refl eq_refl)
    as (z_score & Hrun & _ & Hiff).
  { intros Heq. vm_compute in Heq. discriminate. }
  exists z_score. rewrite Hrun. f_equal. f_equal.
  apply Hiff. vm_compute. reflexivity.
Defined.

